(** * Shuttle VFD LEDs driver (shuttle_leds.c): model and properties

    The driver keeps one [shuttle_vfd] structure per attached display:
    the global icon mask, one shared 8-byte packet buffer and the
    20-byte screen text.  Every function of the driver is embedded as a
    state transformer over that structure and over the part of the
    kernel the driver talks to (the USB control pipe, the kernel log and
    the sleep clock).  Bytes and masks are [Z], sizes and array indices
    are [nat]. *)

From Stdlib Require Import ZArith Lia Bool.
From stdpp Require Import base numbers list strings gmap.

Local Open Scope Z_scope.

(** ** Constants of the driver *)

Definition SHUTTLE_VFD_WIDTH : nat := 20.
Definition SHUTTLE_VFD_PACKET_SIZE : nat := 8.
Definition SHUTTLE_VFD_DATA_SIZE : nat := (SHUTTLE_VFD_PACKET_SIZE - 1)%nat.
Definition SHUTTLE_VFD_SLEEP_MS : Z := 24.
Definition NUM_LEDS : nat := 15.
Definition SHUTTLE_VFD_ICON_VOL_NUM : Z := 12.
Definition SHUTTLE_VFD_BASE_MASK : Z := 0x7FFF.
Definition LED_OFF : Z := 0.

(** [unsigned long] of an LP64 kernel, and [unsigned int], the type the
    compiler gives [enum led_brightness]. *)
Definition ULONG_MAX : Z := 2 ^ 64 - 1.
Definition UINT_MAX : Z := 2 ^ 32 - 1.

(** [~x] at type [unsigned long]. *)
Definition ulong_not (x : Z) : Z := Z.land (Z.lnot x) ULONG_MAX.

(** [SHUTTLE_VFD_ICON_VOL(x)] is [(x) << 15], computed at the type of
    [x] (32 bits) before it is widened to the mask. *)
Definition SHUTTLE_VFD_ICON_VOL (x : Z) : Z := Z.land (Z.shiftl x 15) UINT_MAX.

(** A store into an [unsigned char] keeps the low 8 bits. *)
Definition to_uchar (v : Z) : Z := v mod 256.

Definition icon_names : list string :=
  ["tv"; "cd"; "music"; "radio"; "clock"; "pause"; "play"; "record";
   "rewind"; "camera"; "mute"; "repeat"; "reverse"; "fastforward"; "stop"].

(** ** Working structures *)

Record vfd_led := mk_led {
  mask : Z;
  name : string;
  max_brightness : Z;
}.

Record shuttle_vfd := mk_vfd {
  vfd_mutex : bool;          (* true while the mutex is held *)
  icons_mask : Z;            (* global mask *)
  packet : list Z;           (* SHUTTLE_VFD_PACKET_SIZE bytes *)
  screen : list Z;           (* SHUTTLE_VFD_WIDTH bytes *)
}.

(** What the driver sees of the rest of the kernel.  [usb_results] is
    the script of the values the next calls of [usb_control_msg] will
    return (the number of bytes transferred, or a negative errno; a
    call past the end of the script succeeds); [usb_sent] the payloads
    handed to [usb_control_msg] so far, oldest first; [dmesg] the
    results reported through [dev_err]; [uptime_ms] the time slept. *)
Record kernel := mk_kernel {
  vfd : shuttle_vfd;
  usb_results : list Z;
  usb_sent : list (list Z);
  dmesg : list Z;
  uptime_ms : Z;
}.

(** ** A state monad over [kernel] *)

Definition M (A : Type) : Type := kernel -> A * kernel.

Definition ret {A} (a : A) : M A := fun k => (a, k).
Definition bind {A B} (c : M A) (f : A -> M B) : M B :=
  fun k => let (a, k') := c k in f a k'.
Definition exec {A} (c : M A) (k : kernel) : kernel := snd (c k).
Definition eval {A} (c : M A) (k : kernel) : A := fst (c k).

Declare Scope vfd_scope.
Delimit Scope vfd_scope with vfd.
Notation "x <- c ;; f" := (bind c (fun x => f))
  (at level 20, c at level 99, f at level 200, only parsing) : vfd_scope.
Notation "c ;; f" := (bind c (fun _ => f))
  (at level 100, f at level 200, only parsing, right associativity) : vfd_scope.
Local Open Scope vfd_scope.

Definition get_vfd : M shuttle_vfd := fun k => (vfd k, k).

Definition modify_vfd (f : shuttle_vfd -> shuttle_vfd) : M unit :=
  fun k => (tt, mk_kernel (f (vfd k)) (usb_results k) (usb_sent k)
                          (dmesg k) (uptime_ms k)).

(** *** Field updates of [struct shuttle_vfd] *)

Definition set_mutex (b : bool) (v : shuttle_vfd) : shuttle_vfd :=
  mk_vfd b (icons_mask v) (packet v) (screen v).
Definition set_icons_mask (m : Z) (v : shuttle_vfd) : shuttle_vfd :=
  mk_vfd (vfd_mutex v) m (packet v) (screen v).
Definition set_packet (p : list Z) (v : shuttle_vfd) : shuttle_vfd :=
  mk_vfd (vfd_mutex v) (icons_mask v) p (screen v).
Definition set_screen (s : list Z) (v : shuttle_vfd) : shuttle_vfd :=
  mk_vfd (vfd_mutex v) (icons_mask v) (packet v) s.

(** [memset(&a[0], 0, n)] on an array of exactly [n] bytes. *)
Definition memset0 (n : nat) : list Z := replicate n 0.

(** [memcpy(dst + at, src, n)]: bytes [at .. at+n-1] of [dst] become the
    first [n] bytes of [src].  The caller keeps [at + n] within [dst]
    and [n] within [src], as the C contract demands. *)
Definition memcpy (dst : list Z) (at_ : nat) (src : list Z) (n : nat) : list Z :=
  take at_ dst ++ take n src ++ drop (at_ + n)%nat dst.

(** [vfd->packet[i] = v]. *)
Definition packet_store (i : nat) (v : Z) (d : shuttle_vfd) : shuttle_vfd :=
  set_packet (<[i := to_uchar v]> (packet d)) d.

(** *** Kernel services used by the driver *)

Definition mutex_lock : M unit := modify_vfd (set_mutex true).
Definition mutex_unlock : M unit := modify_vfd (set_mutex false).

Definition usb_control_msg (payload : list Z) : M Z :=
  fun k =>
    let r := match usb_results k with
             | [] => Z.of_nat SHUTTLE_VFD_PACKET_SIZE
             | r :: _ => r
             end in
    (r, mk_kernel (vfd k) (tail (usb_results k)) (usb_sent k ++ [payload])
                  (dmesg k) (uptime_ms k)).

Definition msleep (ms : Z) : M unit :=
  fun k => (tt, mk_kernel (vfd k) (usb_results k) (usb_sent k) (dmesg k)
                          (uptime_ms k + ms)).

Definition dev_err (code : Z) : M unit :=
  fun k => (tt, mk_kernel (vfd k) (usb_results k) (usb_sent k)
                          (dmesg k ++ [code]) (uptime_ms k)).

(** ** The driver *)

(** [vfd_send_packet(vfd, packet)]: a null [packet] means the shared
    buffer [vfd->packet]. *)
Definition vfd_send_packet (pkt : option (list Z)) : M Z :=
  mutex_lock ;;
  d <- get_vfd ;;
  result <- usb_control_msg (match pkt with
                             | Some p => p
                             | None => packet d
                             end) ;;
  msleep SHUTTLE_VFD_SLEEP_MS ;;
  mutex_unlock ;;
  (if result <? 0 then dev_err result else ret tt) ;;
  ret result.

Definition vfd_reset_cursor (eraseall : bool) : M unit :=
  modify_vfd (set_packet (memset0 SHUTTLE_VFD_PACKET_SIZE)) ;;
  modify_vfd (packet_store 0 (Z.shiftl 1 4 + 1)) ;;
  (if eraseall
   then modify_vfd (packet_store 1 1)
   else modify_vfd (packet_store 1 2)) ;;
  vfd_send_packet None ;;
  ret tt.

Definition vfd_set_icons : M unit :=
  modify_vfd (set_packet (memset0 SHUTTLE_VFD_PACKET_SIZE)) ;;
  modify_vfd (packet_store 0 (Z.shiftl 7 4 + 4)) ;;
  modify_vfd (fun d => packet_store 1 (Z.land (Z.shiftr (icons_mask d) 15) 0x1F) d) ;;
  modify_vfd (fun d => packet_store 2 (Z.land (Z.shiftr (icons_mask d) 10) 0x1F) d) ;;
  modify_vfd (fun d => packet_store 3 (Z.land (Z.shiftr (icons_mask d) 5) 0x1F) d) ;;
  modify_vfd (fun d => packet_store 4 (Z.land (icons_mask d) 0x1F) d) ;;
  vfd_send_packet None ;;
  ret tt.

(** The [for] loop of [vfd_set_text]: [n] full packets, [p] the offset
    of the read pointer into [vfd->screen].  Returns the final [p]. *)
Fixpoint vfd_set_text_loop (n : nat) (p : nat) : M nat :=
  match n with
  | O => ret p
  | S n' =>
      modify_vfd (packet_store 0 (Z.shiftl 9 4 + Z.of_nat SHUTTLE_VFD_DATA_SIZE)) ;;
      modify_vfd (fun d => set_packet
                    (memcpy (packet d) 1 (drop p (screen d)) SHUTTLE_VFD_DATA_SIZE) d) ;;
      vfd_send_packet None ;;
      vfd_set_text_loop n' (p + SHUTTLE_VFD_DATA_SIZE)%nat
  end.

Definition vfd_set_text (len : nat) : M unit :=
  p <- vfd_set_text_loop (len / SHUTTLE_VFD_DATA_SIZE)%nat 0%nat ;;
  let len := (len mod SHUTTLE_VFD_DATA_SIZE)%nat in
  if (len =? 0)%nat then ret tt
  else
    modify_vfd (set_packet (memset0 SHUTTLE_VFD_PACKET_SIZE)) ;;
    modify_vfd (packet_store 0 (Z.shiftl 9 4 + Z.of_nat len)) ;;
    modify_vfd (fun d => set_packet (memcpy (packet d) 1 (drop p (screen d)) len) d) ;;
    vfd_send_packet None ;;
    ret tt.

(** Attribute callback handler (text write). *)
Definition set_vfd_text_handler (buf : list Z) (count : nat) : M Z :=
  (if (count <? SHUTTLE_VFD_WIDTH)%nat
   then modify_vfd (set_screen (memset0 SHUTTLE_VFD_WIDTH))
   else ret tt) ;;
  let l := Nat.min count SHUTTLE_VFD_WIDTH in
  modify_vfd (fun d => set_screen (memcpy (screen d) 0 buf l) d) ;;
  vfd_reset_cursor false ;;
  vfd_set_text SHUTTLE_VFD_WIDTH ;;
  ret (Z.of_nat count).

(** The result of code that indexes a buffer: a value, or the first
    access that falls outside the buffer (undefined behaviour in C). *)
Inductive access (A : Type) : Type :=
  | Ok (a : A)
  | OutOfBounds (idx : Z).
Arguments Ok {A} a.
Arguments OutOfBounds {A} idx.

(** The loop [while (buf[sz-1] == '\0' || buf[sz-1] == '\n') sz--;] of
    the text read handler.  [sz] is the signed counter of the source,
    never negative when the condition is evaluated: at [sz = 0] the
    condition reads [buf[-1]]. *)
Fixpoint trim_loop (buf : list Z) (sz : nat) : access nat :=
  match sz with
  | O => OutOfBounds (-1)
  | S sz' =>
      match buf !! sz' with
      | None => OutOfBounds (Z.of_nat sz')
      | Some c =>
          if (c =? 0) || (c =? 10) then trim_loop buf sz' else Ok sz
      end
  end.

(** Attribute callback handler (text read).  [buf] is the page the
    caller supplies; the handler returns the byte count and the page. *)
Definition get_vfd_text_handler (buf : list Z) : M (access (Z * list Z)) :=
  d <- get_vfd ;;
  let buf := memcpy buf 0 (screen d) SHUTTLE_VFD_WIDTH in
  match trim_loop buf SHUTTLE_VFD_WIDTH with
  | OutOfBounds i => ret (OutOfBounds i)
  | Ok sz => ret (Ok (Z.of_nat sz + 1, <[sz := 10]> buf))
  end.

(** What the reader of the attribute receives: the first [n] bytes. *)
Definition text_read (r : access (Z * list Z)) : access (list Z) :=
  match r with
  | Ok (n, buf) => Ok (take (Z.to_nat n) buf)
  | OutOfBounds i => OutOfBounds i
  end.

Definition vfd_led_generic_set (led : vfd_led) (value : Z) : M unit :=
  (if negb (value =? LED_OFF)
   then modify_vfd (fun d => set_icons_mask (Z.lor (icons_mask d) (mask led)) d)
   else modify_vfd (fun d => set_icons_mask
                               (Z.land (icons_mask d) (ulong_not (mask led))) d)) ;;
  vfd_set_icons.

Definition vfd_led_volume_set (led : vfd_led) (value : Z) : M unit :=
  modify_vfd (fun d => set_icons_mask
                         (Z.land (icons_mask d) SHUTTLE_VFD_BASE_MASK) d) ;;
  (if negb (value =? LED_OFF)
   then modify_vfd (fun d => set_icons_mask
                               (Z.lor (icons_mask d) (SHUTTLE_VFD_ICON_VOL value)) d)
   else ret tt) ;;
  vfd_set_icons.

(** *** Probe
    The structure comes from [kzalloc]; icon [i] gets the mask [1 << i],
    the volume LED the mask 0.  Registration with the LED class and
    with sysfs is the framework's business and is taken to succeed. *)

Definition icon_led (i : nat) : vfd_led :=
  mk_led (Z.shiftl 1 (Z.of_nat i)) (nth i icon_names EmptyString) 1.

Definition volume_led : vfd_led :=
  mk_led 0 "volume" SHUTTLE_VFD_ICON_VOL_NUM.

Definition icons : list vfd_led := map icon_led (seq 0 NUM_LEDS).

Definition kzalloc_vfd : shuttle_vfd :=
  mk_vfd false 0 (memset0 SHUTTLE_VFD_PACKET_SIZE) (memset0 SHUTTLE_VFD_WIDTH).

Definition shuttle_vfd_probe : M unit :=
  modify_vfd (fun _ => kzalloc_vfd) ;;
  modify_vfd (set_icons_mask 0) ;;
  vfd_reset_cursor true.

(** A freshly booted kernel with the given script of USB results. *)
Definition boot (results : list Z) : kernel :=
  mk_kernel kzalloc_vfd results [] [] 0.

(** The bytes of an ASCII string. *)
Definition bytes_of (s : string) : list Z :=
  map (fun c => Z.of_nat (Ascii.nat_of_ascii c)) (String.list_ascii_of_string s).

(** ** Concurrent callers

    The LED class calls the brightness callbacks of different LEDs
    without any common lock, so two callbacks can run at once on the
    one [shuttle_vfd].  A callback is cut into the statements it
    executes, each taken as atomic; a schedule picks, step by step, the
    thread that executes its next statement.  [mutex_lock] is the only
    statement that can block. *)

Inductive instr : Type :=
  | IMaskOr (m : Z)                     (* vfd->icons_mask |= m *)
  | IMaskAnd (m : Z)                    (* vfd->icons_mask &= m *)
  | IMemsetPacket                       (* memset(&vfd->packet[0], 0, 8) *)
  | IPacketConst (i : nat) (v : Z)      (* vfd->packet[i] = v *)
  | IPacketIcons (i : nat) (f : Z -> Z)  (* vfd->packet[i] = f(vfd->icons_mask) *)
  | IMutexLock                          (* mutex_lock(&vfd->vfd_mutex) *)
  | IUsbControlMsg                      (* result = usb_control_msg(.., vfd->packet, ..) *)
  | IMsleep (ms : Z)                    (* msleep(ms) *)
  | IMutexUnlock                        (* mutex_unlock(&vfd->vfd_mutex) *)
  | IDevErr.                            (* if (result < 0) dev_err(..) *)

(** A thread: the statements it has yet to execute and its local
    variable [result]. *)
Record thread := mk_thread {
  code : list instr;
  result : Z;
}.

Record machine := mk_machine {
  kern : kernel;
  pool : list thread;
}.

(** One statement; [None] when the thread has to wait. *)
Definition step_instr (i : instr) (r : Z) (k : kernel) : option (kernel * Z) :=
  match i with
  | IMaskOr m =>
      Some (exec (modify_vfd (fun d => set_icons_mask (Z.lor (icons_mask d) m) d)) k, r)
  | IMaskAnd m =>
      Some (exec (modify_vfd (fun d => set_icons_mask (Z.land (icons_mask d) m) d)) k, r)
  | IMemsetPacket =>
      Some (exec (modify_vfd (set_packet (memset0 SHUTTLE_VFD_PACKET_SIZE))) k, r)
  | IPacketConst i v =>
      Some (exec (modify_vfd (packet_store i v)) k, r)
  | IPacketIcons i f =>
      Some (exec (modify_vfd (fun d => packet_store i (f (icons_mask d)) d)) k, r)
  | IMutexLock =>
      if vfd_mutex (vfd k) then None else Some (exec mutex_lock k, r)
  | IUsbControlMsg =>
      let (r', k') := (d <- get_vfd ;; usb_control_msg (packet d)) k in
      Some (k', r')
  | IMsleep ms => Some (exec (msleep ms) k, r)
  | IMutexUnlock => Some (exec mutex_unlock k, r)
  | IDevErr => Some (exec (if r <? 0 then dev_err r else ret tt) k, r)
  end.

(** The statements of the driver's functions, in program order. *)
Definition vfd_send_packet_code : list instr :=
  [IMutexLock; IUsbControlMsg; IMsleep SHUTTLE_VFD_SLEEP_MS; IMutexUnlock; IDevErr].

Definition vfd_set_icons_code : list instr :=
  [IMemsetPacket; IPacketConst 0 (Z.shiftl 7 4 + 4);
   IPacketIcons 1 (fun m => Z.land (Z.shiftr m 15) 0x1F);
   IPacketIcons 2 (fun m => Z.land (Z.shiftr m 10) 0x1F);
   IPacketIcons 3 (fun m => Z.land (Z.shiftr m 5) 0x1F);
   IPacketIcons 4 (fun m => Z.land m 0x1F)]
  ++ vfd_send_packet_code.

Definition vfd_led_generic_set_code (led : vfd_led) (value : Z) : list instr :=
  (if negb (value =? LED_OFF)
   then IMaskOr (mask led)
   else IMaskAnd (ulong_not (mask led)))
  :: vfd_set_icons_code.

Definition vfd_led_volume_set_code (led : vfd_led) (value : Z) : list instr :=
  IMaskAnd SHUTTLE_VFD_BASE_MASK
  :: (if negb (value =? LED_OFF) then [IMaskOr (SHUTTLE_VFD_ICON_VOL value)] else [])
  ++ vfd_set_icons_code.

Definition spawn (c : list instr) : thread := mk_thread c 0.

(** Thread [tid] executes its next statement, if it has one and does
    not have to wait. *)
Definition sched_step (tid : nat) (m : machine) : machine :=
  match pool m !! tid with
  | Some (mk_thread (i :: rest) r) =>
      match step_instr i r (kern m) with
      | Some (k', r') => mk_machine k' (<[tid := mk_thread rest r']> (pool m))
      | None => m
      end
  | _ => m
  end.

Definition run_schedule (sched : list nat) (m : machine) : machine :=
  foldl (fun m tid => sched_step tid m) m sched.

(** Thread 0 builds its packet; thread 1 updates the mask and clears
    the shared buffer; thread 0 sends; thread 1 finishes. *)
Definition race_schedule : list nat :=
  replicate 7 0%nat ++ replicate 2 1%nat ++ replicate 5 0%nat ++ replicate 10 1%nat.

(** Thread 0 runs to its end, then thread 1. *)
Definition serial_schedule : list nat :=
  replicate 12 0%nat ++ replicate 12 1%nat.

(** The two callers: "tv" on and "cd" on, after probe. *)
Definition two_callers : machine :=
  mk_machine (exec shuttle_vfd_probe (boot []))
             [spawn (vfd_led_generic_set_code (icon_led 0) 1);
              spawn (vfd_led_generic_set_code (icon_led 1) 1)].

(** ** Vocabulary of the statements

    Views of the kernel and of packets that the properties below are
    stated with. *)

(** The value the next call of [usb_control_msg] returns. *)
Definition next_result (k : kernel) : Z :=
  match usb_results k with
  | [] => Z.of_nat SHUTTLE_VFD_PACKET_SIZE
  | r :: _ => r
  end.

(** The kernel after one [vfd_send_packet(vfd, NULL)]. *)
Definition after_send (k : kernel) : kernel :=
  mk_kernel (set_mutex false (vfd k)) (tail (usb_results k))
            (usb_sent k ++ [packet (vfd k)])
            (dmesg k ++ (if next_result k <? 0 then [next_result k] else []))
            (uptime_ms k + SHUTTLE_VFD_SLEEP_MS).

(** The packet [vfd_set_icons] builds for the mask [m]. *)
Definition icons_packet (m : Z) : list Z :=
  [0x74; Z.land (Z.shiftr m 15) 0x1F; Z.land (Z.shiftr m 10) 0x1F;
   Z.land (Z.shiftr m 5) 0x1F; Z.land m 0x1F; 0; 0; 0].

(** Data byte [i] of a packet: the byte after the command/length byte
    is data byte 0. *)
Definition data_byte (p : list Z) (i : nat) : Z := nth (S i) p 0.

(** The kernel [k] with the global mask set to [m]. *)
Definition with_icons_mask (m : Z) (k : kernel) : kernel :=
  mk_kernel (set_icons_mask m (vfd k)) (usb_results k) (usb_sent k)
            (dmesg k) (uptime_ms k).

(** The packets a computation hands to the transport. *)
Definition sent_by {A} (c : M A) (k : kernel) : list (list Z) :=
  drop (length (usb_sent k)) (usb_sent (exec c k)).

(** The kernel after the shared buffer is set to [p] and sent. *)
Definition submit (p : list Z) (k : kernel) : kernel :=
  after_send (mk_kernel (set_packet p (vfd k)) (usb_results k) (usb_sent k)
                        (dmesg k) (uptime_ms k)).

(** The results [dev_err] reports for a script of results. *)
Definition failures (rs : list Z) : list Z := filter (fun r => r < 0) rs.

(** The three text packets for a 20-byte screen [s]. *)
Definition text_packets (s : list Z) : list (list Z) :=
  [0x97 :: take 7 s; 0x97 :: take 7 (drop 7 s); 0x96 :: take 6 (drop 14 s) ++ [0]].

(** The kernel [k] with the screen text set to [s]. *)
Definition with_screen (s : list Z) (k : kernel) : kernel :=
  mk_kernel (set_screen s (vfd k)) (usb_results k) (usb_sent k)
            (dmesg k) (uptime_ms k).

(** The screen a text write of the first [count] bytes of [buf] leaves,
    in the words of the specification: the text left-justified, zero
    bytes on its right up to the width of the display. *)
Definition padded_text (buf : list Z) (count : nat) : list Z :=
  take SHUTTLE_VFD_WIDTH (take count buf ++ replicate SHUTTLE_VFD_WIDTH 0).

Definition cmd_nibble (p : list Z) : Z := nth 0 p 0 / 16.
Definition len_nibble (p : list Z) : Z := nth 0 p 0 mod 16.

(** A byte the read handler trims: NUL or newline. *)
Definition is_pad (c : Z) : bool := (c =? 0) || (c =? 10).

Fixpoint drop_pads (l : list Z) : list Z :=
  match l with
  | [] => []
  | c :: l' => if is_pad c then drop_pads l' else l
  end.

(** The text with all trailing NUL and newline bytes removed, in the
    words of the specification. *)
Definition trim_trailing (l : list Z) : list Z := reverse (drop_pads (reverse l)).

(** The page sysfs hands to a show callback. *)
Definition PAGE_SIZE : nat := 4096.
Definition sysfs_page : list Z := replicate PAGE_SIZE 0.

(** The volume field of a mask: everything from bit 15 up. *)
Definition volume_field (m : Z) : Z := Z.shiftr m 15.

(** The icon bits of a mask: bits 0..14. *)
Definition icon_bits (m : Z) : Z := Z.land m SHUTTLE_VFD_BASE_MASK.

(** The kernel [k] with the script of USB results replaced by [rs]. *)
Definition with_usb_results (rs : list Z) (k : kernel) : kernel :=
  mk_kernel (vfd k) rs (usb_sent k) (dmesg k) (uptime_ms k).

(** The data a packet carries: as many of its data bytes as its length
    nibble says. *)
Definition payload (p : list Z) : list Z :=
  take (Z.to_nat (len_nibble p)) (drop 1 p).

(** The full text packets for [n] groups of seven bytes of [s]. *)
Fixpoint full_chunks (n : nat) (s : list Z) : list (list Z) :=
  match n with
  | O => []
  | S n' => (0x97 :: take 7 s) :: full_chunks n' (drop 7 s)
  end.

(** The last, shorter text packet for the [r] bytes at the head of [s]. *)
Definition tail_chunk (r : nat) (s : list Z) : list (list Z) :=
  if (r =? 0)%nat then []
  else [(0x90 + Z.of_nat r) :: take r s ++ replicate (7 - r) 0].

(** Reading an icons packet back: the mask whose 5-bit groups are data
    bytes 0..3, highest group first. *)
Definition decode_icons (p : list Z) : Z :=
  data_byte p 0 * 2 ^ 15 + data_byte p 1 * 2 ^ 10 + data_byte p 2 * 2 ^ 5
  + data_byte p 3.

(** The mask [vfd_led_generic_set] leaves, from the mask [m] it finds. *)
Definition generic_mask (led : vfd_led) (value : Z) (m : Z) : Z :=
  if negb (value =? LED_OFF)
  then Z.lor m (mask led)
  else Z.land m (ulong_not (mask led)).

(** The mask [vfd_led_volume_set] leaves, from the mask [m] it finds. *)
Definition volume_mask (value : Z) (m : Z) : Z :=
  if negb (value =? LED_OFF)
  then Z.lor (Z.land m SHUTTLE_VFD_BASE_MASK) (SHUTTLE_VFD_ICON_VOL value)
  else Z.land m SHUTTLE_VFD_BASE_MASK.

(** A value an [unsigned char] holds. *)
Definition is_byte (b : Z) : Prop := 0 <= b < 256.

(** A packet as the transport expects it: eight bytes. *)
Definition packet_ok (p : list Z) : Prop :=
  length p = SHUTTLE_VFD_PACKET_SIZE /\ Forall is_byte p.

(** The device structure as its C type has it, at rest: the mutex
    free, the mask an [unsigned long], the two arrays of their declared
    sizes and holding bytes. *)
Definition vfd_ok (d : shuttle_vfd) : Prop :=
  vfd_mutex d = false /\
  0 <= icons_mask d <= ULONG_MAX /\
  packet_ok (packet d) /\
  length (screen d) = SHUTTLE_VFD_WIDTH /\
  Forall is_byte (screen d).

(** ** Attach and detach

    [shuttle_vfd_probe] and [shuttle_vfd_disconnect] with what they
    ask of the USB core, the LED class and sysfs.  The LED class is a
    map from LED names to registered class devices; the results of
    [led_classdev_register] and [device_create_file] come from a
    script, like those of [usb_control_msg] (0 past its end).
    Unregistering a class device calls back into the driver: the LED
    core switches the LED off before it lets it go. *)

Module Usb.

Definition ENOMEM : Z := 12.
Definition SHUTTLE_VFD_INTERFACE : Z := 1.

(** The two functions a class device can have as [brightness_set]. *)
Inductive brightness_set_fn : Type :=
  | generic_set
  | volume_set.

(** [struct led_classdev], inside its [struct vfd_led]. *)
Record led_classdev := mk_cdev {
  cdev_led : vfd_led;                  (* the enclosing vfd_led: name, mask, max_brightness *)
  brightness : Z;
  brightness_set : brightness_set_fn;
}.

Record usb_system := mk_system {
  sys_kernel : kernel;                 (* device structure and transport *)
  dev_allocated : bool;                (* kzalloc'ed and not yet kfree'd *)
  intfdata : bool;                     (* usb_get_intfdata(interface) != NULL *)
  udev_refcount : Z;                   (* usb_get_dev / usb_put_dev *)
  led_class : gmap string led_classdev;
  text_attr : bool;                    (* the attribute file "text" exists *)
  kzalloc_fails : bool;                (* the next kzalloc returns NULL *)
  register_results : list Z;
  oom_reports : nat;                   (* "Out of memory" lines logged *)
}.

Definition set_led_class (m : gmap string led_classdev) (s : usb_system) : usb_system :=
  mk_system (sys_kernel s) (dev_allocated s) (intfdata s) (udev_refcount s) m
            (text_attr s) (kzalloc_fails s) (register_results s) (oom_reports s).

Definition set_register_results (rs : list Z) (s : usb_system) : usb_system :=
  mk_system (sys_kernel s) (dev_allocated s) (intfdata s) (udev_refcount s)
            (led_class s) (text_attr s) (kzalloc_fails s) rs (oom_reports s).

Definition set_text_attr (b : bool) (s : usb_system) : usb_system :=
  mk_system (sys_kernel s) (dev_allocated s) (intfdata s) (udev_refcount s)
            (led_class s) b (kzalloc_fails s) (register_results s) (oom_reports s).

Definition set_sys_kernel (k : kernel) (s : usb_system) : usb_system :=
  mk_system k (dev_allocated s) (intfdata s) (udev_refcount s)
            (led_class s) (text_attr s) (kzalloc_fails s) (register_results s)
            (oom_reports s).

(** [snprintf(led->name, sizeof(led->name), fmt)] for a format without
    conversions: at most 15 characters fit the 16-byte field. *)
Definition snprintf_name (fmt : string) : string := String.substring 0 15 fmt.

(** [dev->icons[i]] and [dev->volume] as probe fills them in. *)
Definition icon_cdev (i : nat) : led_classdev :=
  mk_cdev (mk_led (Z.shiftl 1 (Z.of_nat i))
                  (snprintf_name (nth i icon_names EmptyString)) 1)
          LED_OFF generic_set.

Definition volume_cdev : led_classdev :=
  mk_cdev (mk_led 0 (snprintf_name "volume") SHUTTLE_VFD_ICON_VOL_NUM)
          LED_OFF volume_set.

(** [led_classdev_register]: the scripted result; the device is in the
    class unless the result is negative. *)
Definition led_classdev_register (c : led_classdev) (s : usb_system)
  : Z * usb_system :=
  let r := hd 0 (register_results s) in
  let s' := set_register_results (tail (register_results s)) s in
  (r, if r <? 0 then s'
      else set_led_class (<[name (cdev_led c) := c]> (led_class s')) s').

(** [led_cdev->brightness_set(led_cdev, value)]: the callback the
    driver installed, run on the device structure. *)
Definition brightness_set_call (c : led_classdev) (value : Z) : M unit :=
  match brightness_set c with
  | generic_set => vfd_led_generic_set (cdev_led c) value
  | volume_set => vfd_led_volume_set (cdev_led c) value
  end.

(** [led_classdev_unregister] of the LED core: it first switches the
    LED off through the device's own callback
    ([led_brightness_set(led_cdev, LED_OFF)]), then takes the device
    out of the class. *)
Definition led_classdev_unregister (c : led_classdev) (s : usb_system)
  : usb_system :=
  let s := set_sys_kernel (exec (brightness_set_call c LED_OFF) (sys_kernel s)) s in
  set_led_class (delete (name (cdev_led c)) (led_class s)) s.

(** [device_create_file]: the scripted result; the file exists when the
    result is 0. *)
Definition device_create_file (s : usb_system) : Z * usb_system :=
  let r := hd 0 (register_results s) in
  let s' := set_register_results (tail (register_results s)) s in
  (r, if r =? 0 then set_text_attr true s' else s').

Definition device_remove_file (s : usb_system) : usb_system :=
  set_text_attr false s.

(** The [for] loop of probe over the icons, [n] iterations from index
    [i].  [Some r] when it is left by [goto error] with [retval = r];
    the index is the value of [i] at that point. *)
Fixpoint register_icons (n i : nat) (s : usb_system)
  : option Z * nat * usb_system :=
  match n with
  | O => (None, i, s)
  | S n' =>
      let (retval, s') := led_classdev_register (icon_cdev i) s in
      if retval <? 0 then (Some retval, i, s')
      else register_icons n' (S i) s'
  end.

(** [for (i--; i >= 0; i--) led_classdev_unregister(&dev->icons[i].led_cdev);] *)
Fixpoint unregister_icons (i : nat) (s : usb_system) : usb_system :=
  match i with
  | O => s
  | S i' => unregister_icons i' (led_classdev_unregister (icon_cdev i') s)
  end.

(** From the label [error] to the return. *)
Definition probe_error (i : nat) (s : usb_system) : usb_system :=
  let s := unregister_icons i s in
  mk_system (sys_kernel s) false false (udev_refcount s - 1) (led_class s)
            (text_attr s) (kzalloc_fails s) (register_results s) (oom_reports s).

Definition shuttle_vfd_probe (bInterfaceNumber : Z) (s : usb_system)
  : Z * usb_system :=
  let retval := - ENOMEM in
  if negb (bInterfaceNumber =? SHUTTLE_VFD_INTERFACE) then (retval, s)
  else if kzalloc_fails s then
    (retval,
     mk_system (sys_kernel s) (dev_allocated s) (intfdata s) (udev_refcount s)
               (led_class s) (text_attr s) (kzalloc_fails s) (register_results s)
               (S (oom_reports s)))
  else
    let s :=
      mk_system (exec (modify_vfd (fun _ => kzalloc_vfd) ;;
                       modify_vfd (set_icons_mask 0)) (sys_kernel s))
                true true (udev_refcount s + 1) (led_class s) (text_attr s)
                (kzalloc_fails s) (register_results s) (oom_reports s) in
    match register_icons NUM_LEDS 0 s with
    | (Some retval, i, s) => (retval, probe_error i s)
    | (None, i, s) =>
        let (retval, s) := led_classdev_register volume_cdev s in
        if retval <? 0 then (retval, probe_error i s)
        else
          let (retval, s) := device_create_file s in
          if negb (retval =? 0)
          then (retval, probe_error i (led_classdev_unregister volume_cdev s))
          else (0, set_sys_kernel (exec (vfd_reset_cursor true) (sys_kernel s)) s)
    end.

Definition shuttle_vfd_disconnect (s : usb_system) : usb_system :=
  let s := foldl (fun s i => led_classdev_unregister (icon_cdev i) s) s
                 (seq 0 NUM_LEDS) in
  let s := led_classdev_unregister volume_cdev s in
  let s := device_remove_file s in
  mk_system (sys_kernel s) false false (udev_refcount s - 1) (led_class s)
            (text_attr s) (kzalloc_fails s) (register_results s) (oom_reports s).

(** The class devices of the driver, icons first. *)
Definition all_cdevs : list led_classdev :=
  map icon_cdev (seq 0 NUM_LEDS) ++ [volume_cdev].

(** The LED class [m] with the class devices [cs] added. *)
Definition with_cdevs (cs : list led_classdev) (m : gmap string led_classdev)
  : gmap string led_classdev :=
  foldl (fun m c => <[name (cdev_led c) := c]> m) m cs.

End Usb.

(** The name under which a class device is registered. *)
Definition cdev_name (c : Usb.led_classdev) : string := name (Usb.cdev_led c).

(** None of the driver's LED names is taken in the LED class. *)
Definition names_free (m : gmap string Usb.led_classdev) : Prop :=
  forall c : Usb.led_classdev, c ∈ Usb.all_cdevs -> m !! cdev_name c = None.

(** The system [s] with the class devices [cs] registered and the
    script of results advanced to [rs]. *)
Definition registered (cs : list Usb.led_classdev) (rs : list Z)
    (s : Usb.usb_system) : Usb.usb_system :=
  Usb.set_register_results rs
    (Usb.set_led_class (Usb.with_cdevs cs (Usb.led_class s)) s).

(** Result number [j] of the script of registration results. *)
Definition register_result (j : nat) (s : Usb.usb_system) : Z :=
  nth j (Usb.register_results s) 0.

(** The kernel after the LED core has switched the class devices [cs]
    off, one after the other. *)
Definition switched_off (cs : list Usb.led_classdev) (k : kernel) : kernel :=
  foldl (fun k c => exec (Usb.brightness_set_call c LED_OFF) k) k cs.

(** The mask the callback of the class device [c] leaves when it is
    called with [LED_OFF] on the mask [m]. *)
Definition off_mask (c : Usb.led_classdev) (m : Z) : Z :=
  match Usb.brightness_set c with
  | Usb.generic_set => generic_mask (Usb.cdev_led c) LED_OFF m
  | Usb.volume_set => volume_mask LED_OFF m
  end.

(** The system after a probe that got as far as allocating the device
    structure and then backed out with [cnt] LEDs registered: as [s],
    except that the zeroed structure has sent one all-clear icons
    packet for each of these LEDs and is freed, the interface data is
    cleared and the script of results advanced to [rs]. *)
Definition backed_out (cnt : nat) (rs : list Z) (s : Usb.usb_system)
  : Usb.usb_system :=
  Usb.mk_system
    (foldl (fun k p => submit p k)
       (exec (modify_vfd (fun _ => kzalloc_vfd) ;; modify_vfd (set_icons_mask 0))
             (Usb.sys_kernel s))
       (replicate cnt (icons_packet 0)))
    false false (Usb.udev_refcount s) (Usb.led_class s) (Usb.text_attr s)
    (Usb.kzalloc_fails s) rs (Usb.oom_reports s).

(** The system after a probe that went through. *)
Definition attached (s : Usb.usb_system) : Usb.usb_system :=
  Usb.mk_system
    (exec shuttle_vfd_probe (Usb.sys_kernel s))
    true true (Usb.udev_refcount s + 1)
    (Usb.with_cdevs Usb.all_cdevs (Usb.led_class s)) true
    (Usb.kzalloc_fails s) (drop 17 (Usb.register_results s)) (Usb.oom_reports s).

(** A system with nothing attached: no LED registered, no attribute
    file, the given script of registration results. *)
Definition detached (results : list Z) : Usb.usb_system :=
  Usb.mk_system (boot []) false false 1 ∅ false false results 0.

(** ** Concurrent callers: vocabulary *)

(** A call of a brightness callback. *)
Inductive call : Type :=
  | GenericSet (led : vfd_led) (value : Z)
  | VolumeSet (led : vfd_led) (value : Z).

Definition call_code (c : call) : list instr :=
  match c with
  | GenericSet led value => vfd_led_generic_set_code led value
  | VolumeSet led value => vfd_led_volume_set_code led value
  end.

(** A statement that touches only the mask or the packet buffer. *)
Definition plain (i : instr) : bool :=
  match i with
  | IMaskOr _ | IMaskAnd _ | IMemsetPacket | IPacketConst _ _ | IPacketIcons _ _ => true
  | _ => false
  end.

(** A thread is inside the critical section of [vfd_send_packet] when
    it has taken the mutex and not yet released it: its next statement
    is the transfer, the sleep or the unlock. *)
Definition in_section (c : list instr) : bool :=
  match c with
  | IUsbControlMsg :: _ | IMsleep _ :: _ | IMutexUnlock :: _ => true
  | _ => false
  end.

(** The number of threads inside the critical section. *)
Fixpoint holders (p : list thread) : nat :=
  match p with
  | [] => 0
  | t :: p' => (if in_section (code t) then 1 else 0) + holders p'
  end.

(** Where the rest of a callback can stand: before [mutex_lock], inside
    the critical section, or after [mutex_unlock]. *)
Definition code_ok (c : list instr) : Prop :=
  (exists pre : list instr,
     Forall (fun i => plain i = true) pre /\ c = pre ++ vfd_send_packet_code) \/
  (c = [IUsbControlMsg; IMsleep SHUTTLE_VFD_SLEEP_MS; IMutexUnlock; IDevErr] \/
   c = [IMsleep SHUTTLE_VFD_SLEEP_MS; IMutexUnlock; IDevErr] \/
   c = [IMutexUnlock; IDevErr]) \/
  (c = [IDevErr] \/ c = []).

Definition lock_inv (m : machine) : Prop :=
  Forall (fun t => code_ok (code t)) (pool m) /\
  holders (pool m) = (if vfd_mutex (vfd (kern m)) then 1 else 0)%nat.

(** A thread that has made its call of [usb_control_msg]. *)
Definition sent_already (c : list instr) : bool :=
  match c with
  | IMsleep _ :: _ | IMutexUnlock :: _ | [IDevErr] | [] => true
  | _ => false
  end.

(** A thread that has slept its 24 ms. *)
Definition slept_already (c : list instr) : bool :=
  match c with
  | IMutexUnlock :: _ | [IDevErr] | [] => true
  | _ => false
  end.

(** The number of threads whose remaining statements satisfy [f]. *)
Fixpoint count_code (f : list instr -> bool) (p : list thread) : nat :=
  match p with
  | [] => 0
  | t :: p' => (if f (code t) then 1 else 0) + count_code f p'
  end.

(** What holds of the transport at every moment of a run that started
    with [n0] packets sent and the clock at [t0]. *)
Definition transport_inv (n0 : nat) (t0 : Z) (m : machine) : Prop :=
  Forall (fun t => code_ok (code t)) (pool m) /\
  length (usb_sent (kern m)) = (n0 + count_code sent_already (pool m))%nat /\
  uptime_ms (kern m)
  = t0 + SHUTTLE_VFD_SLEEP_MS * Z.of_nat (count_code slept_already (pool m)) /\
  packet_ok (packet (vfd (kern m))) /\
  Forall packet_ok (drop n0 (usb_sent (kern m))).

(** The callback a call runs. *)
Definition call_fn (c : call) : M unit :=
  match c with
  | GenericSet led value => vfd_led_generic_set led value
  | VolumeSet led value => vfd_led_volume_set led value
  end.

(** The schedule that runs [n] threads one after the other, thread 0
    first, each for the 13 steps the longest callback needs. *)
Definition one_by_one (first n : nat) : list nat :=
  concat (map (replicate 13) (seq first n)).

(** * Properties *)

(** ** Running the monad *)

Lemma vfd_send_packet_run (k : kernel) :
  vfd_send_packet None k = (next_result k, after_send k).
Proof.
  unfold vfd_send_packet, after_send, next_result, bind, mutex_lock,
    mutex_unlock, modify_vfd, get_vfd, usb_control_msg, msleep, dev_err, ret.
  destruct k as [d rs sent log t]; simpl.
  destruct rs as [|r rs]; simpl.
  - rewrite app_nil_r. reflexivity.
  - destruct (r <? 0); simpl; [reflexivity | rewrite app_nil_r; reflexivity].
Qed.

Lemma land_1F_range (x : Z) : 0 <= Z.land x 0x1F < 32.
Proof.
  change 0x1F with (Z.ones 5). rewrite Z.land_ones by lia.
  change (2 ^ 5) with 32. apply Z.mod_pos_bound. lia.
Qed.

Lemma to_uchar_small (x : Z) : 0 <= x < 256 -> to_uchar x = x.
Proof. intros H. unfold to_uchar. apply Z.mod_small. exact H. Qed.

Lemma to_uchar_land_1F (x : Z) : to_uchar (Z.land x 0x1F) = Z.land x 0x1F.
Proof. apply to_uchar_small. pose proof (land_1F_range x). lia. Qed.

Lemma vfd_set_icons_run (k : kernel) :
  vfd_set_icons k =
  (tt, after_send (mk_kernel (set_packet (icons_packet (icons_mask (vfd k))) (vfd k))
                             (usb_results k) (usb_sent k) (dmesg k) (uptime_ms k))).
Proof.
  unfold vfd_set_icons, bind at 1 2 3 4 5 6. unfold modify_vfd. cbn [vfd usb_results usb_sent dmesg uptime_ms].
  unfold bind, ret. rewrite vfd_send_packet_run. f_equal. f_equal.
  destruct k as [[mx m p s] rs sent log t].
  unfold packet_store, set_packet, memset0; cbn.
  rewrite !to_uchar_land_1F. reflexivity.
Qed.

Lemma vfd_set_icons_sent (k : kernel) :
  usb_sent (exec vfd_set_icons k) = usb_sent k ++ [icons_packet (icons_mask (vfd k))].
Proof. unfold exec. rewrite vfd_set_icons_run. reflexivity. Qed.

Lemma testbit_1F (j : Z) : 0 <= j -> Z.testbit 0x1F j = (j <? 5).
Proof. intros H. change 0x1F with (Z.ones 5). apply Z.testbit_ones_nonneg; lia. Qed.

(** Bit [j] of the 5-bit group cut out of [m] at bit [lo]. *)
Lemma group_testbit (m lo j : Z) :
  0 <= lo -> 0 <= j ->
  Z.testbit (Z.land (Z.shiftr m lo) 0x1F) j = (j <? 5) && Z.testbit m (lo + j).
Proof.
  intros Hlo Hj. rewrite Z.land_spec, Z.shiftr_spec, testbit_1F by lia.
  rewrite (Z.add_comm j lo). apply andb_comm.
Qed.

(** C2.  Whatever the mask, [vfd_set_icons] hands exactly one packet of
    8 bytes to the transport; its first byte has command nibble 7 and
    length nibble 4; data bytes 0..3 hold the 5-bit groups of the mask
    that start at bits 15, 10, 5 and 0, so every bit above bit 4 of a
    data byte is clear; the three bytes that follow are zero, and for
    the mask 0 all four data bytes are 0. *)
Theorem vfd_set_icons_packet_shape (k : kernel) :
  exists p : list Z,
    usb_sent (exec vfd_set_icons k) = usb_sent k ++ [p] /\
    length p = 8%nat /\
    nth 0 p 0 / 16 = 7 /\ nth 0 p 0 mod 16 = 4 /\
    (forall (i : nat) (j : Z), (i < 4)%nat -> 0 <= j ->
       Z.testbit (data_byte p i) j =
       (j <? 5) && Z.testbit (icons_mask (vfd k)) (Z.of_nat (5 * (3 - i)) + j)) /\
    (forall i : nat, (i < 4)%nat -> 0 <= data_byte p i < 32) /\
    (forall i : nat, (4 <= i < 7)%nat -> data_byte p i = 0) /\
    (icons_mask (vfd k) = 0 -> forall i : nat, (i < 7)%nat -> data_byte p i = 0).
Proof.
  exists (icons_packet (icons_mask (vfd k))).
  split; [apply vfd_set_icons_sent|].
  split; [reflexivity|]. split; [reflexivity|]. split; [reflexivity|].
  split; [|split; [|split]].
  - intros i j Hi Hj.
    destruct i as [|[|[|[|i]]]]; try lia; cbn [data_byte icons_packet nth].
    + apply (group_testbit _ 15); lia.
    + apply (group_testbit _ 10); lia.
    + apply (group_testbit _ 5); lia.
    + rewrite <- (Z.shiftr_0_r (icons_mask (vfd k))) at 1.
      apply (group_testbit _ 0); lia.
  - intros i Hi.
    destruct i as [|[|[|[|i]]]]; try lia; cbn [data_byte icons_packet nth];
      apply land_1F_range.
  - intros i Hi.
    destruct i as [|[|[|[|[|[|[|i]]]]]]]; try lia; reflexivity.
  - intros Hm i Hi. rewrite Hm.
    destruct i as [|[|[|[|[|[|[|i]]]]]]]; try lia; reflexivity.
Qed.

(** ** Bit layout of the icons packet *)

Lemma sent_by_app {A} (c : M A) (k : kernel) (l : list (list Z)) :
  usb_sent (exec c k) = usb_sent k ++ l -> sent_by c k = l.
Proof. intros H. unfold sent_by. rewrite H. apply drop_app_length. Qed.

Lemma sent_by_vfd_set_icons (m : Z) (k : kernel) :
  sent_by vfd_set_icons (with_icons_mask m k) = [icons_packet m].
Proof. apply sent_by_app. rewrite vfd_set_icons_sent. reflexivity. Qed.

Lemma testbit_small (a n j : Z) :
  0 <= a < 2 ^ n -> 0 <= n <= j -> Z.testbit a j = false.
Proof.
  intros Ha Hn. destruct (Z.eq_dec a 0) as [->|Hne]; [apply Z.bits_0|].
  apply Z.bits_above_log2; [lia|].
  assert (Z.log2 a < n) by (apply Z.log2_lt_pow2; lia). lia.
Qed.

Lemma ICON_VOL_small (level : Z) :
  0 <= level < 2 ^ 17 -> SHUTTLE_VFD_ICON_VOL level = Z.shiftl level 15.
Proof.
  intros H. unfold SHUTTLE_VFD_ICON_VOL, UINT_MAX.
  change (2 ^ 32 - 1) with (Z.ones 32). rewrite Z.land_ones by lia.
  apply Z.mod_small. rewrite Z.shiftl_mul_pow2 by lia. lia.
Qed.

Lemma ICON_VOL_testbit (level j : Z) :
  0 <= level < 2 ^ 17 -> 0 <= j ->
  Z.testbit (SHUTTLE_VFD_ICON_VOL level) j = Z.testbit level (j - 15).
Proof. intros H Hj. rewrite ICON_VOL_small by lia. apply Z.shiftl_spec. lia. Qed.

(** A 5-bit group below bit 15 does not see the volume field. *)
Lemma group_ignores_volume (icons level lo : Z) :
  0 <= level < 2 ^ 17 -> 0 <= lo <= 10 ->
  Z.land (Z.shiftr (Z.lor icons (SHUTTLE_VFD_ICON_VOL level)) lo) 0x1F =
  Z.land (Z.shiftr icons lo) 0x1F.
Proof.
  intros Hl Hlo. apply Z.bits_inj'. intros j Hj.
  rewrite !group_testbit by lia. rewrite Z.lor_spec.
  destruct (Z.ltb_spec j 5) as [Hlt|Hge]; [|reflexivity]. cbn [andb].
  rewrite ICON_VOL_testbit by lia.
  rewrite (Z.testbit_neg_r level) by lia. apply orb_false_r.
Qed.

Lemma group_reads_volume (icons level : Z) :
  0 <= level < 32 -> 0 <= icons < 2 ^ 15 ->
  Z.land (Z.shiftr (Z.lor icons (SHUTTLE_VFD_ICON_VOL level)) 15) 0x1F = level.
Proof.
  intros Hl Hi. apply Z.bits_inj'. intros j Hj.
  rewrite group_testbit by lia. rewrite Z.lor_spec.
  rewrite ICON_VOL_testbit by lia.
  rewrite (testbit_small icons 15) by lia.
  replace (15 + j - 15) with j by lia. cbn [orb].
  destruct (Z.ltb_spec j 5) as [Hlt|Hge]; [reflexivity|]. cbn [andb].
  symmetry. apply (testbit_small level 5); lia.
Qed.

(** C3.  With the mask of icon [pos] alone ([1 << pos], [pos] in
    0..14) the icons packet has exactly one bit set among its four data
    bytes: bit [pos mod 5] of data byte [3 - pos/5].  With a volume
    level in 0..12 or-ed above any icon bits 0..14, the level sits in
    bits 15..18 of the mask only, the first data byte is the level, and
    the three data bytes that carry the icon bits are those of the icon
    bits alone. *)
Theorem icons_packet_bit_layout (k : kernel) (pos : nat) (level icons : Z) :
  (pos < NUM_LEDS)%nat ->
  0 <= level <= SHUTTLE_VFD_ICON_VOL_NUM ->
  0 <= icons < 2 ^ 15 ->
  (exists p : list Z,
     sent_by vfd_set_icons (with_icons_mask (mask (icon_led pos)) k) = [p] /\
     forall (i : nat) (j : Z), (i < 4)%nat -> 0 <= j ->
       (Z.testbit (data_byte p i) j = true <->
        i = (3 - pos / 5)%nat /\ j = Z.of_nat (pos mod 5))) /\
  (forall j : Z, 0 <= j ->
     Z.testbit (SHUTTLE_VFD_ICON_VOL level) j = true -> 15 <= j <= 18) /\
  (exists p p0 : list Z,
     sent_by vfd_set_icons
       (with_icons_mask (Z.lor icons (SHUTTLE_VFD_ICON_VOL level)) k) = [p] /\
     sent_by vfd_set_icons (with_icons_mask icons k) = [p0] /\
     data_byte p 0 = level /\ data_byte p0 0 = 0 /\
     forall i : nat, (1 <= i < 7)%nat -> data_byte p i = data_byte p0 i).
Proof.
  unfold NUM_LEDS, SHUTTLE_VFD_ICON_VOL_NUM. intros Hpos Hlevel Hicons.
  split; [|split].
  - eexists. split; [apply sent_by_vfd_set_icons|].
    intros i j Hi Hj. cbn [icon_led mask].
    assert (Hbit : forall lo : Z, 0 <= lo ->
              (Z.testbit (Z.land (Z.shiftr (Z.shiftl 1 (Z.of_nat pos)) lo) 0x1F) j = true
               <-> 0 <= j < 5 /\ Z.of_nat pos = lo + j)).
    { intros lo Hlo. rewrite group_testbit by lia.
      rewrite Z.shiftl_spec by lia. rewrite andb_true_iff, Z.ltb_lt.
      split.
      - intros [H5 Hb]. split; [lia|].
        destruct (Z.eq_dec (lo + j - Z.of_nat pos) 0) as [E|E]; [lia|].
        destruct (Z.lt_ge_cases (lo + j - Z.of_nat pos) 0) as [N|N].
        + rewrite Z.testbit_neg_r in Hb by lia. discriminate.
        + rewrite (testbit_small 1 1) in Hb by lia. discriminate.
      - intros [H5 E]. split; [lia|].
        replace (lo + j - Z.of_nat pos) with 0 by lia. reflexivity. }
    pose proof (Nat.div_mod_eq pos 5) as Hdm.
    pose proof (Nat.mod_upper_bound pos 5 ltac:(lia)) as Hmod.
    destruct i as [|[|[|[|i]]]]; try lia; cbn [data_byte icons_packet nth].
    + rewrite (Hbit 15) by lia. lia.
    + rewrite (Hbit 10) by lia. lia.
    + rewrite (Hbit 5) by lia. lia.
    + rewrite <- (Z.shiftr_0_r (Z.shiftl 1 (Z.of_nat pos))).
      rewrite (Hbit 0) by lia. lia.
  - intros j Hj Hb. rewrite ICON_VOL_testbit in Hb by lia.
    destruct (Z.lt_ge_cases j 15) as [N|N].
    { rewrite Z.testbit_neg_r in Hb by lia. discriminate. }
    destruct (Z.lt_ge_cases 18 j) as [G|G]; [|lia].
    rewrite (testbit_small level 4) in Hb by lia. discriminate.
  - eexists. eexists. split; [apply sent_by_vfd_set_icons|].
    split; [apply sent_by_vfd_set_icons|].
    split; [|split].
    + cbn [data_byte icons_packet nth]. apply group_reads_volume; lia.
    + cbn [data_byte icons_packet nth]. apply Z.bits_inj'. intros j Hj.
      rewrite group_testbit, Z.bits_0 by lia.
      rewrite (testbit_small icons 15) by lia. apply andb_false_r.
    + intros i Hi.
      destruct i as [|[|[|[|[|[|[|i]]]]]]]; try lia;
        cbn [data_byte icons_packet nth]; try reflexivity.
      * apply group_ignores_volume; lia.
      * apply group_ignores_volume; lia.
      * rewrite <- (Z.shiftr_0_r (Z.lor _ _)), <- (Z.shiftr_0_r icons) at 1.
        apply group_ignores_volume; lia.
Qed.

Lemma icons_packet_bit_layout_witness :
  (7 < NUM_LEDS)%nat /\ 0 <= 9 <= SHUTTLE_VFD_ICON_VOL_NUM /\ 0 <= 0x4081 < 2 ^ 15 /\
  exists p : list Z,
    sent_by vfd_set_icons
      (with_icons_mask (Z.lor 0x4081 (SHUTTLE_VFD_ICON_VOL 9)) (boot [])) = [p] /\
    data_byte p 0 = 9.
Proof.
  assert (H1 : (7 < NUM_LEDS)%nat) by (unfold NUM_LEDS; lia).
  assert (H2 : 0 <= 9 <= SHUTTLE_VFD_ICON_VOL_NUM)
    by (unfold SHUTTLE_VFD_ICON_VOL_NUM; lia).
  assert (H3 : 0 <= 0x4081 < 2 ^ 15) by lia.
  destruct (icons_packet_bit_layout (boot []) 7 9 0x4081 H1 H2 H3)
    as (_ & _ & p & p0 & Hp & _ & Hd & _).
  split; [exact H1|]. split; [exact H2|]. split; [exact H3|].
  exists p. split; [exact Hp | exact Hd].
Defined.

Example icons_packet_record_and_volume :
  sent_by vfd_set_icons (with_icons_mask (mask (icon_led 7)) (boot [])) =
    [[0x74; 0; 0; 4; 0; 0; 0; 0]] /\
  sent_by vfd_set_icons
    (with_icons_mask (Z.lor 0x4081 (SHUTTLE_VFD_ICON_VOL 9)) (boot [])) =
    [[0x74; 9; 16; 4; 1; 0; 0; 0]].
Proof. split; reflexivity. Qed.

(** ** Text write *)

Lemma vfd_set_icons_submit (k : kernel) :
  vfd_set_icons k = (tt, submit (icons_packet (icons_mask (vfd k))) k).
Proof. apply vfd_set_icons_run. Qed.

Lemma vfd_reset_cursor_run (eraseall : bool) (k : kernel) :
  vfd_reset_cursor eraseall k =
  (tt, submit [0x11; if eraseall then 1 else 2; 0; 0; 0; 0; 0; 0] k).
Proof.
  unfold vfd_reset_cursor, bind at 1 2 3. unfold modify_vfd.
  destruct eraseall; cbn [vfd usb_results usb_sent dmesg uptime_ms];
    unfold bind, ret; rewrite vfd_send_packet_run; reflexivity.
Qed.

Lemma submit_screen (p : list Z) (k : kernel) :
  screen (vfd (submit p k)) = screen (vfd k).
Proof. reflexivity. Qed.

Lemma submit_packet (p : list Z) (k : kernel) :
  packet (vfd (submit p k)) = p.
Proof. reflexivity. Qed.

(** Equations that run a computation one statement at a time. *)

Lemma bind_assoc {A B C} (c : M A) (f : A -> M B) (g : B -> M C) (k : kernel) :
  bind (bind c f) g k = bind c (fun a => bind (f a) g) k.
Proof. unfold bind. destruct (c k) as [a k']. reflexivity. Qed.

Lemma bind_ret {A B} (a : A) (f : A -> M B) (k : kernel) :
  bind (ret a) f k = f a k.
Proof. reflexivity. Qed.

Lemma bind_modify_vfd {B} (f : shuttle_vfd -> shuttle_vfd) (g : unit -> M B)
    (k : kernel) :
  bind (modify_vfd f) g k =
  g tt (mk_kernel (f (vfd k)) (usb_results k) (usb_sent k) (dmesg k) (uptime_ms k)).
Proof. reflexivity. Qed.

Lemma bind_vfd_send_packet {B} (g : Z -> M B) (k : kernel) :
  bind (vfd_send_packet None) g k = g (next_result k) (after_send k).
Proof. unfold bind. rewrite vfd_send_packet_run. reflexivity. Qed.

Ltac run_step :=
  first [ rewrite bind_assoc
        | rewrite bind_ret
        | rewrite bind_modify_vfd
        | rewrite bind_vfd_send_packet ].

Ltac run_simpl :=
  cbn [vfd usb_results usb_sent dmesg uptime_ms after_send next_result submit
       packet_store set_packet set_mutex set_screen set_icons_mask
       vfd_mutex icons_mask packet screen].

Ltac run := run_simpl; repeat (run_step; run_simpl).

Lemma vfd_set_text_run (k : kernel) :
  length (screen (vfd k)) = SHUTTLE_VFD_WIDTH ->
  vfd_set_text SHUTTLE_VFD_WIDTH (submit [0x11; 2; 0; 0; 0; 0; 0; 0] k) =
  (tt, foldl (fun k p => submit p k) (submit [0x11; 2; 0; 0; 0; 0; 0; 0] k)
             (text_packets (screen (vfd k)))).
Proof.
  intros Hs. destruct k as [[mx m p s] rs sent log t].
  cbn [vfd screen packet] in *.
  do 21 (destruct s as [|? s]; try discriminate Hs).
  unfold vfd_set_text.
  change (SHUTTLE_VFD_WIDTH / SHUTTLE_VFD_DATA_SIZE)%nat with 2%nat.
  change (SHUTTLE_VFD_WIDTH `mod` SHUTTLE_VFD_DATA_SIZE)%nat with 6%nat.
  cbn [vfd_set_text_loop Nat.eqb]. run. reflexivity.
Qed.

Lemma padded_text_length (buf : list Z) (count : nat) :
  length (padded_text buf count) = SHUTTLE_VFD_WIDTH.
Proof.
  unfold padded_text. rewrite length_take, length_app, length_replicate. lia.
Qed.

Lemma padded_text_short (buf : list Z) (count : nat) :
  (count <= length buf)%nat -> (count < SHUTTLE_VFD_WIDTH)%nat ->
  padded_text buf count = take count buf ++ replicate (SHUTTLE_VFD_WIDTH - count) 0.
Proof.
  intros Hb Hc. unfold padded_text.
  rewrite take_app_ge by (rewrite length_take; lia).
  rewrite length_take, Nat.min_l by lia.
  rewrite take_replicate. f_equal. f_equal. lia.
Qed.

Lemma padded_text_long (buf : list Z) (count : nat) :
  (count <= length buf)%nat -> (SHUTTLE_VFD_WIDTH <= count)%nat ->
  padded_text buf count = take SHUTTLE_VFD_WIDTH buf.
Proof.
  intros Hb Hc. unfold padded_text.
  rewrite take_app_le by (rewrite length_take; lia).
  rewrite take_take. f_equal. lia.
Qed.

Lemma bind_vfd_reset_cursor {B} (e : bool) (g : unit -> M B) (k : kernel) :
  bind (vfd_reset_cursor e) g k =
  g tt (submit [0x11; if e then 1 else 2; 0; 0; 0; 0; 0; 0] k).
Proof. unfold bind. rewrite vfd_reset_cursor_run. reflexivity. Qed.

Lemma set_vfd_text_handler_run (buf : list Z) (count : nat) (k : kernel) :
  (count <= length buf)%nat ->
  length (screen (vfd k)) = SHUTTLE_VFD_WIDTH ->
  set_vfd_text_handler buf count k =
  (Z.of_nat count,
   foldl (fun k p => submit p k) (with_screen (padded_text buf count) k)
         ([0x11; 2; 0; 0; 0; 0; 0; 0] :: text_packets (padded_text buf count))).
Proof.
  intros Hb Hs. unfold set_vfd_text_handler.
  assert (E : forall B (g : unit -> M B),
            bind (if (count <? SHUTTLE_VFD_WIDTH)%nat
                  then modify_vfd (set_screen (memset0 SHUTTLE_VFD_WIDTH))
                  else ret tt)
              (fun _ => bind (modify_vfd (fun d => set_screen
                         (memcpy (screen d) 0 buf (Nat.min count SHUTTLE_VFD_WIDTH)) d)) g) k
            = g tt (with_screen (padded_text buf count) k)).
  { intros B g. unfold with_screen.
    destruct (Nat.ltb_spec count SHUTTLE_VFD_WIDTH) as [Hlt|Hge]; run.
    - rewrite padded_text_short by assumption.
      unfold memcpy, memset0. cbn [take app Nat.add].
      rewrite Nat.min_l by lia. rewrite drop_replicate. reflexivity.
    - rewrite padded_text_long by assumption.
      unfold memcpy. cbn [take app Nat.add].
      rewrite Nat.min_r by lia. rewrite drop_ge by lia.
      rewrite app_nil_r. reflexivity. }
  rewrite E. rewrite bind_vfd_reset_cursor.
  unfold bind at 1. rewrite vfd_set_text_run.
  - reflexivity.
  - unfold with_screen. cbn [vfd screen set_screen]. apply padded_text_length.
Qed.

Lemma usb_sent_foldl_submit (ps : list (list Z)) (k : kernel) :
  usb_sent (foldl (fun k p => submit p k) k ps) = usb_sent k ++ ps.
Proof.
  revert k. induction ps as [|p ps IH]; intros k; cbn [foldl].
  - rewrite app_nil_r. reflexivity.
  - rewrite IH. cbn [submit after_send usb_sent vfd set_packet packet].
    rewrite <- app_assoc. reflexivity.
Qed.

Lemma screen_foldl_submit (ps : list (list Z)) (k : kernel) :
  screen (vfd (foldl (fun k p => submit p k) k ps)) = screen (vfd k).
Proof.
  revert k. induction ps as [|p ps IH]; intros k; cbn [foldl]; [reflexivity|].
  rewrite IH. reflexivity.
Qed.

Lemma icons_mask_foldl_submit (ps : list (list Z)) (k : kernel) :
  icons_mask (vfd (foldl (fun k p => submit p k) k ps)) = icons_mask (vfd k).
Proof.
  revert k. induction ps as [|p ps IH]; intros k; cbn [foldl]; [reflexivity|].
  rewrite IH. reflexivity.
Qed.

Lemma set_vfd_text_handler_screen_eq (buf : list Z) (count : nat) (k : kernel) :
  (count <= length buf)%nat ->
  length (screen (vfd k)) = SHUTTLE_VFD_WIDTH ->
  screen (vfd (exec (set_vfd_text_handler buf count) k)) = padded_text buf count.
Proof.
  intros Hb Hs. unfold exec. rewrite set_vfd_text_handler_run by assumption.
  cbn [snd]. rewrite screen_foldl_submit. reflexivity.
Qed.

(** C4.  A text write hands four packets to the transport, in this
    order: the clear packet (command nibble 1, length nibble 1, data
    byte 2: reset the cursor, keep text and icons), then three text
    packets (command nibble 9) of lengths 7, 7 and 6 that carry bytes
    0..6, 7..13 and 14..19 of the screen buffer, the last one padded
    with a zero byte to seven data bytes. *)
Theorem set_vfd_text_handler_packets (buf : list Z) (count : nat) (k : kernel) :
  (count <= length buf)%nat ->
  length (screen (vfd k)) = SHUTTLE_VFD_WIDTH ->
  let s := screen (vfd (exec (set_vfd_text_handler buf count) k)) in
  let ps := sent_by (set_vfd_text_handler buf count) k in
  ps = [[0x11; 2; 0; 0; 0; 0; 0; 0];
        0x97 :: take 7 s;
        0x97 :: take 7 (drop 7 s);
        0x96 :: take 6 (drop 14 s) ++ [0]] /\
  map cmd_nibble ps = [1; 9; 9; 9] /\
  map len_nibble ps = [1; 7; 7; 6] /\
  map length ps = [8; 8; 8; 8]%nat /\
  s = take 7 s ++ take 7 (drop 7 s) ++ take 6 (drop 14 s).
Proof.
  intros Hb Hs s ps.
  assert (Es : s = padded_text buf count)
    by (apply set_vfd_text_handler_screen_eq; assumption).
  assert (Eps : ps = [0x11; 2; 0; 0; 0; 0; 0; 0] :: text_packets s).
  { unfold ps. apply sent_by_app. unfold exec.
    rewrite set_vfd_text_handler_run by assumption. cbn [snd].
    rewrite usb_sent_foldl_submit, Es. reflexivity. }
  assert (Hl : length s = 20%nat) by (rewrite Es; apply padded_text_length).
  clearbody s ps. subst ps. clear Es.
  do 21 (destruct s as [|? s]; try discriminate Hl).
  repeat split; reflexivity.
Qed.

Lemma set_vfd_text_handler_packets_witness :
  (8 <= length (bytes_of "test 123"))%nat /\
  length (screen (vfd (boot []))) = SHUTTLE_VFD_WIDTH /\
  map len_nibble (sent_by (set_vfd_text_handler (bytes_of "test 123") 8) (boot []))
  = [1; 7; 7; 6].
Proof.
  assert (H1 : (8 <= length (bytes_of "test 123"))%nat) by (cbn; lia).
  assert (H2 : length (screen (vfd (boot []))) = SHUTTLE_VFD_WIDTH) by reflexivity.
  destruct (set_vfd_text_handler_packets (bytes_of "test 123") 8 (boot []) H1 H2)
    as (_ & _ & Hlen & _).
  split; [exact H1|]. split; [exact H2 | exact Hlen].
Defined.

(** C5.  A text write of [count] bytes leaves a screen buffer of
    exactly 20 bytes: the first [min(count, 20)] bytes of the input
    from position 0, and zero bytes on the right when [count < 20].
    Writing the 8 bytes of "test 123" leaves "test 123" followed by 12
    zero bytes. *)
Theorem set_vfd_text_handler_screen (buf : list Z) (count : nat) (k : kernel) :
  (count <= length buf)%nat ->
  length (screen (vfd k)) = SHUTTLE_VFD_WIDTH ->
  let s := screen (vfd (exec (set_vfd_text_handler buf count) k)) in
  length s = 20%nat /\
  s = take (Nat.min count 20) buf ++ replicate (20 - count) 0 /\
  (buf = bytes_of "test 123" -> count = 8%nat ->
   s = bytes_of "test 123" ++ replicate 12 0).
Proof.
  intros Hb Hs s.
  assert (Es : s = padded_text buf count)
    by (apply set_vfd_text_handler_screen_eq; assumption).
  assert (E : s = take (Nat.min count 20) buf ++ replicate (20 - count) 0).
  { rewrite Es. destruct (Nat.lt_ge_cases count 20) as [Hlt|Hge].
    - rewrite padded_text_short by assumption.
      rewrite Nat.min_l by lia. reflexivity.
    - rewrite padded_text_long by assumption.
      rewrite Nat.min_r by lia. replace (20 - count)%nat with 0%nat by lia.
      cbn [replicate]. rewrite app_nil_r. reflexivity. }
  split; [rewrite Es; apply padded_text_length|]. split; [exact E|].
  intros -> ->. rewrite E. reflexivity.
Qed.

Lemma set_vfd_text_handler_screen_witness :
  (8 <= length (bytes_of "test 123"))%nat /\
  length (screen (vfd (boot []))) = SHUTTLE_VFD_WIDTH /\
  screen (vfd (exec (set_vfd_text_handler (bytes_of "test 123") 8) (boot []))) =
  [116; 101; 115; 116; 32; 49; 50; 51; 0; 0; 0; 0; 0; 0; 0; 0; 0; 0; 0; 0].
Proof.
  assert (H1 : (8 <= length (bytes_of "test 123"))%nat) by (cbn; lia).
  assert (H2 : length (screen (vfd (boot []))) = SHUTTLE_VFD_WIDTH) by reflexivity.
  destruct (set_vfd_text_handler_screen (bytes_of "test 123") 8 (boot []) H1 H2)
    as (_ & _ & Hex).
  split; [exact H1|]. split; [exact H2|].
  exact (Hex eq_refl eq_refl).
Defined.

(** ** Text read *)

Lemma trim_trailing_snoc (l : list Z) (c : Z) :
  trim_trailing (l ++ [c]) = if is_pad c then trim_trailing l else l ++ [c].
Proof.
  unfold trim_trailing. rewrite reverse_snoc. cbn [drop_pads].
  destruct (is_pad c); [reflexivity|].
  rewrite reverse_cons, reverse_involutive. reflexivity.
Qed.

Lemma trim_trailing_length (l : list Z) :
  (length (trim_trailing l) <= length l)%nat.
Proof.
  induction l as [|c l IH] using rev_ind; [reflexivity|].
  rewrite trim_trailing_snoc, length_app. cbn [length].
  destruct (is_pad c); [lia | rewrite length_app; cbn [length]; lia].
Qed.

Lemma trim_trailing_prefix (l : list Z) :
  take (length (trim_trailing l)) l = trim_trailing l.
Proof.
  induction l as [|c l IH] using rev_ind; [reflexivity|].
  rewrite trim_trailing_snoc. destruct (is_pad c).
  - rewrite take_app_le by apply trim_trailing_length. exact IH.
  - apply take_ge. lia.
Qed.

Lemma trim_loop_spec (buf : list Z) (sz : nat) :
  (sz <= length buf)%nat ->
  trim_loop buf sz =
  match trim_trailing (take sz buf) with
  | [] => OutOfBounds (-1)
  | t => Ok (length t)
  end.
Proof.
  induction sz as [|sz IH]; intros Hsz; [reflexivity|].
  cbn [trim_loop].
  destruct (lookup_lt_is_Some_2 buf sz ltac:(lia)) as [c Hc].
  rewrite Hc. rewrite (take_S_r _ _ _ Hc), trim_trailing_snoc.
  fold (is_pad c). destruct (is_pad c).
  - apply IH. lia.
  - assert (Hlen : length (take sz buf ++ [c]) = S sz)
      by (rewrite length_app, length_take; cbn [length]; lia).
    destruct (take sz buf ++ [c]) as [|x t] eqn:E; [discriminate Hlen|].
    rewrite Hlen. reflexivity.
Qed.

(** What a read returns, for every screen: the trimmed text and one
    newline when some byte of the screen is neither NUL nor newline,
    and an access to [buf[-1]] otherwise. *)
Lemma get_vfd_text_handler_run (buf : list Z) (k : kernel) :
  length (screen (vfd k)) = SHUTTLE_VFD_WIDTH ->
  (SHUTTLE_VFD_WIDTH < length buf)%nat ->
  text_read (eval (get_vfd_text_handler buf) k) =
  match trim_trailing (screen (vfd k)) with
  | [] => OutOfBounds (-1)
  | t => Ok (t ++ [10])
  end.
Proof.
  unfold SHUTTLE_VFD_WIDTH. intros Hs Hb.
  assert (Ev : eval (get_vfd_text_handler buf) k =
               match trim_loop (memcpy buf 0 (screen (vfd k)) 20) 20 with
               | OutOfBounds i => OutOfBounds i
               | Ok sz => Ok (Z.of_nat sz + 1,
                              <[sz := 10]> (memcpy buf 0 (screen (vfd k)) 20))
               end).
  { unfold eval, get_vfd_text_handler, bind, get_vfd, SHUTTLE_VFD_WIDTH.
    destruct (trim_loop _ _); reflexivity. }
  rewrite Ev. clear Ev.
  set (s := screen (vfd k)) in *.
  assert (Ebuf : memcpy buf 0 s 20 = s ++ drop 20 buf).
  { unfold memcpy. change (take 0 buf) with (@nil Z).
    rewrite app_nil_l, Nat.add_0_l, (take_ge s) by lia. reflexivity. }
  rewrite Ebuf.
  rewrite trim_loop_spec by (rewrite length_app; lia).
  assert (Et : take 20 (s ++ drop 20 buf) = s)
    by (rewrite take_app_le by lia; apply take_ge; lia).
  rewrite Et.
  pose proof (trim_trailing_length s) as Hlen.
  pose proof (trim_trailing_prefix s) as Hpre.
  destruct (trim_trailing s) as [|x t] eqn:E; [reflexivity|].
  cbn [ret fst text_read].
  set (n := length (x :: t)) in *.
  replace (Z.to_nat (Z.of_nat n + 1)) with (S n) by lia.
  assert (Hn : (n < length (s ++ drop 20 buf))%nat)
    by (rewrite length_app, length_drop; lia).
  rewrite (take_S_r _ n 10) by (apply list_lookup_insert_eq; exact Hn).
  rewrite take_insert_ge by lia.
  rewrite take_app_le by lia. rewrite Hpre. reflexivity.
Qed.

Lemma trim_loop_all_pads (buf : list Z) (sz : nat) :
  (sz <= length buf)%nat ->
  Forall (fun c => is_pad c = true) (take sz buf) ->
  trim_loop buf sz = OutOfBounds (-1).
Proof.
  induction sz as [|sz IH]; intros Hsz Hall; [reflexivity|].
  cbn [trim_loop].
  destruct (lookup_lt_is_Some_2 buf sz ltac:(lia)) as [c Hc].
  rewrite Hc. rewrite (take_S_r _ _ _ Hc) in Hall.
  apply Forall_app in Hall as [Hall Hlast].
  apply (proj1 (Forall_singleton _ c)) in Hlast. cbv beta in Hlast.
  fold (is_pad c). rewrite Hlast.
  apply IH; [lia | exact Hall].
Qed.

(** C6.  On the screen that "test 123" leaves, a read returns the 9
    bytes "test 123" and a newline.  On the all-NUL screen of a freshly
    attached device there is no byte to stop the trimming loop: the read
    does not return the single newline the trimmed empty text would
    give, it reads in front of the buffer. *)
Theorem get_vfd_text_handler_blank_screen :
  text_read (eval (get_vfd_text_handler sysfs_page)
               (exec (set_vfd_text_handler (bytes_of "test 123") 8) (boot [])))
  = Ok (bytes_of "test 123" ++ [10]) /\
  trim_trailing (screen (vfd (exec shuttle_vfd_probe (boot [])))) ++ [10] = [10] /\
  text_read (eval (get_vfd_text_handler sysfs_page) (exec shuttle_vfd_probe (boot [])))
  = OutOfBounds (-1).
Proof. split; [|split]; vm_compute; reflexivity. Qed.

(** C10.  Right after attach the screen is all NUL.  The trimming loop
    of the read handler then decrements its counter from 20 down to 0
    and evaluates its condition once more, on [buf[-1]]: the counter
    does go below 1 and the access leaves the indices 0..19. *)
Theorem trim_loop_after_probe_out_of_bounds :
  let k := exec shuttle_vfd_probe (boot []) in
  let buf := memcpy sysfs_page 0 (screen (vfd k)) SHUTTLE_VFD_WIDTH in
  screen (vfd k) = replicate 20 0 /\
  trim_loop buf SHUTTLE_VFD_WIDTH = trim_loop buf 0 /\
  trim_loop buf 0 = OutOfBounds (-1) /\
  eval (get_vfd_text_handler sysfs_page) k = OutOfBounds (-1).
Proof. repeat split; vm_compute; reflexivity. Qed.

(** ** Brightness callbacks *)

Lemma vfd_led_generic_set_run (led : vfd_led) (value : Z) (k : kernel) :
  let m := if negb (value =? LED_OFF)
           then Z.lor (icons_mask (vfd k)) (mask led)
           else Z.land (icons_mask (vfd k)) (ulong_not (mask led)) in
  vfd_led_generic_set led value k =
  (tt, submit (icons_packet m) (with_icons_mask m k)).
Proof.
  unfold vfd_led_generic_set.
  destruct (negb (value =? LED_OFF)); cbv zeta; run;
    rewrite vfd_set_icons_submit; reflexivity.
Qed.

Lemma vfd_led_volume_set_run (led : vfd_led) (value : Z) (k : kernel) :
  let m0 := Z.land (icons_mask (vfd k)) SHUTTLE_VFD_BASE_MASK in
  let m := if negb (value =? LED_OFF)
           then Z.lor m0 (SHUTTLE_VFD_ICON_VOL value) else m0 in
  vfd_led_volume_set led value k =
  (tt, submit (icons_packet m) (with_icons_mask m k)).
Proof.
  unfold vfd_led_volume_set.
  destruct (negb (value =? LED_OFF)); cbv zeta; run;
    rewrite vfd_set_icons_submit; reflexivity.
Qed.

Lemma icons_mask_generic_set (led : vfd_led) (value : Z) (k : kernel) :
  icons_mask (vfd (exec (vfd_led_generic_set led value) k)) =
  if negb (value =? LED_OFF)
  then Z.lor (icons_mask (vfd k)) (mask led)
  else Z.land (icons_mask (vfd k)) (ulong_not (mask led)).
Proof. unfold exec. rewrite vfd_led_generic_set_run. reflexivity. Qed.

Lemma icons_mask_volume_set (led : vfd_led) (value : Z) (k : kernel) :
  icons_mask (vfd (exec (vfd_led_volume_set led value) k)) =
  if negb (value =? LED_OFF)
  then Z.lor (Z.land (icons_mask (vfd k)) SHUTTLE_VFD_BASE_MASK)
             (SHUTTLE_VFD_ICON_VOL value)
  else Z.land (icons_mask (vfd k)) SHUTTLE_VFD_BASE_MASK.
Proof. unfold exec. rewrite vfd_led_volume_set_run. reflexivity. Qed.

Lemma testbit_BASE_MASK (j : Z) :
  0 <= j -> Z.testbit SHUTTLE_VFD_BASE_MASK j = (j <? 15).
Proof.
  intros H. change SHUTTLE_VFD_BASE_MASK with (Z.ones 15).
  apply Z.testbit_ones_nonneg; lia.
Qed.

Lemma testbit_ULONG_MAX (j : Z) : 0 <= j -> Z.testbit ULONG_MAX j = (j <? 64).
Proof.
  intros H. change ULONG_MAX with (Z.ones 64).
  apply Z.testbit_ones_nonneg; lia.
Qed.

Lemma testbit_UINT_MAX (j : Z) : 0 <= j -> Z.testbit UINT_MAX j = (j <? 32).
Proof.
  intros H. change UINT_MAX with (Z.ones 32).
  apply Z.testbit_ones_nonneg; lia.
Qed.

Lemma testbit_icon_mask (pos : nat) (j : Z) :
  0 <= j -> Z.testbit (mask (icon_led pos)) j = (j =? Z.of_nat pos).
Proof.
  intros H. cbn [icon_led mask]. rewrite Z.shiftl_1_l.
  rewrite Z.pow2_bits_eqb by lia. apply Z.eqb_sym.
Qed.

Lemma icon_bits_ICON_VOL (value : Z) : icon_bits (SHUTTLE_VFD_ICON_VOL value) = 0.
Proof.
  apply Z.bits_inj'. intros j Hj. unfold icon_bits, SHUTTLE_VFD_ICON_VOL.
  rewrite Z.bits_0, !Z.land_spec, testbit_BASE_MASK, Z.shiftl_spec by lia.
  destruct (Z.ltb_spec j 15) as [Hlt|Hge].
  - rewrite Z.testbit_neg_r by lia. reflexivity.
  - apply andb_false_r.
Qed.

Lemma volume_field_icon_bits (m : Z) : volume_field (icon_bits m) = 0.
Proof.
  apply Z.bits_inj'. intros j Hj. unfold volume_field, icon_bits.
  rewrite Z.bits_0, Z.shiftr_spec, Z.land_spec, testbit_BASE_MASK by lia.
  destruct (Z.ltb_spec (j + 15) 15); [lia | apply andb_false_r].
Qed.

Lemma volume_field_lor (a b : Z) :
  volume_field (Z.lor a b) = Z.lor (volume_field a) (volume_field b).
Proof. apply Z.shiftr_lor. Qed.

Lemma icon_bits_lor (a b : Z) :
  icon_bits (Z.lor a b) = Z.lor (icon_bits a) (icon_bits b).
Proof. apply Z.land_lor_distr_l. Qed.

(** C8.  For every prior mask, switching a binary icon (bit 0..14) on
    or off leaves the volume field, bits 15 and above, as it was.
    Setting the volume leaves the icon bits 0..14 as they were and
    replaces the whole volume field: nothing of the old field survives,
    the new one is the shifted level, and for level 0 the mask is the
    old icon bits alone. *)
Theorem set_brightness_frame (k : kernel) (pos : nat) (value : Z) :
  (pos < NUM_LEDS)%nat ->
  0 <= icons_mask (vfd k) <= ULONG_MAX ->
  volume_field (icons_mask (vfd (exec (vfd_led_generic_set (icon_led pos) value) k)))
  = volume_field (icons_mask (vfd k)) /\
  icon_bits (icons_mask (vfd (exec (vfd_led_volume_set volume_led value) k)))
  = icon_bits (icons_mask (vfd k)) /\
  volume_field (icons_mask (vfd (exec (vfd_led_volume_set volume_led value) k)))
  = volume_field (SHUTTLE_VFD_ICON_VOL value) /\
  (value = LED_OFF ->
   icons_mask (vfd (exec (vfd_led_volume_set volume_led value) k))
   = icon_bits (icons_mask (vfd k))).
Proof.
  unfold NUM_LEDS. intros Hpos Hm.
  rewrite icons_mask_generic_set, icons_mask_volume_set.
  set (m := icons_mask (vfd k)) in *.
  fold (icon_bits m).
  split; [|split; [|split]].
  - apply Z.bits_inj'. intros j Hj. unfold volume_field.
    destruct (negb (value =? LED_OFF)).
    + rewrite !Z.shiftr_spec, Z.lor_spec, testbit_icon_mask by lia.
      destruct (Z.eqb_spec (j + 15) (Z.of_nat pos)); [lia | apply orb_false_r].
    + unfold ulong_not.
      rewrite !Z.shiftr_spec, !Z.land_spec, Z.lnot_spec, testbit_icon_mask,
        testbit_ULONG_MAX by lia.
      destruct (Z.eqb_spec (j + 15) (Z.of_nat pos)); [lia|]. cbn [negb andb].
      destruct (Z.ltb_spec (j + 15) 64); [apply andb_true_r|].
      rewrite (testbit_small m 64) by (unfold ULONG_MAX in Hm; lia). reflexivity.
  - destruct (negb (value =? LED_OFF)).
    + rewrite icon_bits_lor, icon_bits_ICON_VOL, Z.lor_0_r.
      unfold icon_bits. rewrite <- Z.land_assoc, Z.land_diag. reflexivity.
    + unfold icon_bits. rewrite <- Z.land_assoc, Z.land_diag. reflexivity.
  - destruct (negb (value =? LED_OFF)) eqn:E.
    + rewrite volume_field_lor, volume_field_icon_bits. reflexivity.
    + rewrite volume_field_icon_bits.
      apply negb_false_iff, Z.eqb_eq in E. rewrite E. reflexivity.
  - intros ->. reflexivity.
Qed.

Lemma set_brightness_frame_witness :
  (3 < NUM_LEDS)%nat /\
  0 <= icons_mask (vfd (with_icons_mask 0x58421 (boot []))) <= ULONG_MAX /\
  volume_field (icons_mask (vfd (exec (vfd_led_generic_set (icon_led 3) 1)
                                   (with_icons_mask 0x58421 (boot [])))))
  = 11.
Proof.
  assert (H1 : (3 < NUM_LEDS)%nat) by (unfold NUM_LEDS; lia).
  assert (H2 : 0 <= icons_mask (vfd (with_icons_mask 0x58421 (boot []))) <= ULONG_MAX)
    by (cbn; unfold ULONG_MAX; lia).
  destruct (set_brightness_frame (with_icons_mask 0x58421 (boot [])) 3 1 H1 H2)
    as (Hv & _).
  split; [exact H1|]. split; [exact H2|]. rewrite Hv. reflexivity.
Defined.

(** C7, as the specification states it for the volume endpoint, fails:
    the callback writes the level it is given, here 13, into the volume
    field. *)
Lemma volume_set_not_clamped :
  ~ (forall (k : kernel) (value : Z),
       SHUTTLE_VFD_ICON_VOL_NUM < value ->
       0 <= volume_field (icons_mask (vfd (exec (vfd_led_volume_set volume_led value) k)))
         <= SHUTTLE_VFD_ICON_VOL_NUM).
Proof.
  intros H.
  assert (H13 : SHUTTLE_VFD_ICON_VOL_NUM < 13) by (unfold SHUTTLE_VFD_ICON_VOL_NUM; lia).
  specialize (H (boot []) 13 H13). vm_compute in H.
  destruct H as [_ H]. apply H. reflexivity.
Qed.

(** C7, amended.  A binary icon treats every brightness other than 0
    alike: the callback run with such a value is the callback run with
    1, and it sets the one bit of the icon and changes no other bit of
    the mask.  The volume callback does not clamp: for a value up to
    [2^17 - 1] the volume field it leaves is that value as given (so
    within 0..12 only when the value is), and for any value whatever
    the icon bits 0..14 are as before. *)
Theorem set_brightness_out_of_range (k : kernel) (pos : nat) (value : Z) :
  (pos < NUM_LEDS)%nat ->
  (value <> LED_OFF ->
   vfd_led_generic_set (icon_led pos) value k = vfd_led_generic_set (icon_led pos) 1 k /\
   (forall j : Z, 0 <= j ->
      Z.testbit (icons_mask (vfd (exec (vfd_led_generic_set (icon_led pos) value) k))) j
      = Z.testbit (icons_mask (vfd k)) j || (j =? Z.of_nat pos))) /\
  (0 <= value < 2 ^ 17 ->
   volume_field (icons_mask (vfd (exec (vfd_led_volume_set volume_led value) k))) = value) /\
  icon_bits (icons_mask (vfd (exec (vfd_led_volume_set volume_led value) k)))
  = icon_bits (icons_mask (vfd k)).
Proof.
  intros Hpos. split; [|split].
  - intros Hv.
    assert (E : negb (value =? LED_OFF) = true)
      by (apply negb_true_iff, Z.eqb_neq; exact Hv).
    split.
    + rewrite !vfd_led_generic_set_run. cbv zeta. rewrite E. reflexivity.
    + intros j Hj. rewrite icons_mask_generic_set, E.
      rewrite Z.lor_spec, testbit_icon_mask by lia. reflexivity.
  - intros Hr. rewrite icons_mask_volume_set.
    fold (icon_bits (icons_mask (vfd k))).
    destruct (Z.eqb_spec value LED_OFF) as [Hv|Hv]; cbn [negb].
    + rewrite volume_field_icon_bits, Hv. reflexivity.
    + rewrite volume_field_lor, volume_field_icon_bits, Z.lor_0_l.
      unfold volume_field. rewrite ICON_VOL_small by lia.
      rewrite Z.shiftr_shiftl_l by lia. apply Z.shiftl_0_r.
  - rewrite icons_mask_volume_set. fold (icon_bits (icons_mask (vfd k))).
    assert (Ei : icon_bits (icon_bits (icons_mask (vfd k)))
                 = icon_bits (icons_mask (vfd k))).
    { unfold icon_bits. rewrite <- Z.land_assoc, Z.land_diag. reflexivity. }
    destruct (negb (value =? LED_OFF)); [|exact Ei].
    rewrite icon_bits_lor, icon_bits_ICON_VOL, Z.lor_0_r. exact Ei.
Qed.

Lemma set_brightness_out_of_range_witness :
  (2 < NUM_LEDS)%nat /\ 15 <> LED_OFF /\ 0 <= 15 < 2 ^ 17 /\
  vfd_led_generic_set (icon_led 2) 15 (boot []) = vfd_led_generic_set (icon_led 2) 1 (boot []) /\
  volume_field (icons_mask (vfd (exec (vfd_led_volume_set volume_led 15) (boot [])))) = 15.
Proof.
  assert (H1 : (2 < NUM_LEDS)%nat) by (unfold NUM_LEDS; lia).
  assert (H2 : 15 <> LED_OFF) by (unfold LED_OFF; lia).
  assert (H3 : 0 <= 15 < 2 ^ 17) by lia.
  destruct (set_brightness_out_of_range (boot []) 2 15 H1) as (Hb & Hvol & _).
  split; [exact H1|]. split; [exact H2|]. split; [exact H3|].
  split; [exact (proj1 (Hb H2)) | exact (Hvol H3)].
Defined.

(** ** Transport failures *)

Lemma vfd_foldl_submit (ps : list (list Z)) (k1 k2 : kernel) :
  vfd k1 = vfd k2 ->
  vfd (foldl (fun k p => submit p k) k1 ps) = vfd (foldl (fun k p => submit p k) k2 ps).
Proof.
  revert k1 k2. induction ps as [|p ps IH]; intros k1 k2 H; cbn [foldl]; [exact H|].
  apply IH. cbn [submit after_send vfd]. rewrite H. reflexivity.
Qed.

Lemma failures_cons (r : Z) (rs : list Z) :
  failures (r :: rs) = (if r <? 0 then [r] else []) ++ failures rs.
Proof.
  unfold failures. rewrite filter_cons.
  destruct (Z.ltb_spec r 0); destruct (decide (r < 0)); try lia; reflexivity.
Qed.

Lemma dmesg_foldl_submit (ps : list (list Z)) (k : kernel) :
  dmesg (foldl (fun k p => submit p k) k ps) =
  dmesg k ++ failures (take (length ps) (usb_results k)).
Proof.
  revert k. induction ps as [|p ps IH]; intros k; cbn [foldl length].
  - change (failures (take 0 (usb_results k))) with (@nil Z).
    rewrite app_nil_r. reflexivity.
  - rewrite IH. cbn [submit after_send dmesg usb_results next_result].
    destruct (usb_results k) as [|r rs]; cbn [tail take].
    + rewrite take_nil. cbn. rewrite !app_nil_r. reflexivity.
    + rewrite failures_cons, app_assoc. reflexivity.
Qed.

(** C9, as the specification states it, fails on "surfaced to the
    caller as an operation failure": with every send failing the text
    write still returns the byte count. *)
Lemma text_write_failure_not_surfaced :
  ~ (forall (buf : list Z) (count : nat) (k : kernel),
       (exists r : Z, r ∈ take 4 (usb_results k) /\ r < 0) ->
       eval (set_vfd_text_handler buf count) k < 0).
Proof.
  intros H.
  specialize (H (bytes_of "test 123") 8%nat (boot [-5; -5; -5; -5])).
  assert (Hf : exists r : Z, r ∈ take 4 (usb_results (boot [-5; -5; -5; -5])) /\ r < 0).
  { exists (-5). split; [cbn; apply list_elem_of_here | lia]. }
  specialize (H Hf). vm_compute in H. discriminate H.
Qed.

Lemma exec_generic_set (led : vfd_led) (value : Z) (k : kernel) :
  exists m : Z,
    (forall rs : list Z,
       exec (vfd_led_generic_set led value) (with_usb_results rs k) =
       foldl (fun k p => submit p k)
             (with_usb_results rs (with_icons_mask m k)) [icons_packet m]).
Proof.
  exists (if negb (value =? LED_OFF)
          then Z.lor (icons_mask (vfd k)) (mask led)
          else Z.land (icons_mask (vfd k)) (ulong_not (mask led))).
  intros rs. unfold exec. rewrite vfd_led_generic_set_run. reflexivity.
Qed.

Lemma exec_volume_set (led : vfd_led) (value : Z) (k : kernel) :
  exists m : Z,
    (forall rs : list Z,
       exec (vfd_led_volume_set led value) (with_usb_results rs k) =
       foldl (fun k p => submit p k)
             (with_usb_results rs (with_icons_mask m k)) [icons_packet m]).
Proof.
  exists (if negb (value =? LED_OFF)
          then Z.lor (Z.land (icons_mask (vfd k)) SHUTTLE_VFD_BASE_MASK)
                     (SHUTTLE_VFD_ICON_VOL value)
          else Z.land (icons_mask (vfd k)) SHUTTLE_VFD_BASE_MASK).
  intros rs. unfold exec. rewrite vfd_led_volume_set_run. reflexivity.
Qed.

(** C9, amended.  [vfd_send_packet] reports a negative result of the
    transport through [dev_err] and returns it, but no caller looks at
    it: a text write returns the byte count whatever the transport
    answered, and the brightness callbacks return nothing.  No send is
    repeated, and nothing is rolled back: device structure and the
    packets handed to the transport are the same after an operation
    whose sends failed as after the same operation with every send
    succeeding; only the kernel log differs, by one line per failed
    send. *)
Theorem transport_failure_keeps_state
    (buf : list Z) (count : nat) (led : vfd_led) (value : Z)
    (rs : list Z) (k : kernel) :
  (count <= length buf)%nat ->
  length (screen (vfd k)) = SHUTTLE_VFD_WIDTH ->
  let kf := with_usb_results rs k in
  let ks := with_usb_results [] k in
  (eval (vfd_send_packet None) kf = next_result kf /\
   dmesg (exec (vfd_send_packet None) kf) = dmesg k ++ failures (take 1 rs) /\
   usb_sent (exec (vfd_send_packet None) kf) = usb_sent k ++ [packet (vfd k)]) /\
  (eval (set_vfd_text_handler buf count) kf = Z.of_nat count /\
   vfd (exec (set_vfd_text_handler buf count) kf)
   = vfd (exec (set_vfd_text_handler buf count) ks) /\
   usb_sent (exec (set_vfd_text_handler buf count) kf)
   = usb_sent (exec (set_vfd_text_handler buf count) ks) /\
   dmesg (exec (set_vfd_text_handler buf count) kf) = dmesg k ++ failures (take 4 rs)) /\
  (vfd (exec (vfd_led_generic_set led value) kf)
   = vfd (exec (vfd_led_generic_set led value) ks) /\
   usb_sent (exec (vfd_led_generic_set led value) kf)
   = usb_sent (exec (vfd_led_generic_set led value) ks) /\
   dmesg (exec (vfd_led_generic_set led value) kf) = dmesg k ++ failures (take 1 rs)) /\
  (vfd (exec (vfd_led_volume_set led value) kf)
   = vfd (exec (vfd_led_volume_set led value) ks) /\
   usb_sent (exec (vfd_led_volume_set led value) kf)
   = usb_sent (exec (vfd_led_volume_set led value) ks) /\
   dmesg (exec (vfd_led_volume_set led value) kf) = dmesg k ++ failures (take 1 rs)).
Proof.
  intros Hb Hs kf ks.
  split; [|split; [|split]].
  - unfold eval, exec. rewrite vfd_send_packet_run. cbn [fst snd].
    split; [reflexivity|]. split; [|reflexivity].
    unfold kf. cbn [after_send dmesg with_usb_results next_result usb_results].
    destruct rs as [|r rs]; [reflexivity|].
    cbn [take]. rewrite failures_cons. cbn [failures filter].
    rewrite app_nil_r. reflexivity.
  - unfold eval, exec.
    rewrite !set_vfd_text_handler_run by assumption. cbn [fst snd].
    split; [reflexivity|]. split; [|split].
    + apply vfd_foldl_submit. reflexivity.
    + rewrite !usb_sent_foldl_submit. reflexivity.
    + rewrite dmesg_foldl_submit. reflexivity.
  - destruct (exec_generic_set led value k) as [m Hm].
    unfold kf, ks. rewrite !Hm. split; [|split].
    + apply vfd_foldl_submit. reflexivity.
    + rewrite !usb_sent_foldl_submit. reflexivity.
    + rewrite dmesg_foldl_submit. reflexivity.
  - destruct (exec_volume_set led value k) as [m Hm].
    unfold kf, ks. rewrite !Hm. split; [|split].
    + apply vfd_foldl_submit. reflexivity.
    + rewrite !usb_sent_foldl_submit. reflexivity.
    + rewrite dmesg_foldl_submit. reflexivity.
Qed.

Lemma transport_failure_keeps_state_witness :
  (8 <= length (bytes_of "test 123"))%nat /\
  length (screen (vfd (boot []))) = SHUTTLE_VFD_WIDTH /\
  eval (set_vfd_text_handler (bytes_of "test 123") 8)
       (with_usb_results [-5; 8; -110; 8] (boot [])) = 8 /\
  dmesg (exec (set_vfd_text_handler (bytes_of "test 123") 8)
              (with_usb_results [-5; 8; -110; 8] (boot []))) = [-5; -110].
Proof.
  assert (H1 : (8 <= length (bytes_of "test 123"))%nat) by (cbn; lia).
  assert (H2 : length (screen (vfd (boot []))) = SHUTTLE_VFD_WIDTH) by reflexivity.
  destruct (transport_failure_keeps_state (bytes_of "test 123") 8 (icon_led 0) 1
              [-5; 8; -110; 8] (boot []) H1 H2)
    as (_ & (Hret & _ & _ & Hlog) & _).
  split; [exact H1|]. split; [exact H2|].
  split; [exact Hret | exact Hlog].
Defined.

(** ** Concurrent callers: properties *)

Lemma run_schedule_cons (tid : nat) (sched : list nat) (m : machine) :
  run_schedule (tid :: sched) m = run_schedule sched (sched_step tid m).
Proof. reflexivity. Qed.

Lemma sched_step_alone (i : instr) (rest : list instr) (r : Z) (k : kernel) :
  sched_step 0 (mk_machine k [mk_thread (i :: rest) r]) =
  match step_instr i r k with
  | Some (k', r') => mk_machine k' [mk_thread rest r']
  | None => mk_machine k [mk_thread (i :: rest) r]
  end.
Proof.
  unfold sched_step. cbn [pool kern lookup list_lookup].
  destruct (step_instr i r k) as [[k' r']|]; reflexivity.
Qed.

Ltac alone_step :=
  rewrite run_schedule_cons, sched_step_alone;
  cbn [step_instr exec snd modify_vfd mutex_lock mutex_unlock msleep get_vfd
       usb_control_msg bind];
  run_simpl.

Ltac alone_finish :=
  unfold run_schedule, exec, submit, after_send, with_icons_mask, next_result,
    icons_packet, dev_err, ret;
  cbn [foldl kern vfd usb_results usb_sent dmesg uptime_ms snd];
  unfold packet_store, set_packet, set_mutex, set_icons_mask, memset0;
  cbn [vfd_mutex icons_mask packet screen replicate SHUTTLE_VFD_PACKET_SIZE
       insert list_insert];
  rewrite ?to_uchar_land_1F;
  change (to_uchar (Z.shiftl 7 4 + 4)) with 0x74.

(** The statement model of a callback agrees with the callback: a
    thread that runs alone, the mutex free, leaves the kernel the
    callback leaves. *)
Lemma generic_set_code_alone (led : vfd_led) (value : Z) (k : kernel) :
  vfd_mutex (vfd k) = false ->
  kern (run_schedule (replicate 12 0%nat)
          (mk_machine k [spawn (vfd_led_generic_set_code led value)]))
  = exec (vfd_led_generic_set led value) k.
Proof.
  intros Hm. destruct k as [[mx m p s] rs sent log t]. cbn in Hm. subst mx.
  unfold exec. rewrite vfd_led_generic_set_run. cbv zeta.
  unfold vfd_led_generic_set_code, vfd_set_icons_code, vfd_send_packet_code, spawn.
  cbn [replicate app].
  destruct (negb (value =? LED_OFF)); do 12 alone_step; alone_finish;
    (destruct rs as [|r rs]; [|destruct (r <? 0)]);
    cbn [tail snd app]; rewrite ?app_nil_r; reflexivity.
Qed.

Lemma volume_set_code_alone (led : vfd_led) (value : Z) (k : kernel) :
  vfd_mutex (vfd k) = false ->
  kern (run_schedule (replicate 13 0%nat)
          (mk_machine k [spawn (vfd_led_volume_set_code led value)]))
  = exec (vfd_led_volume_set led value) k.
Proof.
  intros Hm. destruct k as [[mx m p s] rs sent log t]. cbn in Hm. subst mx.
  unfold exec. rewrite vfd_led_volume_set_run. cbv zeta.
  unfold vfd_led_volume_set_code, vfd_set_icons_code, vfd_send_packet_code, spawn.
  cbn [replicate app].
  destruct (negb (value =? LED_OFF)); cbn [app]; do 12 alone_step;
    try alone_step; try (rewrite run_schedule_cons; cbn [sched_step pool kern lookup list_lookup code]);
    alone_finish;
    (destruct rs as [|r rs]; [|destruct (r <? 0)]);
    cbn [tail snd app]; rewrite ?app_nil_r; reflexivity.
Qed.

(** No mask makes [vfd_set_icons] build a packet of eight zero bytes. *)
Lemma icons_packet_not_blank (m : Z) : icons_packet m <> [0; 0; 0; 0; 0; 0; 0; 0].
Proof. unfold icons_packet. intros H. discriminate H. Qed.

(** C1.  The mutex of [vfd_send_packet] covers the transfer and the
    sleep only: a callback updates the mask and fills the shared packet
    buffer before it takes the lock.  With "tv" and "cd" switched on by
    two callers at once, the schedule [race_schedule] never makes a
    thread wait, and the first packet on the transport is eight zero
    bytes, the buffer as the second caller's [memset] left it, which no
    mask encodes.  Run one after the other, the same two callers send
    the icons packets of the masks 1 and 3. *)
Theorem concurrent_set_brightness_malformed_packet :
  let after_race := run_schedule race_schedule two_callers in
  let after_serial := run_schedule serial_schedule two_callers in
  let sent (m : machine) := drop 1 (usb_sent (kern m)) in
  Forall (fun t => code t = []) (pool after_race) /\
  icons_mask (vfd (kern after_race)) = 3 /\
  sent after_race = [[0; 0; 0; 0; 0; 0; 0; 0]; icons_packet 3] /\
  (forall m : Z, icons_packet m <> [0; 0; 0; 0; 0; 0; 0; 0]) /\
  Forall (fun t => code t = []) (pool after_serial) /\
  sent after_serial = [icons_packet 1; icons_packet 3].
Proof.
  cbv zeta. split; [|split; [|split; [|split; [|split]]]].
  - vm_compute. repeat constructor.
  - vm_compute. reflexivity.
  - vm_compute. reflexivity.
  - exact icons_packet_not_blank.
  - vm_compute. repeat constructor.
  - vm_compute. reflexivity.
Qed.

(** * Further properties *)

(** ** Text packets for any length *)

Lemma foldl_submit_app (ps qs : list (list Z)) (k : kernel) :
  foldl (fun k p => submit p k) k (ps ++ qs) =
  foldl (fun k p => submit p k) (foldl (fun k p => submit p k) k ps) qs.
Proof. apply foldl_app. Qed.

Lemma packet_foldl_submit (ps : list (list Z)) (k : kernel) :
  length (packet (vfd k)) = 8%nat ->
  Forall (fun p => length p = 8%nat) ps ->
  length (packet (vfd (foldl (fun k p => submit p k) k ps))) = 8%nat.
Proof.
  revert k. induction ps as [|p ps IH]; intros k Hk Hps; cbn [foldl]; [exact Hk|].
  apply Forall_cons in Hps as [Hp Hps]. apply IH; [exact Hp | exact Hps].
Qed.

Lemma vfd_set_text_loop_run (n p : nat) (k : kernel) :
  length (packet (vfd k)) = SHUTTLE_VFD_PACKET_SIZE ->
  (p + 7 * n <= length (screen (vfd k)))%nat ->
  vfd_set_text_loop n p k =
  ((p + 7 * n)%nat,
   foldl (fun k p => submit p k) k (full_chunks n (drop p (screen (vfd k))))).
Proof.
  unfold SHUTTLE_VFD_PACKET_SIZE.
  revert p k. induction n as [|n IH]; intros p k Hp Hs.
  - cbn [vfd_set_text_loop full_chunks foldl]. unfold ret. f_equal. lia.
  - cbn [vfd_set_text_loop full_chunks foldl]. run.
    change SHUTTLE_VFD_DATA_SIZE with 7%nat.
    assert (E : memcpy (<[0%nat:=to_uchar (Z.shiftl 9 4 + Z.of_nat 7)]> (packet (vfd k))) 1
                  (drop p (screen (vfd k))) 7
                = 0x97 :: take 7 (drop p (screen (vfd k)))).
    { destruct (packet (vfd k)) as [|b0 [|b1 [|b2 [|b3 [|b4 [|b5 [|b6 [|b7 [|b8 pk]]]]]]]]];
        try discriminate Hp.
      unfold memcpy. cbn [insert list_insert take drop app Nat.add].
      rewrite app_nil_r. reflexivity. }
    rewrite E.
    match goal with |- vfd_set_text_loop n _ ?k' = _ => set (k1 := k') end.
    assert (Ek1 : k1 = submit (0x97 :: take 7 (drop p (screen (vfd k)))) k) by reflexivity.
    rewrite IH.
    + rewrite Ek1. cbn [submit after_send vfd set_packet set_mutex screen].
      rewrite drop_drop. f_equal. lia.
    + rewrite Ek1. cbn [submit after_send vfd set_packet set_mutex packet].
      cbn [length]. rewrite length_take, length_drop. lia.
    + rewrite Ek1. cbn [submit after_send vfd set_packet set_mutex screen]. lia.
Qed.

Lemma to_uchar_text_header (r : nat) :
  (r <= 7)%nat -> to_uchar (Z.shiftl 9 4 + Z.of_nat r) = 0x90 + Z.of_nat r.
Proof. intros H. apply to_uchar_small. change (Z.shiftl 9 4) with 144. lia. Qed.

(** All packets of [vfd_set_text(vfd, len)], for any [len] within the
    screen. *)
Lemma vfd_set_text_run_any (len : nat) (k : kernel) :
  length (packet (vfd k)) = SHUTTLE_VFD_PACKET_SIZE ->
  (len <= length (screen (vfd k)))%nat ->
  vfd_set_text len k =
  (tt, foldl (fun k p => submit p k) k
         (full_chunks (len / 7) (screen (vfd k)) ++
          tail_chunk (len mod 7) (drop (7 * (len / 7)) (screen (vfd k))))).
Proof.
  intros Hp Hs. unfold vfd_set_text.
  change SHUTTLE_VFD_DATA_SIZE with 7%nat.
  pose proof (Nat.div_mod_eq len 7) as Hdm.
  pose proof (Nat.mod_upper_bound len 7 ltac:(lia)) as Hr.
  unfold bind at 1. rewrite vfd_set_text_loop_run by (try assumption; lia).
  rewrite drop_0, Nat.add_0_l, foldl_submit_app.
  set (s := screen (vfd k)) in *.
  set (k1 := foldl (fun k p => submit p k) k (full_chunks (len / 7) s)).
  unfold tail_chunk.
  destruct (Nat.eqb_spec (len mod 7) 0) as [E|E]; [reflexivity|].
  assert (Em : forall src : list Z,
            memcpy (<[0%nat:=to_uchar (Z.shiftl 9 4 + Z.of_nat (len mod 7))]>
                      (memset0 SHUTTLE_VFD_PACKET_SIZE)) 1 src (len mod 7)
            = (0x90 + Z.of_nat (len mod 7)) :: take (len mod 7) src
              ++ replicate (7 - len mod 7) 0).
  { intros src. rewrite to_uchar_text_header by lia.
    unfold memcpy, memset0, SHUTTLE_VFD_PACKET_SIZE.
    cbn [replicate insert list_insert take app].
    change (1 + len mod 7)%nat with (S (len mod 7)). cbn [drop].
    change [0; 0; 0; 0; 0; 0; 0] with (replicate 7 0).
    rewrite drop_replicate. reflexivity. }
  run. rewrite Em. cbn [foldl]. unfold ret, submit.
  unfold k1 at 1. rewrite screen_foldl_submit. reflexivity.
Qed.

Lemma full_chunks_length (n : nat) (s : list Z) : length (full_chunks n s) = n.
Proof.
  revert s. induction n as [|n IH]; intros s; cbn [full_chunks length]; [reflexivity|].
  rewrite IH. reflexivity.
Qed.

Lemma full_chunks_payload (n : nat) (s : list Z) :
  (7 * n <= length s)%nat ->
  concat (map payload (full_chunks n s)) = take (7 * n) s.
Proof.
  revert s. induction n as [|n IH]; intros s Hs; cbn [full_chunks map concat].
  - reflexivity.
  - rewrite IH by (rewrite length_drop; lia).
    unfold payload, len_nibble. cbn [nth drop].
    change (Z.to_nat (0x97 mod 16)) with 7%nat.
    rewrite ?drop_0, take_take, Nat.min_id.
    replace (7 * S n)%nat with (7 + 7 * n)%nat by lia.
    rewrite <- take_take_drop. reflexivity.
Qed.

Lemma full_chunks_shape (n : nat) (s : list Z) :
  (7 * n <= length s)%nat ->
  Forall (fun p => length p = 8%nat /\ cmd_nibble p = 9 /\ len_nibble p = 7)
         (full_chunks n s).
Proof.
  revert s. induction n as [|n IH]; intros s Hs; cbn [full_chunks].
  - constructor.
  - constructor.
    + split; [|split; reflexivity]. cbn [length]. rewrite length_take. lia.
    + apply IH. rewrite length_drop. lia.
Qed.

Lemma tail_chunk_payload (r : nat) (s : list Z) :
  (r < 7)%nat -> (r <= length s)%nat ->
  concat (map payload (tail_chunk r s)) = take r s.
Proof.
  intros Hr Hs. unfold tail_chunk.
  destruct (Nat.eqb_spec r 0) as [->|E]; [reflexivity|].
  cbn [map concat]. rewrite app_nil_r.
  unfold payload, len_nibble. cbn [nth drop].
  replace (Z.to_nat ((0x90 + Z.of_nat r) mod 16)) with r.
  - rewrite ?drop_0, take_app_le by (rewrite length_take; lia).
    rewrite take_take, Nat.min_id. reflexivity.
  - replace (0x90 + Z.of_nat r) with (Z.of_nat r + 9 * 16) by lia.
    rewrite Z.mod_add by lia. rewrite Z.mod_small by lia. lia.
Qed.

Lemma tail_chunk_shape (r : nat) (s : list Z) :
  (r < 7)%nat -> (r <= length s)%nat ->
  Forall (fun p => length p = 8%nat /\ cmd_nibble p = 9 /\ len_nibble p = Z.of_nat r)
         (tail_chunk r s).
Proof.
  intros Hr Hs. unfold tail_chunk.
  destruct (Nat.eqb_spec r 0) as [->|E]; constructor; [|constructor].
  split; [|split].
  - cbn [length]. rewrite length_app, length_take, length_replicate. lia.
  - unfold cmd_nibble. cbn [nth].
    replace (0x90 + Z.of_nat r) with (Z.of_nat r + 9 * 16) by lia.
    rewrite Z.div_add by lia. rewrite Z.div_small by lia. reflexivity.
  - unfold len_nibble. cbn [nth].
    replace (0x90 + Z.of_nat r) with (Z.of_nat r + 9 * 16) by lia.
    rewrite Z.mod_add by lia. apply Z.mod_small. lia.
Qed.

Lemma sent_by_vfd_set_text (len : nat) (k : kernel) :
  length (packet (vfd k)) = SHUTTLE_VFD_PACKET_SIZE ->
  (len <= length (screen (vfd k)))%nat ->
  sent_by (vfd_set_text len) k =
  full_chunks (len / 7) (screen (vfd k)) ++
  tail_chunk (len mod 7) (drop (7 * (len / 7)) (screen (vfd k))).
Proof.
  intros Hp Hs. apply sent_by_app. unfold exec.
  rewrite vfd_set_text_run_any by assumption. cbn [snd].
  apply usb_sent_foldl_submit.
Qed.

(** X1.  [vfd_set_text(vfd, len)], for any [len] within the screen,
    sends [len / 7] packets, and one more when 7 does not divide [len]
    (none at all for [len = 0]); each is 8 bytes long, has command
    nibble 9 and a length nibble between 1 and 7. *)
Theorem vfd_set_text_packet_count (len : nat) (k : kernel) :
  length (packet (vfd k)) = SHUTTLE_VFD_PACKET_SIZE ->
  (len <= length (screen (vfd k)))%nat ->
  length (sent_by (vfd_set_text len) k)
  = (len / 7 + (if (len mod 7 =? 0)%nat then 0 else 1))%nat /\
  Forall (fun p => length p = 8%nat /\ cmd_nibble p = 9 /\ 1 <= len_nibble p <= 7)
         (sent_by (vfd_set_text len) k).
Proof.
  intros Hp Hs. rewrite sent_by_vfd_set_text by assumption.
  pose proof (Nat.div_mod_eq len 7) as Hdm.
  pose proof (Nat.mod_upper_bound len 7 ltac:(lia)) as Hr.
  split.
  - rewrite length_app, full_chunks_length. unfold tail_chunk.
    destruct (len mod 7 =? 0)%nat; reflexivity.
  - apply Forall_app. split.
    + eapply Forall_impl; [apply full_chunks_shape; lia|].
      intros p (H1 & H2 & H3). rewrite H3. repeat split; try assumption; lia.
    + assert (Hn : (len mod 7 =? 0)%nat = true \/ (len mod 7 <> 0)%nat).
      { destruct (Nat.eqb_spec (len mod 7) 0); [left; reflexivity | right; assumption]. }
      destruct Hn as [Hz|Hnz].
      * unfold tail_chunk. rewrite Hz. constructor.
      * eapply Forall_impl;
          [apply tail_chunk_shape; [lia | rewrite length_drop; lia]|].
        intros p (H1 & H2 & H3). rewrite H3. repeat split; try assumption; lia.
Qed.

Lemma vfd_set_text_packet_count_witness :
  length (packet (vfd (boot []))) = SHUTTLE_VFD_PACKET_SIZE /\
  (13 <= length (screen (vfd (boot []))))%nat /\
  length (sent_by (vfd_set_text 13) (boot [])) = 2%nat.
Proof.
  assert (H1 : length (packet (vfd (boot []))) = SHUTTLE_VFD_PACKET_SIZE) by reflexivity.
  assert (H2 : (13 <= length (screen (vfd (boot []))))%nat) by (cbn; lia).
  destruct (vfd_set_text_packet_count 13 (boot []) H1 H2) as [Hn _].
  split; [exact H1|]. split; [exact H2 | exact Hn].
Defined.

(** X2.  The text packets carry the screen and nothing else: the data
    bytes of the packets [vfd_set_text(vfd, len)] sends, each packet cut
    to its length nibble, put end to end are the first [len] bytes of the
    screen buffer. *)
Theorem vfd_set_text_payload (len : nat) (k : kernel) :
  length (packet (vfd k)) = SHUTTLE_VFD_PACKET_SIZE ->
  (len <= length (screen (vfd k)))%nat ->
  concat (map payload (sent_by (vfd_set_text len) k)) = take len (screen (vfd k)).
Proof.
  intros Hp Hs. rewrite sent_by_vfd_set_text by assumption.
  pose proof (Nat.div_mod_eq len 7) as Hdm.
  pose proof (Nat.mod_upper_bound len 7 ltac:(lia)) as Hr.
  rewrite map_app, concat_app.
  rewrite full_chunks_payload by lia.
  rewrite tail_chunk_payload by (try rewrite length_drop; lia).
  rewrite take_take_drop. f_equal. lia.
Qed.

Lemma vfd_set_text_payload_witness :
  length (packet (vfd (with_screen (bytes_of "Shuttle XPC SG33G5M!") (boot []))))
  = SHUTTLE_VFD_PACKET_SIZE /\
  (20 <= length (screen (vfd (with_screen (bytes_of "Shuttle XPC SG33G5M!") (boot [])))))%nat /\
  concat (map payload (sent_by (vfd_set_text 20)
                         (with_screen (bytes_of "Shuttle XPC SG33G5M!") (boot []))))
  = bytes_of "Shuttle XPC SG33G5M!".
Proof.
  set (k := with_screen (bytes_of "Shuttle XPC SG33G5M!") (boot [])).
  assert (H1 : length (packet (vfd k)) = SHUTTLE_VFD_PACKET_SIZE) by reflexivity.
  assert (H2 : (20 <= length (screen (vfd k)))%nat) by (cbn; lia).
  pose proof (vfd_set_text_payload 20 k H1 H2) as H.
  split; [exact H1|]. split; [exact H2|]. rewrite H. reflexivity.
Defined.

(** ** The icons packet read back *)

(** X3.  The icons packet keeps the low 20 bits of the mask and
    nothing else: read back group by group, the packet [vfd_set_icons]
    sends for the mask [m] gives [m mod 2^20].  A mask below [2^20], and
    so every mask of icon bits and a volume level up to 31, is recovered
    exactly; bits 20 and up never reach the display. *)
Theorem icons_packet_round_trip (m : Z) (k : kernel) :
  exists p : list Z,
    sent_by vfd_set_icons (with_icons_mask m k) = [p] /\
    decode_icons p = m mod 2 ^ 20.
Proof.
  exists (icons_packet m). split; [apply sent_by_vfd_set_icons|].
  unfold decode_icons, icons_packet, data_byte. cbn [nth].
  change 0x1F with (Z.ones 5). rewrite !Z.land_ones by lia.
  rewrite !Z.shiftr_div_pow2 by lia.
  change (2 ^ 15) with (32 * (32 * 32)). change (2 ^ 10) with (32 * 32).
  change (2 ^ 5) with 32. change (2 ^ 20) with (32 * (32 * (32 * 32))).
  rewrite <- !Z.div_div by lia.
  set (q1 := m / 32). set (q2 := q1 / 32). set (q3 := q2 / 32).
  rewrite (Z.mod_eq m (32 * (32 * (32 * 32)))) by lia.
  rewrite <- !Z.div_div by lia. fold q1 q2 q3.
  pose proof (Z.div_mod m 32 ltac:(lia)) as E1. fold q1 in E1.
  pose proof (Z.div_mod q1 32 ltac:(lia)) as E2. fold q2 in E2.
  pose proof (Z.div_mod q2 32 ltac:(lia)) as E3. fold q3 in E3.
  pose proof (Z.div_mod q3 32 ltac:(lia)) as E4.
  lia.
Qed.

(** ** Brightness callbacks: how they compose *)

Lemma vfd_generic_set (led : vfd_led) (value : Z) (k : kernel) :
  vfd (exec (vfd_led_generic_set led value) k) =
  mk_vfd false (generic_mask led value (icons_mask (vfd k)))
         (icons_packet (generic_mask led value (icons_mask (vfd k))))
         (screen (vfd k)).
Proof. unfold exec. rewrite vfd_led_generic_set_run. reflexivity. Qed.

Lemma vfd_volume_set (led : vfd_led) (value : Z) (k : kernel) :
  vfd (exec (vfd_led_volume_set led value) k) =
  mk_vfd false (volume_mask value (icons_mask (vfd k)))
         (icons_packet (volume_mask value (icons_mask (vfd k))))
         (screen (vfd k)).
Proof. unfold exec. rewrite vfd_led_volume_set_run. reflexivity. Qed.

Lemma sent_by_generic_set (led : vfd_led) (value : Z) (k : kernel) :
  sent_by (vfd_led_generic_set led value) k =
  [icons_packet (generic_mask led value (icons_mask (vfd k)))].
Proof.
  apply sent_by_app. unfold exec. rewrite vfd_led_generic_set_run. reflexivity.
Qed.

Lemma sent_by_volume_set (led : vfd_led) (value : Z) (k : kernel) :
  sent_by (vfd_led_volume_set led value) k =
  [icons_packet (volume_mask value (icons_mask (vfd k)))].
Proof.
  apply sent_by_app. unfold exec. rewrite vfd_led_volume_set_run. reflexivity.
Qed.

Lemma testbit_ICON_VOL (value j : Z) :
  0 <= j ->
  Z.testbit (SHUTTLE_VFD_ICON_VOL value) j
  = Z.testbit value (j - 15) && (j <? 32).
Proof.
  intros Hj. unfold SHUTTLE_VFD_ICON_VOL.
  rewrite Z.land_spec, Z.shiftl_spec, testbit_UINT_MAX by lia. reflexivity.
Qed.

(** Equality of masks, bit by bit. *)
Ltac mask_bits :=
  apply Z.bits_inj'; intros j Hj;
  unfold generic_mask, volume_mask, ulong_not;
  repeat match goal with
         | |- context [negb (?v =? LED_OFF)] => destruct (negb (v =? LED_OFF))
         end;
  rewrite ?Z.lor_spec, ?Z.land_spec, ?Z.lnot_spec, ?Z.lor_spec, ?Z.land_spec;
  rewrite ?testbit_icon_mask, ?testbit_ULONG_MAX, ?testbit_BASE_MASK,
    ?testbit_ICON_VOL by lia;
  repeat match goal with
         | |- context [Z.testbit ?v (j - 15)] =>
             destruct (Z.lt_ge_cases j 15);
             [rewrite (Z.testbit_neg_r v (j - 15)) by lia
             |destruct (Z.testbit v (j - 15))]
         end;
  repeat match goal with
         | |- context [?a =? ?b] => destruct (Z.eqb_spec a b)
         | |- context [?a <? ?b] => destruct (Z.ltb_spec a b)
         end;
  try lia;
  repeat match goal with
         | |- context [Z.testbit ?m j] => destruct (Z.testbit m j)
         end;
  try reflexivity; try lia.

Lemma generic_mask_idem (led : vfd_led) (value m : Z) :
  generic_mask led value (generic_mask led value m) = generic_mask led value m.
Proof.
  unfold generic_mask. destruct (negb (value =? LED_OFF)).
  - rewrite <- Z.lor_assoc, Z.lor_diag. reflexivity.
  - rewrite <- Z.land_assoc, Z.land_diag. reflexivity.
Qed.

Lemma volume_mask_override (v1 v2 m : Z) :
  volume_mask v2 (volume_mask v1 m) = volume_mask v2 m.
Proof. mask_bits. Qed.

Lemma generic_mask_comm (p1 p2 : nat) (v1 v2 m : Z) :
  (p1 < NUM_LEDS)%nat -> (p2 < NUM_LEDS)%nat -> p1 <> p2 ->
  generic_mask (icon_led p1) v1 (generic_mask (icon_led p2) v2 m)
  = generic_mask (icon_led p2) v2 (generic_mask (icon_led p1) v1 m).
Proof. unfold NUM_LEDS. intros H1 H2 Hne. mask_bits. Qed.

Lemma generic_volume_mask_comm (pos : nat) (v1 v2 m : Z) :
  (pos < NUM_LEDS)%nat ->
  generic_mask (icon_led pos) v1 (volume_mask v2 m)
  = volume_mask v2 (generic_mask (icon_led pos) v1 m).
Proof. unfold NUM_LEDS. intros Hpos. mask_bits. Qed.

(** X4.  Setting the same LED again.  A binary icon callback run twice
    with the same value leaves the device structure it left the first
    time and sends the same packet a second time: on/off never
    toggles.  For the volume the last level wins: a second level
    replaces the first one without a trace, in the structure and in the
    packet. *)
Theorem brightness_set_again (led : vfd_led) (value v1 : Z) (k : kernel) :
  vfd (exec (vfd_led_generic_set led value) (exec (vfd_led_generic_set led value) k))
  = vfd (exec (vfd_led_generic_set led value) k) /\
  sent_by (vfd_led_generic_set led value) (exec (vfd_led_generic_set led value) k)
  = sent_by (vfd_led_generic_set led value) k /\
  vfd (exec (vfd_led_volume_set led value) (exec (vfd_led_volume_set led v1) k))
  = vfd (exec (vfd_led_volume_set led value) k) /\
  sent_by (vfd_led_volume_set led value) (exec (vfd_led_volume_set led v1) k)
  = sent_by (vfd_led_volume_set led value) k.
Proof.
  rewrite !sent_by_generic_set, !sent_by_volume_set.
  repeat first [rewrite vfd_generic_set | rewrite vfd_volume_set].
  cbn [icons_mask screen].
  rewrite generic_mask_idem, volume_mask_override. repeat split; reflexivity.
Qed.

(** X5.  Callbacks of different LEDs commute.  For two different
    icons, and for an icon and the volume, the device structure after
    both callbacks (mask, packet buffer, screen) does not depend on the
    order in which they ran, and neither does the last packet sent. *)
Theorem brightness_set_commute (p1 p2 : nat) (v1 v2 v3 : Z) (k : kernel) :
  (p1 < NUM_LEDS)%nat -> (p2 < NUM_LEDS)%nat -> p1 <> p2 ->
  vfd (exec (vfd_led_generic_set (icon_led p1) v1)
         (exec (vfd_led_generic_set (icon_led p2) v2) k))
  = vfd (exec (vfd_led_generic_set (icon_led p2) v2)
           (exec (vfd_led_generic_set (icon_led p1) v1) k)) /\
  sent_by (vfd_led_generic_set (icon_led p1) v1)
    (exec (vfd_led_generic_set (icon_led p2) v2) k)
  = sent_by (vfd_led_generic_set (icon_led p2) v2)
      (exec (vfd_led_generic_set (icon_led p1) v1) k) /\
  vfd (exec (vfd_led_generic_set (icon_led p1) v1)
         (exec (vfd_led_volume_set volume_led v3) k))
  = vfd (exec (vfd_led_volume_set volume_led v3)
           (exec (vfd_led_generic_set (icon_led p1) v1) k)) /\
  sent_by (vfd_led_generic_set (icon_led p1) v1)
    (exec (vfd_led_volume_set volume_led v3) k)
  = sent_by (vfd_led_volume_set volume_led v3)
      (exec (vfd_led_generic_set (icon_led p1) v1) k).
Proof.
  intros H1 H2 Hne.
  rewrite !sent_by_generic_set, !sent_by_volume_set.
  repeat first [rewrite vfd_generic_set | rewrite vfd_volume_set].
  cbn [icons_mask screen].
  rewrite (generic_mask_comm p1 p2) by assumption.
  rewrite (generic_volume_mask_comm p1) by assumption.
  repeat split; reflexivity.
Qed.

Lemma brightness_set_commute_witness :
  (0 < NUM_LEDS)%nat /\ (10 < NUM_LEDS)%nat /\ 0%nat <> 10%nat /\
  icons_mask (vfd (exec (vfd_led_generic_set (icon_led 0) 1)
                     (exec (vfd_led_generic_set (icon_led 10) 0)
                        (with_icons_mask 0x7FF (boot [])))))
  = icons_mask (vfd (exec (vfd_led_generic_set (icon_led 10) 0)
                       (exec (vfd_led_generic_set (icon_led 0) 1)
                          (with_icons_mask 0x7FF (boot []))))).
Proof.
  assert (H1 : (0 < NUM_LEDS)%nat) by (unfold NUM_LEDS; lia).
  assert (H2 : (10 < NUM_LEDS)%nat) by (unfold NUM_LEDS; lia).
  assert (H3 : 0%nat <> 10%nat) by lia.
  destruct (brightness_set_commute 0 10 1 0 5 (with_icons_mask 0x7FF (boot [])) H1 H2 H3)
    as (Hv & _).
  split; [exact H1|]. split; [exact H2|]. split; [exact H3|].
  rewrite Hv. reflexivity.
Defined.

(** ** Text and icons keep apart *)

Lemma cmd_nibble_icons_packet (m : Z) : cmd_nibble (icons_packet m) = 7.
Proof. reflexivity. Qed.

Lemma sent_by_set_vfd_text_handler (buf : list Z) (count : nat) (k : kernel) :
  (count <= length buf)%nat ->
  length (screen (vfd k)) = SHUTTLE_VFD_WIDTH ->
  sent_by (set_vfd_text_handler buf count) k
  = [0x11; 2; 0; 0; 0; 0; 0; 0] :: text_packets (padded_text buf count).
Proof.
  intros Hb Hs. apply sent_by_app. unfold exec.
  rewrite set_vfd_text_handler_run by assumption. cbn [snd].
  rewrite usb_sent_foldl_submit. reflexivity.
Qed.

(** X6.  A brightness callback sends one packet, an icons packet
    (command nibble 7), and leaves the screen text alone; a text write
    leaves the icon mask alone and sends no icons packet; a text read
    that stays inside its buffer changes nothing and sends nothing
    (nothing is said of a read that leaves the buffer). *)
Theorem icons_and_text_keep_apart
    (led : vfd_led) (value : Z) (buf page : list Z) (count : nat) (k : kernel) :
  (count <= length buf)%nat ->
  length (screen (vfd k)) = SHUTTLE_VFD_WIDTH ->
  (screen (vfd (exec (vfd_led_generic_set led value) k)) = screen (vfd k) /\
   screen (vfd (exec (vfd_led_volume_set led value) k)) = screen (vfd k) /\
   map cmd_nibble (sent_by (vfd_led_generic_set led value) k) = [7] /\
   map cmd_nibble (sent_by (vfd_led_volume_set led value) k) = [7]) /\
  (icons_mask (vfd (exec (set_vfd_text_handler buf count) k)) = icons_mask (vfd k) /\
   Forall (fun p => cmd_nibble p <> 7) (sent_by (set_vfd_text_handler buf count) k)) /\
  (forall r : Z * list Z,
     eval (get_vfd_text_handler page) k = Ok r ->
     exec (get_vfd_text_handler page) k = k /\
     sent_by (get_vfd_text_handler page) k = []).
Proof.
  intros Hb Hs. split; [|split].
  - rewrite !sent_by_generic_set, !sent_by_volume_set.
    rewrite !vfd_generic_set, !vfd_volume_set. repeat split; reflexivity.
  - split.
    + unfold exec. rewrite set_vfd_text_handler_run by assumption. cbn [snd].
      rewrite icons_mask_foldl_submit. reflexivity.
    + rewrite sent_by_set_vfd_text_handler by assumption.
      unfold text_packets, cmd_nibble. cbn [nth].
      repeat constructor; discriminate.
  - intros r _.
    assert (E : exec (get_vfd_text_handler page) k = k).
    { unfold exec, get_vfd_text_handler, bind, get_vfd.
      destruct (trim_loop _ _); reflexivity. }
    split; [exact E|]. unfold sent_by. rewrite E. apply drop_all.
Qed.

Lemma icons_and_text_keep_apart_witness :
  (3 <= length (bytes_of "abc"))%nat /\
  length (screen (vfd (with_icons_mask 0x1234
       (with_screen (bytes_of "Shuttle XPC SG33G5M!") (boot []))))) = SHUTTLE_VFD_WIDTH /\
  icons_mask (vfd (exec (set_vfd_text_handler (bytes_of "abc") 3) (with_icons_mask 0x1234
       (with_screen (bytes_of "Shuttle XPC SG33G5M!") (boot []))))) = 0x1234 /\
  (exists r : Z * list Z, eval (get_vfd_text_handler sysfs_page) (with_icons_mask 0x1234
       (with_screen (bytes_of "Shuttle XPC SG33G5M!") (boot []))) = Ok r) /\
  exec (get_vfd_text_handler sysfs_page) (with_icons_mask 0x1234
       (with_screen (bytes_of "Shuttle XPC SG33G5M!") (boot []))) = (with_icons_mask 0x1234
       (with_screen (bytes_of "Shuttle XPC SG33G5M!") (boot []))).
Proof.
  set (k := with_icons_mask 0x1234
              (with_screen (bytes_of "Shuttle XPC SG33G5M!") (boot []))).
  assert (H1 : (3 <= length (bytes_of "abc"))%nat) by (cbn; lia).
  assert (H2 : length (screen (vfd k)) = SHUTTLE_VFD_WIDTH) by reflexivity.
  destruct (icons_and_text_keep_apart (icon_led 0) 1 (bytes_of "abc") sysfs_page 3
              k H1 H2) as (_ & (Hm & _) & Hread).
  split; [exact H1|]. split; [exact H2|]. split; [exact Hm|].
  destruct (eval (get_vfd_text_handler sysfs_page) k) as [r|i] eqn:E.
  - split; [exists r; reflexivity|]. exact (proj1 (Hread r eq_refl)).
  - exfalso.
    assert (E' : match eval (get_vfd_text_handler sysfs_page) k with
                 | Ok _ => true
                 | OutOfBounds _ => false
                 end = true) by (vm_compute; reflexivity).
    rewrite E in E'. discriminate E'.
Defined.

(** ** Text written and read back *)

Lemma drop_pads_zeros (n : nat) (l : list Z) :
  drop_pads (replicate n 0 ++ l) = drop_pads l.
Proof. induction n as [|n IH]; [reflexivity | exact IH]. Qed.

Lemma trim_trailing_zeros (l : list Z) (n : nat) :
  trim_trailing (l ++ replicate n 0) = trim_trailing l.
Proof.
  unfold trim_trailing. rewrite reverse_app, reverse_replicate, drop_pads_zeros.
  reflexivity.
Qed.

Lemma trim_trailing_padded_text (buf : list Z) (count : nat) :
  (count <= length buf)%nat ->
  trim_trailing (padded_text buf count)
  = trim_trailing (take (Nat.min count SHUTTLE_VFD_WIDTH) buf).
Proof.
  intros Hb. destruct (Nat.lt_ge_cases count SHUTTLE_VFD_WIDTH) as [Hlt|Hge].
  - rewrite padded_text_short by assumption.
    rewrite trim_trailing_zeros, Nat.min_l by lia. reflexivity.
  - rewrite padded_text_long by assumption. rewrite Nat.min_r by lia. reflexivity.
Qed.

(** X7.  Write, then read.  A read after a text write returns the
    written text (its first 20 bytes at most) without its trailing NUL
    and newline bytes, and one newline.  So a text that ends in a byte
    other than NUL and newline comes back whole with a newline after
    it, and a text with one newline at its end, as [echo] writes it,
    comes back as it was written.  A text with no byte other than NUL
    and newline (the empty write among them) leaves a screen on which
    the read runs off the front of the buffer. *)
Theorem read_after_write (buf page : list Z) (count : nat) (k : kernel) :
  (count <= length buf)%nat ->
  length (screen (vfd k)) = SHUTTLE_VFD_WIDTH ->
  (SHUTTLE_VFD_WIDTH < length page)%nat ->
  let text := take (Nat.min count SHUTTLE_VFD_WIDTH) buf in
  let got := text_read (eval (get_vfd_text_handler page)
                          (exec (set_vfd_text_handler buf count) k)) in
  got = match trim_trailing text with
        | [] => OutOfBounds (-1)
        | t => Ok (t ++ [10])
        end /\
  (forall (t : list Z) (c : Z),
     text = t ++ [c] -> is_pad c = false -> got = Ok (text ++ [10])) /\
  (forall (t : list Z) (c : Z),
     text = t ++ [c; 10] -> is_pad c = false -> got = Ok text) /\
  (Forall (fun c => is_pad c = true) text -> got = OutOfBounds (-1)).
Proof.
  intros Hb Hs Hp text got.
  assert (E : got = match trim_trailing text with
                    | [] => OutOfBounds (-1)
                    | t => Ok (t ++ [10])
                    end).
  { unfold got. rewrite get_vfd_text_handler_run.
    - rewrite set_vfd_text_handler_screen_eq by assumption.
      rewrite trim_trailing_padded_text by assumption. reflexivity.
    - rewrite set_vfd_text_handler_screen_eq by assumption.
      apply padded_text_length.
    - exact Hp. }
  split; [exact E|]. split; [|split].
  - intros t c Ht Hc. rewrite E, Ht, trim_trailing_snoc, Hc.
    destruct (t ++ [c]) as [|x l] eqn:El; [|reflexivity].
    destruct t; discriminate El.
  - intros t c Ht Hc. rewrite E, Ht.
    change (t ++ [c; 10]) with (t ++ [c] ++ [10]). rewrite app_assoc.
    rewrite trim_trailing_snoc. change (is_pad 10) with true. cbv iota.
    rewrite trim_trailing_snoc, Hc.
    destruct (t ++ [c]) as [|x l] eqn:El; [|reflexivity].
    destruct t; discriminate El.
  - intros Hall. rewrite E.
    assert (Et : trim_trailing text = []).
    { clear E got. induction text as [|c l IH] using rev_ind; [reflexivity|].
      apply Forall_app in Hall as [Hl Hc].
      apply (proj1 (Forall_singleton _ c)) in Hc. cbv beta in Hc.
      rewrite trim_trailing_snoc, Hc. apply IH. exact Hl. }
    rewrite Et. reflexivity.
Qed.

Lemma read_after_write_witness :
  (6 <= length (bytes_of "hello" ++ [10%Z]))%nat /\
  length (screen (vfd (boot []))) = SHUTTLE_VFD_WIDTH /\
  (SHUTTLE_VFD_WIDTH < length sysfs_page)%nat /\
  text_read (eval (get_vfd_text_handler sysfs_page)
               (exec (set_vfd_text_handler (bytes_of "hello" ++ [10]) 6) (boot [])))
  = Ok (bytes_of "hello" ++ [10]).
Proof.
  assert (H1 : (6 <= length (bytes_of "hello" ++ [10%Z]))%nat) by (cbn; lia).
  assert (H2 : length (screen (vfd (boot []))) = SHUTTLE_VFD_WIDTH) by reflexivity.
  assert (H3 : (SHUTTLE_VFD_WIDTH < length sysfs_page)%nat)
    by (unfold sysfs_page, PAGE_SIZE, SHUTTLE_VFD_WIDTH; rewrite length_replicate; lia).
  destruct (read_after_write (bytes_of "hello" ++ [10]) sysfs_page 6 (boot []) H1 H2 H3)
    as (_ & _ & Hecho & _).
  split; [exact H1|]. split; [exact H2|]. split; [exact H3|].
  apply (Hecho (bytes_of "hell") 111); reflexivity.
Defined.

Lemma trim_loop_bounds (buf : list Z) (sz : nat) :
  (sz <= length buf)%nat ->
  match trim_loop buf sz with
  | Ok n => (1 <= n <= sz)%nat
  | OutOfBounds i => i = -1
  end.
Proof.
  intros Hsz. rewrite trim_loop_spec by assumption.
  pose proof (trim_trailing_length (take sz buf)) as Hl.
  rewrite length_take in Hl.
  destruct (trim_trailing (take sz buf)) as [|x t]; [reflexivity|].
  cbn [length] in *. lia.
Qed.

(** X8.  What a read can return and touch.  When the read handler
    returns, its count is between 2 and 21, the page keeps its size,
    everything in the page from index 21 on is as the caller passed it,
    and the returned bytes end in a newline.  When it does not return,
    the access that left the buffer is the one at index -1: the handler
    never reads or writes behind index 20. *)
Theorem get_vfd_text_handler_bounds (page : list Z) (k : kernel) :
  length (screen (vfd k)) = SHUTTLE_VFD_WIDTH ->
  (SHUTTLE_VFD_WIDTH < length page)%nat ->
  match eval (get_vfd_text_handler page) k with
  | Ok (n, page') =>
      2 <= n <= 21 /\
      length page' = length page /\
      drop 21 page' = drop 21 page /\
      page' !! Z.to_nat (n - 1) = Some 10
  | OutOfBounds i => i = -1
  end.
Proof.
  unfold SHUTTLE_VFD_WIDTH. intros Hs Hp.
  unfold eval, get_vfd_text_handler, bind, get_vfd, SHUTTLE_VFD_WIDTH.
  set (buf := memcpy page 0 (screen (vfd k)) 20).
  assert (Hbuf : buf = screen (vfd k) ++ drop 20 page).
  { unfold buf, memcpy. change (take 0 page) with (@nil Z).
    rewrite app_nil_l, Nat.add_0_l, (take_ge (screen (vfd k))) by lia. reflexivity. }
  assert (Hlen : length buf = length page).
  { rewrite Hbuf, length_app, length_drop. lia. }
  pose proof (trim_loop_bounds buf 20 ltac:(lia)) as Hb.
  destruct (trim_loop buf 20) as [n|i]; cbn [ret fst]; [|exact Hb].
  split; [lia|]. split; [rewrite length_insert; exact Hlen|]. split.
  - rewrite drop_insert_lt by lia. rewrite Hbuf.
    rewrite drop_app_ge by lia. rewrite Hs, drop_drop. f_equal.
  - replace (Z.to_nat (Z.of_nat n + 1 - 1)) with n by lia.
    apply list_lookup_insert_eq. lia.
Qed.

Lemma get_vfd_text_handler_bounds_witness :
  length (screen (vfd (with_screen (bytes_of "Shuttle XPC SG33G5M!") (boot []))))
  = SHUTTLE_VFD_WIDTH /\
  (SHUTTLE_VFD_WIDTH < length sysfs_page)%nat /\
  exists page' : list Z,
    eval (get_vfd_text_handler sysfs_page)
         (with_screen (bytes_of "Shuttle XPC SG33G5M!") (boot [])) = Ok (21, page') /\
    drop 21 page' = drop 21 sysfs_page.
Proof.
  set (k := with_screen (bytes_of "Shuttle XPC SG33G5M!") (boot [])).
  assert (H1 : length (screen (vfd k)) = SHUTTLE_VFD_WIDTH) by reflexivity.
  assert (H2 : (SHUTTLE_VFD_WIDTH < length sysfs_page)%nat)
    by (unfold sysfs_page, PAGE_SIZE, SHUTTLE_VFD_WIDTH; rewrite length_replicate; lia).
  pose proof (get_vfd_text_handler_bounds sysfs_page k H1 H2) as H.
  split; [exact H1|]. split; [exact H2|].
  destruct (eval (get_vfd_text_handler sysfs_page) k) as [[n page']|i] eqn:E.
  - destruct H as (_ & _ & Hd & _).
    assert (En : n = 21).
    { assert (E' : fst (match eval (get_vfd_text_handler sysfs_page) k with
                        | Ok (n0, _) => (n0, 0)
                        | OutOfBounds _ => (0, 0)
                        end) = 21) by (vm_compute; reflexivity).
      rewrite E in E'. exact E'. }
    exists page'. subst n. split; [reflexivity | exact Hd].
  - exfalso.
    assert (E' : match eval (get_vfd_text_handler sysfs_page) k with
                 | Ok _ => true
                 | OutOfBounds _ => false
                 end = true) by (vm_compute; reflexivity).
    rewrite E in E'. discriminate E'.
Defined.

(** ** Pacing *)

Lemma uptime_foldl_submit (ps : list (list Z)) (k : kernel) :
  uptime_ms (foldl (fun k p => submit p k) k ps)
  = uptime_ms k + SHUTTLE_VFD_SLEEP_MS * Z.of_nat (length ps).
Proof.
  revert k. induction ps as [|p ps IH]; intros k; cbn [foldl length].
  - lia.
  - rewrite IH. cbn [submit after_send uptime_ms]. lia.
Qed.

Lemma exec_generic_set_submit (led : vfd_led) (value : Z) (k : kernel) :
  exec (vfd_led_generic_set led value) k =
  foldl (fun k p => submit p k)
        (with_icons_mask (generic_mask led value (icons_mask (vfd k))) k)
        [icons_packet (generic_mask led value (icons_mask (vfd k)))].
Proof. unfold exec. rewrite vfd_led_generic_set_run. reflexivity. Qed.

Lemma exec_volume_set_submit (led : vfd_led) (value : Z) (k : kernel) :
  exec (vfd_led_volume_set led value) k =
  foldl (fun k p => submit p k)
        (with_icons_mask (volume_mask value (icons_mask (vfd k))) k)
        [icons_packet (volume_mask value (icons_mask (vfd k)))].
Proof. unfold exec. rewrite vfd_led_volume_set_run. reflexivity. Qed.

(** X9.  Every packet costs its caller 24 ms, spent with the mutex
    held, whether the transfer succeeded or not: a text write returns
    after 96 ms of sleep, a brightness callback after 24 ms, and
    [vfd_set_text] after 24 ms for each packet it sent. *)
Theorem sleep_per_packet
    (buf : list Z) (count len : nat) (led : vfd_led) (value : Z) (k : kernel) :
  (count <= length buf)%nat ->
  length (screen (vfd k)) = SHUTTLE_VFD_WIDTH ->
  length (packet (vfd k)) = SHUTTLE_VFD_PACKET_SIZE ->
  (len <= SHUTTLE_VFD_WIDTH)%nat ->
  uptime_ms (exec (set_vfd_text_handler buf count) k) = uptime_ms k + 96 /\
  uptime_ms (exec (vfd_led_generic_set led value) k) = uptime_ms k + 24 /\
  uptime_ms (exec (vfd_led_volume_set led value) k) = uptime_ms k + 24 /\
  uptime_ms (exec (vfd_set_text len) k)
  = uptime_ms k + 24 * Z.of_nat (length (sent_by (vfd_set_text len) k)).
Proof.
  intros Hb Hs Hp Hl. split; [|split; [|split]].
  - unfold exec. rewrite set_vfd_text_handler_run by assumption. cbn [snd].
    rewrite uptime_foldl_submit. reflexivity.
  - rewrite exec_generic_set_submit, uptime_foldl_submit. reflexivity.
  - rewrite exec_volume_set_submit, uptime_foldl_submit. reflexivity.
  - rewrite sent_by_vfd_set_text by (try assumption; lia).
    unfold exec. rewrite vfd_set_text_run_any by (try assumption; lia). cbn [snd].
    rewrite uptime_foldl_submit. reflexivity.
Qed.

Lemma sleep_per_packet_witness :
  (3 <= length (bytes_of "abc"))%nat /\
  length (screen (vfd (boot [-5]))) = SHUTTLE_VFD_WIDTH /\
  length (packet (vfd (boot [-5]))) = SHUTTLE_VFD_PACKET_SIZE /\
  (15 <= SHUTTLE_VFD_WIDTH)%nat /\
  uptime_ms (exec (set_vfd_text_handler (bytes_of "abc") 3) (boot [-5])) = 96.
Proof.
  assert (H1 : (3 <= length (bytes_of "abc"))%nat) by (cbn; lia).
  assert (H2 : length (screen (vfd (boot [-5]))) = SHUTTLE_VFD_WIDTH) by reflexivity.
  assert (H3 : length (packet (vfd (boot [-5]))) = SHUTTLE_VFD_PACKET_SIZE) by reflexivity.
  assert (H4 : (15 <= SHUTTLE_VFD_WIDTH)%nat) by (unfold SHUTTLE_VFD_WIDTH; lia).
  destruct (sleep_per_packet (bytes_of "abc") 3 15 volume_led 4 (boot [-5]) H1 H2 H3 H4)
    as (Ht & _).
  split; [exact H1|]. split; [exact H2|]. split; [exact H3|]. split; [exact H4|].
  exact Ht.
Defined.

(** ** What every operation keeps *)

Lemma below_pow2_of_bits (x n : Z) :
  0 <= n -> 0 <= x ->
  (forall j : Z, n <= j -> Z.testbit x j = false) ->
  x < 2 ^ n.
Proof.
  intros Hn Hx Hbits.
  assert (E : x mod 2 ^ n = x).
  { apply Z.bits_inj'. intros j Hj. rewrite Z.testbit_mod_pow2 by lia.
    destruct (Z.ltb_spec j n); [reflexivity|].
    rewrite Hbits by lia. reflexivity. }
  rewrite <- E. apply Z.mod_pos_bound. lia.
Qed.

Lemma generic_mask_range (pos : nat) (value m : Z) :
  (pos < NUM_LEDS)%nat ->
  0 <= m <= ULONG_MAX ->
  0 <= generic_mask (icon_led pos) value m <= ULONG_MAX.
Proof.
  unfold NUM_LEDS, ULONG_MAX. intros Hpos Hm.
  assert (Hlo : 0 <= generic_mask (icon_led pos) value m).
  { unfold generic_mask. destruct (negb (value =? LED_OFF)).
    - apply Z.lor_nonneg. split; [lia|]. cbn [icon_led mask].
      apply Z.shiftl_nonneg. lia.
    - apply Z.land_nonneg. left. lia. }
  split; [exact Hlo|].
  enough (generic_mask (icon_led pos) value m < 2 ^ 64) by lia.
  apply below_pow2_of_bits; [lia | exact Hlo|].
  intros j Hj. unfold generic_mask, ulong_not.
  destruct (negb (value =? LED_OFF)).
  - rewrite Z.lor_spec, testbit_icon_mask, (testbit_small m 64) by lia.
    destruct (Z.eqb_spec j (Z.of_nat pos)); [lia | reflexivity].
  - rewrite Z.land_spec, (testbit_small m 64) by lia. reflexivity.
Qed.

Lemma volume_mask_range (value m : Z) :
  0 <= volume_mask value m <= ULONG_MAX.
Proof.
  assert (Hv : 0 <= SHUTTLE_VFD_ICON_VOL value).
  { unfold SHUTTLE_VFD_ICON_VOL. apply Z.land_nonneg. right. unfold UINT_MAX. lia. }
  assert (Hb : 0 <= Z.land m SHUTTLE_VFD_BASE_MASK).
  { apply Z.land_nonneg. right. unfold SHUTTLE_VFD_BASE_MASK. lia. }
  assert (Hlo : 0 <= volume_mask value m).
  { unfold volume_mask. destruct (negb (value =? LED_OFF)); [|exact Hb].
    apply Z.lor_nonneg. split; assumption. }
  split; [exact Hlo|]. unfold ULONG_MAX.
  enough (volume_mask value m < 2 ^ 64) by lia.
  apply below_pow2_of_bits; [lia | exact Hlo|].
  intros j Hj. unfold volume_mask.
  destruct (negb (value =? LED_OFF)).
  - rewrite Z.lor_spec, Z.land_spec, testbit_BASE_MASK, testbit_ICON_VOL by lia.
    destruct (Z.ltb_spec j 15); [lia|]. destruct (Z.ltb_spec j 32); [lia|].
    rewrite !andb_false_r. reflexivity.
  - rewrite Z.land_spec, testbit_BASE_MASK by lia.
    destruct (Z.ltb_spec j 15); [lia|]. apply andb_false_r.
Qed.

Lemma icons_packet_ok (m : Z) : packet_ok (icons_packet m).
Proof.
  split; [reflexivity|]. unfold icons_packet, is_byte.
  pose proof (land_1F_range (Z.shiftr m 15)).
  pose proof (land_1F_range (Z.shiftr m 10)).
  pose proof (land_1F_range (Z.shiftr m 5)).
  pose proof (land_1F_range m).
  repeat constructor; lia.
Qed.

Lemma text_packets_ok (s : list Z) :
  length s = SHUTTLE_VFD_WIDTH -> Forall is_byte s ->
  Forall packet_ok ([0x11; 2; 0; 0; 0; 0; 0; 0] :: text_packets s).
Proof.
  intros Hl Hs.
  do 21 (destruct s as [|? s]; try discriminate Hl).
  repeat match goal with
         | H : Forall _ (_ :: _) |- _ => apply Forall_cons in H as [? H]
         end.
  unfold text_packets, packet_ok, is_byte in *. cbn [take drop app].
  repeat constructor; try lia; assumption.
Qed.

Lemma padded_text_bytes (buf : list Z) (count : nat) :
  Forall is_byte buf -> Forall is_byte (padded_text buf count).
Proof.
  intros Hb. unfold padded_text. apply Forall_take, Forall_app. split.
  - apply Forall_take. exact Hb.
  - apply Forall_replicate. unfold is_byte. lia.
Qed.

Lemma vfd_foldl_submit_last (qs : list (list Z)) (p : list Z) (k : kernel) :
  vfd (foldl (fun k p => submit p k) k (qs ++ [p]))
  = mk_vfd false (icons_mask (vfd k)) p (screen (vfd k)).
Proof.
  rewrite foldl_submit_app. cbn [foldl].
  set (k1 := foldl (fun k p => submit p k) k qs).
  unfold submit, after_send, set_mutex, set_packet.
  cbn [vfd vfd_mutex icons_mask packet screen].
  unfold k1. rewrite icons_mask_foldl_submit, screen_foldl_submit. reflexivity.
Qed.

(** X10.  Every operation hands the transport packets of exactly eight
    byte values, and leaves the device structure as its type has it:
    the mutex free, the mask within [unsigned long], the packet buffer
    of 8 and the screen of 20 byte values.  Probe establishes this from
    any state; text write, the brightness callbacks and a text read
    that stays inside its buffer keep it (nothing is said of a read
    that leaves the buffer). *)
Theorem operations_keep_vfd_ok
    (buf page : list Z) (count pos : nat) (value : Z) (k k0 : kernel) :
  vfd_ok (vfd k) ->
  Forall is_byte buf ->
  (count <= length buf)%nat ->
  (pos < NUM_LEDS)%nat ->
  (vfd_ok (vfd (exec shuttle_vfd_probe k0)) /\
   Forall packet_ok (sent_by shuttle_vfd_probe k0)) /\
  (vfd_ok (vfd (exec (set_vfd_text_handler buf count) k)) /\
   Forall packet_ok (sent_by (set_vfd_text_handler buf count) k)) /\
  (vfd_ok (vfd (exec (vfd_led_generic_set (icon_led pos) value) k)) /\
   Forall packet_ok (sent_by (vfd_led_generic_set (icon_led pos) value) k)) /\
  (vfd_ok (vfd (exec (vfd_led_volume_set volume_led value) k)) /\
   Forall packet_ok (sent_by (vfd_led_volume_set volume_led value) k)) /\
  (forall r : Z * list Z,
     eval (get_vfd_text_handler page) k = Ok r ->
     vfd_ok (vfd (exec (get_vfd_text_handler page) k))).
Proof.
  intros (Hmx & Hmask & Hpk & Hsl & Hsb) Hbuf Hcount Hpos.
  split; [|split; [|split; [|split]]].
  - assert (E : exec shuttle_vfd_probe k0
                = submit [0x11; 1; 0; 0; 0; 0; 0; 0]
                    (mk_kernel kzalloc_vfd (usb_results k0) (usb_sent k0)
                               (dmesg k0) (uptime_ms k0))).
    { unfold exec, shuttle_vfd_probe. run. rewrite vfd_reset_cursor_run.
      reflexivity. }
    split.
    + rewrite E. unfold vfd_ok, packet_ok, is_byte, ULONG_MAX.
      cbn. repeat split; try lia; repeat constructor; lia.
    + unfold sent_by. rewrite E. cbn [submit after_send usb_sent vfd set_packet packet].
      rewrite drop_app_length. unfold packet_ok, is_byte.
      repeat constructor; lia.
  - assert (Hps : Forall packet_ok
                    ([0x11; 2; 0; 0; 0; 0; 0; 0] :: text_packets (padded_text buf count))).
    { apply text_packets_ok; [apply padded_text_length | apply padded_text_bytes, Hbuf]. }
    split.
    + unfold exec. rewrite set_vfd_text_handler_run by assumption. cbn [snd].
      unfold text_packets.
      change ([0x11; 2; 0; 0; 0; 0; 0; 0] :: [?a; ?b; ?c]) with
        ([[0x11; 2; 0; 0; 0; 0; 0; 0]; a; b] ++ [c]).
      rewrite vfd_foldl_submit_last. cbn [with_screen vfd set_screen icons_mask screen].
      unfold vfd_ok. cbn [vfd_mutex icons_mask packet screen].
      split; [reflexivity|]. split; [exact Hmask|]. split; [|split].
      * unfold text_packets in Hps.
        apply Forall_cons in Hps as [_ Hps]. apply Forall_cons in Hps as [_ Hps].
        apply Forall_cons in Hps as [_ Hps]. apply Forall_cons in Hps as [Hp _].
        exact Hp.
      * apply padded_text_length.
      * apply padded_text_bytes, Hbuf.
    + replace (sent_by (set_vfd_text_handler buf count) k)
        with ([0x11; 2; 0; 0; 0; 0; 0; 0] :: text_packets (padded_text buf count));
        [exact Hps|].
      symmetry. apply sent_by_app. unfold exec.
      rewrite set_vfd_text_handler_run by assumption. cbn [snd].
      rewrite usb_sent_foldl_submit. reflexivity.
  - rewrite sent_by_generic_set, vfd_generic_set. split.
    + unfold vfd_ok. cbn [vfd_mutex icons_mask packet screen].
      split; [reflexivity|]. split; [apply generic_mask_range; assumption|].
      split; [apply icons_packet_ok|]. split; assumption.
    + constructor; [apply icons_packet_ok | constructor].
  - rewrite sent_by_volume_set, vfd_volume_set. split.
    + unfold vfd_ok. cbn [vfd_mutex icons_mask packet screen].
      split; [reflexivity|]. split; [apply volume_mask_range|].
      split; [apply icons_packet_ok|]. split; assumption.
    + constructor; [apply icons_packet_ok | constructor].
  - intros r _. replace (exec (get_vfd_text_handler page) k) with k.
    + exact (conj Hmx (conj Hmask (conj Hpk (conj Hsl Hsb)))).
    + unfold exec, get_vfd_text_handler, bind, get_vfd.
      destruct (trim_loop _ _); reflexivity.
Qed.

Lemma operations_keep_vfd_ok_witness :
  vfd_ok (vfd (with_screen (bytes_of "Shuttle XPC SG33G5M!") (boot []))) /\
  Forall is_byte (bytes_of "test 123") /\
  (8 <= length (bytes_of "test 123"))%nat /\
  (14 < NUM_LEDS)%nat /\
  vfd_ok (vfd (exec (set_vfd_text_handler (bytes_of "test 123") 8) (with_screen (bytes_of "Shuttle XPC SG33G5M!") (boot [])))) /\
  (exists r : Z * list Z, eval (get_vfd_text_handler sysfs_page) (with_screen (bytes_of "Shuttle XPC SG33G5M!") (boot [])) = Ok r) /\
  vfd_ok (vfd (exec (get_vfd_text_handler sysfs_page) (with_screen (bytes_of "Shuttle XPC SG33G5M!") (boot [])))).
Proof.
  set (k := with_screen (bytes_of "Shuttle XPC SG33G5M!") (boot [])).
  assert (H1 : vfd_ok (vfd k)).
  { unfold vfd_ok, packet_ok, is_byte, ULONG_MAX. cbn.
    repeat split; try lia; repeat constructor; lia. }
  assert (H2 : Forall is_byte (bytes_of "test 123")).
  { unfold is_byte. cbn. repeat constructor; lia. }
  assert (H3 : (8 <= length (bytes_of "test 123"))%nat) by (cbn; lia).
  assert (H4 : (14 < NUM_LEDS)%nat) by (unfold NUM_LEDS; lia).
  destruct (operations_keep_vfd_ok (bytes_of "test 123") sysfs_page 8 14 1
              k (boot []) H1 H2 H3 H4) as (_ & (Hok & _) & _ & _ & Hread).
  split; [exact H1|]. split; [exact H2|]. split; [exact H3|]. split; [exact H4|].
  split; [exact Hok|].
  destruct (eval (get_vfd_text_handler sysfs_page) k) as [r|i] eqn:E.
  - split; [exists r; reflexivity|]. exact (Hread r eq_refl).
  - exfalso.
    assert (E' : match eval (get_vfd_text_handler sysfs_page) k with
                 | Ok _ => true
                 | OutOfBounds _ => false
                 end = true) by (vm_compute; reflexivity).
    rewrite E in E'. discriminate E'.
Defined.

(** ** Attach and detach *)

Lemma with_cdevs_snoc (cs : list Usb.led_classdev) (c : Usb.led_classdev)
    (m : gmap string Usb.led_classdev) :
  Usb.with_cdevs (cs ++ [c]) m = <[cdev_name c := c]> (Usb.with_cdevs cs m).
Proof. unfold Usb.with_cdevs. rewrite foldl_app. reflexivity. Qed.

Lemma lookup_with_cdevs_other (cs : list Usb.led_classdev)
    (m : gmap string Usb.led_classdev) (x : string) :
  x ∉ map cdev_name cs -> Usb.with_cdevs cs m !! x = m !! x.
Proof.
  induction cs as [|c cs IH] using rev_ind; intros Hx; [reflexivity|].
  rewrite map_app in Hx. cbn [map] in Hx.
  rewrite with_cdevs_snoc, lookup_insert_ne.
  - apply IH. intros Hin. apply Hx, elem_of_app. left. exact Hin.
  - intros E. apply Hx, elem_of_app. right. rewrite E. apply list_elem_of_here.
Qed.

Lemma lookup_with_cdevs_here (cs : list Usb.led_classdev)
    (m : gmap string Usb.led_classdev) (c : Usb.led_classdev) :
  NoDup (map cdev_name cs) -> c ∈ cs ->
  Usb.with_cdevs cs m !! cdev_name c = Some c.
Proof.
  induction cs as [|c0 cs IH] using rev_ind; intros Hnd Hin.
  - apply elem_of_nil in Hin. destruct Hin.
  - rewrite map_app in Hnd. cbn [map] in Hnd.
    apply NoDup_app in Hnd as (Hnd & Hdis & _).
    rewrite with_cdevs_snoc.
    apply elem_of_app in Hin as [Hin|Hin].
    + rewrite lookup_insert_ne; [apply IH; assumption|].
      intros E. apply (Hdis (cdev_name c)).
      * apply list_elem_of_fmap_2. exact Hin.
      * rewrite <- E. apply list_elem_of_here.
    + apply list_elem_of_singleton in Hin. subst c0. apply lookup_insert_eq.
Qed.

(** What the LED core's call of a callback with [LED_OFF] does. *)
Lemma exec_brightness_off (c : Usb.led_classdev) (k : kernel) :
  exec (Usb.brightness_set_call c LED_OFF) k
  = submit (icons_packet (off_mask c (icons_mask (vfd k))))
           (with_icons_mask (off_mask c (icons_mask (vfd k))) k).
Proof.
  unfold Usb.brightness_set_call, off_mask.
  destruct (Usb.brightness_set c).
  - rewrite exec_generic_set_submit. reflexivity.
  - rewrite exec_volume_set_submit. reflexivity.
Qed.

Lemma with_icons_mask_id (k : kernel) :
  with_icons_mask (icons_mask (vfd k)) k = k.
Proof. destruct k as [[mx m p s] rs sent log t]. reflexivity. Qed.

Lemma off_mask_0 (c : Usb.led_classdev) : off_mask c 0 = 0.
Proof.
  unfold off_mask, generic_mask, volume_mask.
  change (negb (LED_OFF =? LED_OFF)) with false. cbv iota.
  destruct (Usb.brightness_set c); apply Z.land_0_l.
Qed.

Lemma switched_off_snoc (cs : list Usb.led_classdev) (c : Usb.led_classdev)
    (k : kernel) :
  switched_off (cs ++ [c]) k
  = exec (Usb.brightness_set_call c LED_OFF) (switched_off cs k).
Proof. unfold switched_off. rewrite foldl_app. reflexivity. Qed.

Lemma switched_off_app (cs ds : list Usb.led_classdev) (k : kernel) :
  switched_off (cs ++ ds) k = switched_off ds (switched_off cs k).
Proof. unfold switched_off. apply foldl_app. Qed.

(** On a clear mask every LED switched off costs one all-clear icons
    packet and changes nothing else. *)
Lemma switched_off_clear (cs : list Usb.led_classdev) (k : kernel) :
  icons_mask (vfd k) = 0 ->
  switched_off cs k
  = foldl (fun k p => submit p k) k (replicate (length cs) (icons_packet 0)).
Proof.
  revert k. induction cs as [|c cs IH]; intros k Hk; [reflexivity|].
  change (switched_off (c :: cs) k)
    with (switched_off cs (exec (Usb.brightness_set_call c LED_OFF) k)).
  rewrite exec_brightness_off, Hk, off_mask_0, <- Hk, with_icons_mask_id, Hk.
  cbn [length replicate foldl]. apply IH. exact Hk.
Qed.

Lemma icons_mask_switched_off (cs : list Usb.led_classdev) (k : kernel) :
  icons_mask (vfd (switched_off cs k))
  = foldl (fun m c => off_mask c m) (icons_mask (vfd k)) cs.
Proof.
  induction cs as [|c cs IH] using rev_ind; [reflexivity|].
  rewrite switched_off_snoc, exec_brightness_off, foldl_app, IH. reflexivity.
Qed.

Lemma switched_off_keeps (cs : list Usb.led_classdev) (k : kernel) :
  screen (vfd (switched_off cs k)) = screen (vfd k) /\
  uptime_ms (switched_off cs k)
  = uptime_ms k + SHUTTLE_VFD_SLEEP_MS * Z.of_nat (length cs).
Proof.
  induction cs as [|c cs (IHs & IHt)] using rev_ind.
  - split; [reflexivity | cbn [length switched_off foldl]; lia].
  - rewrite switched_off_snoc, exec_brightness_off, length_app.
    cbn [submit after_send with_icons_mask vfd uptime_ms set_packet set_mutex
         set_icons_mask screen length].
    split; [exact IHs | rewrite IHt; lia].
Qed.

(** The packets sent while the LEDs [cs] are switched off: one icons
    packet each, the last one showing the mask that is left. *)
Lemma switched_off_sent (cs : list Usb.led_classdev) (k : kernel) :
  exists ps : list (list Z),
    usb_sent (switched_off cs k) = usb_sent k ++ ps /\
    length ps = length cs /\
    Forall (fun p => cmd_nibble p = 7) ps /\
    (forall p : list Z, last ps = Some p ->
       p = icons_packet (icons_mask (vfd (switched_off cs k)))).
Proof.
  induction cs as [|c cs (ps & Hs & Hl & Hn & _)] using rev_ind.
  - exists []. split; [symmetry; apply app_nil_r|]. split; [reflexivity|].
    split; [constructor | intros p Hp; discriminate Hp].
  - rewrite switched_off_snoc, exec_brightness_off.
    set (m := off_mask c (icons_mask (vfd (switched_off cs k)))).
    exists (ps ++ [icons_packet m]).
    cbn [submit after_send with_icons_mask vfd usb_sent set_packet set_mutex
         set_icons_mask packet icons_mask].
    split; [rewrite Hs, app_assoc; reflexivity|].
    split; [rewrite !length_app, Hl; reflexivity|].
    split.
    + apply Forall_app. split; [exact Hn|]. constructor; [reflexivity | constructor].
    + intros p Hp. rewrite last_snoc in Hp. congruence.
Qed.

Lemma off_mask_keeps_clear (c : Usb.led_classdev) (m j : Z) :
  Z.testbit m j = false -> Z.testbit (off_mask c m) j = false.
Proof.
  intros H. unfold off_mask, generic_mask, volume_mask.
  change (negb (LED_OFF =? LED_OFF)) with false. cbv iota.
  destruct (Usb.brightness_set c); rewrite Z.land_spec, H; reflexivity.
Qed.

Lemma foldl_off_mask_keeps_clear (cs : list Usb.led_classdev) (m j : Z) :
  Z.testbit m j = false ->
  Z.testbit (foldl (fun m c => off_mask c m) m cs) j = false.
Proof.
  revert m. induction cs as [|c cs IH]; intros m H; [exact H|].
  cbn [foldl]. apply IH, off_mask_keeps_clear, H.
Qed.

Lemma off_mask_icon_clears (i : nat) (m : Z) :
  Z.testbit (off_mask (Usb.icon_cdev i) m) (Z.of_nat i) = false.
Proof.
  unfold off_mask, generic_mask, ulong_not.
  cbn [Usb.icon_cdev Usb.brightness_set Usb.cdev_led mask].
  change (negb (LED_OFF =? LED_OFF)) with false. cbv iota.
  rewrite !Z.land_spec, Z.lnot_spec, Z.shiftl_1_l by lia.
  rewrite Z.pow2_bits_true by lia. cbn [negb]. rewrite andb_false_l.
  apply andb_false_r.
Qed.

Lemma off_mask_volume_clears (m j : Z) :
  15 <= j -> Z.testbit (off_mask Usb.volume_cdev m) j = false.
Proof.
  intros Hj. unfold off_mask, volume_mask.
  cbn [Usb.volume_cdev Usb.brightness_set].
  change (negb (LED_OFF =? LED_OFF)) with false. cbv iota.
  rewrite Z.land_spec, testbit_BASE_MASK by lia.
  destruct (Z.ltb_spec j 15); [lia | apply andb_false_r].
Qed.

(** Once every LED of the driver has been switched off, the mask is
    clear, whatever it was. *)
Lemma all_off_mask (m : Z) :
  foldl (fun m c => off_mask c m) m Usb.all_cdevs = 0.
Proof.
  apply Z.bits_inj'. intros j Hj. rewrite Z.bits_0.
  unfold Usb.all_cdevs. rewrite foldl_app. cbn [foldl].
  destruct (Z.ltb_spec j 15) as [Hlt|Hge]; [|apply off_mask_volume_clears; exact Hge].
  apply off_mask_keeps_clear.
  assert (E : seq 0 NUM_LEDS
              = seq 0 (Z.to_nat j) ++ Z.to_nat j :: seq (S (Z.to_nat j)) (14 - Z.to_nat j)).
  { unfold NUM_LEDS. replace 15%nat with (Z.to_nat j + S (14 - Z.to_nat j))%nat by lia.
    rewrite seq_app. cbn [seq Nat.add].
    replace (Z.to_nat j + S (14 - Z.to_nat j) - 14)%nat with 1%nat by lia.
    replace (14 - (Z.to_nat j + S (14 - Z.to_nat j)))%nat with 0%nat by lia.
    reflexivity. }
  rewrite E, map_app, foldl_app. cbn [map foldl].
  apply foldl_off_mask_keeps_clear.
  set (i := Z.to_nat j). assert (Ej : j = Z.of_nat i) by lia.
  rewrite Ej. apply off_mask_icon_clears.
Qed.

Lemma unregister_icons_fields (i : nat) (s : Usb.usb_system) :
  Usb.unregister_icons i s
  = Usb.set_led_class (Usb.led_class (Usb.unregister_icons i s))
      (Usb.set_sys_kernel
         (switched_off (rev (map Usb.icon_cdev (seq 0 i))) (Usb.sys_kernel s)) s).
Proof.
  revert s. induction i as [|i IH]; intros s.
  - destruct s; reflexivity.
  - change (Usb.unregister_icons (S i) s)
      with (Usb.unregister_icons i (Usb.led_classdev_unregister (Usb.icon_cdev i) s)).
    rewrite IH at 1. rewrite seq_S, map_app, rev_app_distr.
    destruct s; reflexivity.
Qed.

Lemma lookup_unregister_icons (i : nat) (s : Usb.usb_system) (x : string) :
  Usb.led_class (Usb.unregister_icons i s) !! x
  = if decide (x ∈ map cdev_name (map Usb.icon_cdev (seq 0 i)))
    then None else Usb.led_class s !! x.
Proof.
  revert s. induction i as [|i IH]; intros s; cbn [Usb.unregister_icons].
  - cbn [seq map]. destruct (decide (x ∈ [])) as [H|H]; [|reflexivity].
    apply elem_of_nil in H. destruct H.
  - rewrite IH. rewrite seq_S, !map_app. cbn [map Nat.add].
    destruct (decide (x ∈ map cdev_name (map Usb.icon_cdev (seq 0 i)))) as [H1|H1].
    + destruct (decide (x ∈ _)) as [H2|H2]; [reflexivity|].
      exfalso. apply H2, elem_of_app. left. exact H1.
    + change (Usb.led_class (Usb.led_classdev_unregister (Usb.icon_cdev i) s))
        with (delete (cdev_name (Usb.icon_cdev i)) (Usb.led_class s)).
      destruct (decide (x ∈ _)) as [H2|H2].
      * apply elem_of_app in H2 as [H2|H2]; [contradiction|].
        apply list_elem_of_singleton in H2. subst x. apply lookup_delete_eq.
      * apply lookup_delete_ne. intros E. apply H2, elem_of_app. right.
        rewrite <- E. apply list_elem_of_here.
Qed.

Lemma icon_cdevs_prefix (i : nat) (x : string) :
  (i <= NUM_LEDS)%nat ->
  x ∈ map cdev_name (map Usb.icon_cdev (seq 0 i)) ->
  exists c : Usb.led_classdev, c ∈ Usb.all_cdevs /\ cdev_name c = x.
Proof.
  intros Hi Hx. apply list_elem_of_fmap in Hx as (c & -> & Hc).
  exists c. split; [|reflexivity].
  apply list_elem_of_fmap in Hc as (j & -> & Hj).
  apply elem_of_seq in Hj.
  unfold Usb.all_cdevs. apply elem_of_app. left.
  apply list_elem_of_fmap_2, elem_of_seq. lia.
Qed.

(** Unregistering the first [i] icons undoes their registration and
    switches them off, the last registered first. *)
Lemma unregister_icons_restores (i : nat) (s : Usb.usb_system)
    (m : gmap string Usb.led_classdev) :
  (i <= NUM_LEDS)%nat -> names_free m ->
  Usb.led_class s = Usb.with_cdevs (map Usb.icon_cdev (seq 0 i)) m ->
  Usb.unregister_icons i s
  = Usb.set_led_class m
      (Usb.set_sys_kernel
         (switched_off (rev (map Usb.icon_cdev (seq 0 i))) (Usb.sys_kernel s)) s).
Proof.
  intros Hi Hfree Hs. rewrite unregister_icons_fields. f_equal.
  apply map_eq. intros x. rewrite lookup_unregister_icons, Hs.
  destruct (decide (x ∈ _)) as [H|H].
  - destruct (icon_cdevs_prefix i x Hi H) as (c & Hc & <-).
    symmetry. apply Hfree, Hc.
  - apply lookup_with_cdevs_other. exact H.
Qed.

Lemma register_icons_spec (n i : nat) (s : Usb.usb_system) :
  match Usb.register_icons n i s with
  | (None, i', s') =>
      i' = (i + n)%nat /\
      (forall j : nat, (j < n)%nat -> 0 <= register_result j s) /\
      s' = registered (map Usb.icon_cdev (seq i n))
                      (drop n (Usb.register_results s)) s
  | (Some r, i', s') =>
      r < 0 /\ (i <= i' < i + n)%nat /\
      (forall j : nat, (j < i' - i)%nat -> 0 <= register_result j s) /\
      register_result (i' - i) s = r /\
      s' = registered (map Usb.icon_cdev (seq i (i' - i)))
                      (drop (S (i' - i)) (Usb.register_results s)) s
  end.
Proof.
  revert i s. induction n as [|n IH]; intros i s.
  - cbn [Usb.register_icons]. split; [lia|]. split; [intros j Hj; lia|].
    destruct s; reflexivity.
  - cbn [Usb.register_icons]. unfold Usb.led_classdev_register.
    set (r := hd 0 (Usb.register_results s)).
    assert (Er : register_result 0 s = r).
    { unfold register_result, r. destruct (Usb.register_results s); reflexivity. }
    assert (Ed : forall k : nat, drop (S k) (Usb.register_results s)
                                 = drop k (tail (Usb.register_results s))).
    { intros k. destruct (Usb.register_results s); [|reflexivity].
      cbn [tail]. rewrite !drop_nil. reflexivity. }
    assert (En : forall j : nat,
               register_result (S j) s
               = nth j (tail (Usb.register_results s)) 0).
    { intros j. unfold register_result.
      destruct (Usb.register_results s); [destruct j|]; reflexivity. }
    destruct (Z.ltb_spec r 0) as [Hneg|Hpos].
    + replace (i - i)%nat with 0%nat by lia.
      split; [exact Hneg|]. split; [lia|]. split; [intros j Hj; lia|].
      split; [exact Er|]. rewrite Ed. destruct s; reflexivity.
    + match goal with
      | |- context [Usb.register_icons n (S i) ?s1] =>
          specialize (IH (S i) s1); set (s1' := s1) in *
      end.
      assert (Hrs1 : Usb.register_results s1' = tail (Usb.register_results s))
        by reflexivity.
      assert (Hm1 : Usb.led_class s1'
                    = <[cdev_name (Usb.icon_cdev i) := Usb.icon_cdev i]>
                        (Usb.led_class s)) by reflexivity.
      assert (Hreg : forall cs rs,
                 registered cs rs s1' = registered (Usb.icon_cdev i :: cs) rs s).
      { intros cs rs. destruct s; reflexivity. }
      assert (Hres : forall j : nat, register_result j s1' = register_result (S j) s).
      { intros j. rewrite En. unfold register_result. rewrite Hrs1. reflexivity. }
      destruct (Usb.register_icons n (S i) s1') as [[[e|] i'] s'].
      * destruct IH as (He & Hi' & Hok & Hr & Hs').
        split; [exact He|]. split; [lia|].
        replace (i' - i)%nat with (S (i' - S i)) by lia.
        split; [|split].
        -- intros [|j] Hj; [rewrite Er; exact Hpos|].
           rewrite <- Hres. apply Hok. lia.
        -- rewrite <- Hres. exact Hr.
        -- rewrite Hs', Hreg, Hrs1, <- Ed. reflexivity.
      * destruct IH as (Hi' & Hok & Hs').
        split; [lia|]. split.
        -- intros [|j] Hj; [rewrite Er; exact Hpos|].
           rewrite <- Hres. apply Hok. lia.
        -- rewrite Hs', Hreg, Hrs1, <- Ed. reflexivity.
Qed.

Lemma hd_drop (j : nat) (rs : list Z) : hd 0 (drop j rs) = nth j rs 0.
Proof.
  revert rs. induction j as [|j IH]; intros [|r rs]; try reflexivity.
  cbn [drop nth]. apply IH.
Qed.

Lemma tail_drop (j : nat) (rs : list Z) : tail (drop j rs) = drop (S j) rs.
Proof.
  revert rs. induction j as [|j IH]; intros [|r rs]; try reflexivity.
  cbn [drop]. rewrite IH. destruct rs; reflexivity.
Qed.

Lemma volume_name_not_icon :
  cdev_name Usb.volume_cdev ∉ map cdev_name (map Usb.icon_cdev (seq 0 NUM_LEDS)).
Proof. apply (bool_decide_unpack _). vm_compute. exact I. Qed.

Lemma all_cdev_names_NoDup : NoDup (map cdev_name Usb.all_cdevs).
Proof.
  apply (bool_decide_unpack _). vm_compute. exact I.
Qed.

Lemma names_free_volume (m : gmap string Usb.led_classdev) :
  names_free m -> m !! cdev_name Usb.volume_cdev = None.
Proof.
  intros H. apply H. unfold Usb.all_cdevs. apply elem_of_app. right.
  apply list_elem_of_here.
Qed.

(** The path from [error] on: the icons registered so far are switched
    off and unregistered, and the structure is released.  [c] packets
    have gone out since the structure was zeroed. *)
Lemma probe_error_restores (i c : nat) (rs : list Z) (s s0 : Usb.usb_system) :
  (i <= NUM_LEDS)%nat -> names_free (Usb.led_class s0) ->
  s = Usb.mk_system
        (foldl (fun k p => submit p k)
           (exec (modify_vfd (fun _ => kzalloc_vfd) ;; modify_vfd (set_icons_mask 0))
                 (Usb.sys_kernel s0))
           (replicate c (icons_packet 0)))
        true true (Usb.udev_refcount s0 + 1)
        (Usb.with_cdevs (map Usb.icon_cdev (seq 0 i)) (Usb.led_class s0))
        (Usb.text_attr s0) (Usb.kzalloc_fails s0) rs (Usb.oom_reports s0) ->
  Usb.probe_error i s = backed_out (c + i) rs s0.
Proof.
  intros Hi Hfree ->. unfold Usb.probe_error.
  rewrite (unregister_icons_restores i _ (Usb.led_class s0)) by (try assumption; reflexivity).
  unfold backed_out. cbn [Usb.set_led_class Usb.set_sys_kernel Usb.sys_kernel
    Usb.udev_refcount Usb.led_class Usb.text_attr Usb.kzalloc_fails
    Usb.register_results Usb.oom_reports Usb.dev_allocated Usb.intfdata].
  rewrite switched_off_clear by (rewrite icons_mask_foldl_submit; reflexivity).
  rewrite length_rev, length_map, length_seq.
  rewrite <- foldl_app, <- replicate_add.
  f_equal. lia.
Qed.

(** Every way [shuttle_vfd_probe] can go. *)
Lemma probe_outcome (n : Z) (s : Usb.usb_system) :
  names_free (Usb.led_class s) ->
  (n <> 1 /\ Usb.shuttle_vfd_probe n s = (- 12, s)) \/
  (n = 1 /\ Usb.kzalloc_fails s = true /\
   Usb.shuttle_vfd_probe n s
   = (- 12, Usb.mk_system (Usb.sys_kernel s) (Usb.dev_allocated s) (Usb.intfdata s)
              (Usb.udev_refcount s) (Usb.led_class s) (Usb.text_attr s)
              (Usb.kzalloc_fails s) (Usb.register_results s)
              (S (Usb.oom_reports s)))) \/
  (n = 1 /\ Usb.kzalloc_fails s = false /\
   exists j : nat,
     (j <= 16)%nat /\
     (forall i : nat, (i < j)%nat -> 0 <= register_result i s) /\
     (if (j <? 16)%nat then register_result j s < 0 else register_result j s <> 0) /\
     Usb.shuttle_vfd_probe n s
     = (register_result j s, backed_out j (drop (S j) (Usb.register_results s)) s)) \/
  (n = 1 /\ Usb.kzalloc_fails s = false /\
   (forall i : nat, (i < 16)%nat -> 0 <= register_result i s) /\
   register_result 16 s = 0 /\
   Usb.shuttle_vfd_probe n s = (0, attached s)).
Proof.
  intros Hfree. unfold Usb.shuttle_vfd_probe, Usb.SHUTTLE_VFD_INTERFACE, Usb.ENOMEM.
  destruct (Z.eqb_spec n 1) as [Hn|Hn]; cbn [negb]; [|left; split; [exact Hn | reflexivity]].
  right. destruct (Usb.kzalloc_fails s) eqn:Hk; [left; repeat split; assumption|].
  right.
  set (s1 := Usb.mk_system _ true true _ _ _ _ _ _).
  assert (Hrr : forall j, register_result j s1 = register_result j s) by reflexivity.
  pose proof (register_icons_spec NUM_LEDS 0 s1) as Hloop.
  destruct (Usb.register_icons NUM_LEDS 0 s1) as [[[e|] i] s2].
  - (* goto error from the loop *)
    destruct Hloop as (He & Hi & Hok & Hr & Hs2).
    unfold NUM_LEDS in Hi. rewrite Nat.sub_0_r in *.
    left. split; [exact Hn|]. split; [reflexivity|].
    exists i. split; [lia|]. split; [intros j Hj; rewrite <- Hrr; apply Hok; exact Hj|].
    rewrite <- Hrr, Hr.
    split; [destruct (Nat.ltb_spec i 16); [exact He | lia]|].
    f_equal. apply (probe_error_restores i 0); [unfold NUM_LEDS; lia | exact Hfree|].
    rewrite Hs2. unfold registered, s1. cbn. rewrite Hk. reflexivity.
  - destruct Hloop as (Hi & Hok & Hs2). unfold NUM_LEDS in Hi, Hok, Hs2.
    cbn [Nat.add] in Hi. subst i.
    assert (Es2 : s2 = Usb.mk_system
              (exec (modify_vfd (fun _ => kzalloc_vfd) ;; modify_vfd (set_icons_mask 0))
                    (Usb.sys_kernel s))
              true true (Usb.udev_refcount s + 1)
              (Usb.with_cdevs (map Usb.icon_cdev (seq 0 15)) (Usb.led_class s))
              (Usb.text_attr s) false (drop 15 (Usb.register_results s))
              (Usb.oom_reports s)).
    { rewrite Hs2. unfold registered, s1. cbn. reflexivity. }
    clear Hs2. subst s2.
    unfold Usb.led_classdev_register.
    cbn [Usb.register_results Usb.set_register_results Usb.set_led_class
         Usb.sys_kernel Usb.dev_allocated Usb.intfdata Usb.udev_refcount
         Usb.led_class Usb.text_attr Usb.kzalloc_fails Usb.oom_reports].
    rewrite hd_drop, tail_drop. fold (register_result 15 s).
    destruct (Z.ltb_spec (register_result 15 s) 0) as [Hv|Hv].
    + (* the volume LED fails *)
      left. split; [exact Hn|]. split; [reflexivity|].
      exists 15%nat. split; [lia|].
      split; [intros j Hj; rewrite <- Hrr; apply Hok; exact Hj|].
      split; [exact Hv|].
      f_equal. apply (probe_error_restores 15 0); [unfold NUM_LEDS; lia | exact Hfree|].
      rewrite Hk. reflexivity.
    + unfold Usb.device_create_file.
      cbn [Usb.register_results Usb.set_register_results Usb.set_led_class
           Usb.sys_kernel Usb.dev_allocated Usb.intfdata Usb.udev_refcount
           Usb.led_class Usb.text_attr Usb.kzalloc_fails Usb.oom_reports].
      rewrite hd_drop, tail_drop. fold (register_result 16 s).
      assert (Hok16 : forall i : nat, (i < 16)%nat -> 0 <= register_result i s).
      { intros j Hj. destruct (Nat.eq_dec j 15%nat) as [->|Hne]; [exact Hv|].
        rewrite <- Hrr. apply Hok. lia. }
      destruct (Z.eqb_spec (register_result 16 s) 0) as [Hf|Hf]; cbn [negb].
      * (* attached *)
        right. split; [exact Hn|]. split; [reflexivity|].
        split; [exact Hok16|]. split; [exact Hf|].
        f_equal. unfold attached, Usb.all_cdevs. rewrite with_cdevs_snoc.
        rewrite Hk. reflexivity.
      * (* the attribute file fails *)
        left. split; [exact Hn|]. split; [reflexivity|].
        exists 16%nat. split; [lia|]. split; [exact Hok16|]. split; [exact Hf|].
        f_equal. apply (probe_error_restores 15 1); [unfold NUM_LEDS; lia | exact Hfree|].
        unfold Usb.led_classdev_unregister.
        cbn [Usb.register_results Usb.set_register_results Usb.set_led_class
             Usb.set_sys_kernel
             Usb.sys_kernel Usb.dev_allocated Usb.intfdata Usb.udev_refcount
             Usb.led_class Usb.text_attr Usb.kzalloc_fails Usb.oom_reports].
        fold (cdev_name Usb.volume_cdev).
        rewrite exec_brightness_off.
        change (icons_mask (vfd (exec (modify_vfd (fun _ => kzalloc_vfd) ;;
                                       modify_vfd (set_icons_mask 0))
                                      (Usb.sys_kernel s)))) with 0.
        rewrite off_mask_0.
        rewrite delete_insert_eq, delete_id.
        -- rewrite Hk. reflexivity.
        -- rewrite lookup_with_cdevs_other by apply volume_name_not_icon.
           apply names_free_volume, Hfree.
Qed.

Lemma names_free_empty : names_free ∅.
Proof. intros c _. apply lookup_empty. Qed.




Lemma icon_cdev_eq (i : nat) :
  (i < NUM_LEDS)%nat ->
  Usb.icon_cdev i = Usb.mk_cdev (icon_led i) LED_OFF Usb.generic_set.
Proof.
  unfold NUM_LEDS. intros Hi.
  do 15 (destruct i as [|i]; [reflexivity|]). lia.
Qed.

Lemma volume_cdev_eq :
  Usb.volume_cdev = Usb.mk_cdev volume_led LED_OFF Usb.volume_set.
Proof. reflexivity. Qed.

(** X12.  When probe goes through.  [shuttle_vfd_probe] returns 0
    exactly when it is called on interface 1, memory is there, the 16
    LEDs register and the attribute file is created.  Then the LED
    class holds, next to what it held, the 15 icons under the names of
    [icon_names], each with its mask [1 << i], [max_brightness] 1 and
    the generic callback, and "volume" with [max_brightness] 12 and the
    volume callback, all at brightness 0; the attribute file exists,
    the interface data is set, the device holds one more reference,
    and the device structure is zeroed and one packet, the full clear,
    was sent. *)
Theorem probe_success (n : Z) (s : Usb.usb_system) :
  names_free (Usb.led_class s) ->
  (fst (Usb.shuttle_vfd_probe n s) = 0 <->
   n = Usb.SHUTTLE_VFD_INTERFACE /\ Usb.kzalloc_fails s = false /\
   (forall i : nat, (i < 16)%nat -> 0 <= register_result i s) /\
   register_result 16 s = 0) /\
  (fst (Usb.shuttle_vfd_probe n s) = 0 ->
   let s' := snd (Usb.shuttle_vfd_probe n s) in
   (forall i : nat, (i < NUM_LEDS)%nat ->
      Usb.led_class s' !! nth i icon_names EmptyString
      = Some (Usb.mk_cdev (icon_led i) LED_OFF Usb.generic_set)) /\
   Usb.led_class s' !! "volume"%string
   = Some (Usb.mk_cdev volume_led LED_OFF Usb.volume_set) /\
   (forall x : string, x ∉ map cdev_name Usb.all_cdevs ->
      Usb.led_class s' !! x = Usb.led_class s !! x) /\
   Usb.text_attr s' = true /\ Usb.intfdata s' = true /\
   Usb.dev_allocated s' = true /\
   Usb.udev_refcount s' = Usb.udev_refcount s + 1 /\
   Usb.sys_kernel s' = exec shuttle_vfd_probe (Usb.sys_kernel s) /\
   vfd (Usb.sys_kernel s')
   = mk_vfd false 0 [0x11; 1; 0; 0; 0; 0; 0; 0] (replicate 20 0) /\
   sent_by shuttle_vfd_probe (Usb.sys_kernel s) = [[0x11; 1; 0; 0; 0; 0; 0; 0]]).
Proof.
  unfold Usb.SHUTTLE_VFD_INTERFACE. intros Hfree.
  pose proof (probe_outcome n s Hfree) as Hout.
  split.
  - destruct Hout
      as [(Hn & E)|[(Hn & Hk & E)|[(Hn & Hk & j & Hj & Hok & Hbad & E)|(Hn & Hk & Hok & Hf & E)]]];
      rewrite E; cbn [fst].
    + split; [lia|]. intros (H & _). contradiction.
    + split; [lia|]. intros (_ & H & _). congruence.
    + split.
      * intros H0. rewrite H0 in Hbad.
        destruct (j <? 16)%nat; [lia | contradiction].
      * intros (_ & _ & H16 & Hf).
        destruct (Nat.ltb_spec j 16) as [Hlt|Hge].
        -- specialize (H16 j Hlt). lia.
        -- assert (j = 16%nat) by lia. subst j. contradiction.
    + split; [intros _; repeat split; assumption | reflexivity].
  - intros H0.
    destruct Hout
      as [(Hn & E)|[(Hn & Hk & E)|[(Hn & Hk & j & Hj & Hok & Hbad & E)|(Hn & Hk & Hok & Hf & E)]]];
      rewrite E in *; cbn [fst snd] in *; try lia.
    + exfalso. rewrite H0 in Hbad. destruct (j <? 16)%nat; [lia | contradiction].
    + unfold attached.
      cbn [Usb.led_class Usb.text_attr Usb.intfdata Usb.dev_allocated
           Usb.udev_refcount Usb.sys_kernel].
      split; [|split; [|split]].
      * intros i Hi.
        replace (nth i icon_names EmptyString) with (cdev_name (Usb.icon_cdev i))
          by (rewrite icon_cdev_eq by exact Hi; reflexivity).
        rewrite <- icon_cdev_eq by exact Hi.
        apply lookup_with_cdevs_here; [apply all_cdev_names_NoDup|].
        unfold Usb.all_cdevs. apply elem_of_app. left.
        apply list_elem_of_fmap_2, elem_of_seq. lia.
      * change "volume"%string with (cdev_name Usb.volume_cdev).
        rewrite <- volume_cdev_eq.
        apply lookup_with_cdevs_here; [apply all_cdev_names_NoDup|].
        unfold Usb.all_cdevs. apply elem_of_app. right. apply list_elem_of_here.
      * intros x Hx. apply lookup_with_cdevs_other. exact Hx.
      * repeat split; try reflexivity.
        -- unfold exec, shuttle_vfd_probe. run. rewrite vfd_reset_cursor_run.
           reflexivity.
        -- apply sent_by_app. unfold exec, shuttle_vfd_probe. run.
           rewrite vfd_reset_cursor_run. reflexivity.
Qed.

Lemma probe_success_witness :
  names_free (Usb.led_class (detached [])) /\
  fst (Usb.shuttle_vfd_probe 1 (detached [])) = 0 /\
  Usb.led_class (snd (Usb.shuttle_vfd_probe 1 (detached []))) !! "mute"%string
  = Some (Usb.mk_cdev (icon_led 10) LED_OFF Usb.generic_set).
Proof.
  assert (H1 : names_free (Usb.led_class (detached []))) by apply names_free_empty.
  assert (H2 : fst (Usb.shuttle_vfd_probe 1 (detached [])) = 0)
    by (vm_compute; reflexivity).
  destruct (probe_success 1 (detached []) H1) as (_ & Hs).
  destruct (Hs H2) as (Hicons & _).
  split; [exact H1|]. split; [exact H2|].
  apply (Hicons 10%nat). unfold NUM_LEDS. lia.
Defined.

Lemma foldl_unregister_fields (l : list nat) (s : Usb.usb_system) :
  foldl (fun s i => Usb.led_classdev_unregister (Usb.icon_cdev i) s) s l
  = Usb.set_led_class
      (Usb.led_class
         (foldl (fun s i => Usb.led_classdev_unregister (Usb.icon_cdev i) s) s l))
      (Usb.set_sys_kernel
         (switched_off (map Usb.icon_cdev l) (Usb.sys_kernel s)) s).
Proof.
  induction l as [|i l IH] using rev_ind.
  - destruct s; reflexivity.
  - rewrite foldl_app. cbn [foldl]. rewrite IH at 1.
    rewrite map_app. cbn [map]. rewrite switched_off_snoc.
    unfold Usb.led_classdev_unregister. cbv zeta.
    unfold Usb.set_led_class, Usb.set_sys_kernel.
    cbn [Usb.sys_kernel Usb.dev_allocated
         Usb.intfdata Usb.udev_refcount Usb.led_class Usb.text_attr
         Usb.kzalloc_fails Usb.register_results Usb.oom_reports].
    reflexivity.
Qed.

Lemma lookup_foldl_unregister (l : list nat) (s : Usb.usb_system) (x : string) :
  Usb.led_class
    (foldl (fun s i => Usb.led_classdev_unregister (Usb.icon_cdev i) s) s l) !! x
  = if decide (x ∈ map cdev_name (map Usb.icon_cdev l))
    then None else Usb.led_class s !! x.
Proof.
  induction l as [|i l IH] using rev_ind.
  - cbn [foldl map]. destruct (decide (x ∈ [])) as [H|H]; [|reflexivity].
    apply elem_of_nil in H. destruct H.
  - rewrite foldl_app, !map_app. cbn [foldl map].
    match goal with
    | |- Usb.led_class (Usb.led_classdev_unregister ?c ?s0) !! _ = _ =>
        change (Usb.led_class (Usb.led_classdev_unregister c s0))
          with (delete (cdev_name c) (Usb.led_class s0))
    end.
    destruct (decide (x = cdev_name (Usb.icon_cdev i))) as [->|Hne].
    + rewrite lookup_delete_eq. clear IH.
      destruct (decide (_ ∈ _ ++ _)) as [H|H]; [reflexivity|].
      exfalso. apply H, elem_of_app. right. apply list_elem_of_here.
    + rewrite lookup_delete_ne by congruence. rewrite IH.
      destruct (decide (x ∈ map cdev_name (map Usb.icon_cdev l))) as [H1|H1];
        destruct (decide (x ∈ _ ++ _)) as [H2|H2]; try reflexivity.
      * exfalso. apply H2, elem_of_app. left. exact H1.
      * exfalso. apply elem_of_app in H2 as [H2|H2]; [contradiction|].
        apply list_elem_of_singleton in H2. contradiction.
Qed.

Lemma probe_returns_0 (n : Z) (s : Usb.usb_system) :
  names_free (Usb.led_class s) ->
  fst (Usb.shuttle_vfd_probe n s) = 0 ->
  Usb.shuttle_vfd_probe n s = (0, attached s).
Proof.
  intros Hfree H0.
  destruct (probe_outcome n s Hfree)
    as [(Hn & E)|[(Hn & Hk & E)|[(Hn & Hk & j & Hj & Hok & Hbad & E)|(Hn & Hk & Hok & Hf & E)]]].
  - rewrite E in H0. cbn [fst] in H0. lia.
  - rewrite E in H0. cbn [fst] in H0. lia.
  - rewrite E in H0. cbn [fst] in H0. exfalso. rewrite H0 in Hbad.
    destruct (j <? 16)%nat; [lia | contradiction].
  - exact E.
Qed.

Lemma foldl_unregister_kernel (l : list nat) (s : Usb.usb_system) :
  Usb.sys_kernel
    (foldl (fun s i => Usb.led_classdev_unregister (Usb.icon_cdev i) s) s l)
  = switched_off (map Usb.icon_cdev l) (Usb.sys_kernel s).
Proof. rewrite foldl_unregister_fields. reflexivity. Qed.

Lemma foldl_unregister_rest (l : list nat) (s : Usb.usb_system) :
  Usb.udev_refcount
    (foldl (fun s i => Usb.led_classdev_unregister (Usb.icon_cdev i) s) s l)
  = Usb.udev_refcount s /\
  Usb.kzalloc_fails
    (foldl (fun s i => Usb.led_classdev_unregister (Usb.icon_cdev i) s) s l)
  = Usb.kzalloc_fails s /\
  Usb.register_results
    (foldl (fun s i => Usb.led_classdev_unregister (Usb.icon_cdev i) s) s l)
  = Usb.register_results s /\
  Usb.oom_reports
    (foldl (fun s i => Usb.led_classdev_unregister (Usb.icon_cdev i) s) s l)
  = Usb.oom_reports s.
Proof. rewrite foldl_unregister_fields. repeat split; reflexivity. Qed.

(** The end of disconnect, from the state [s0] the loop over the icons
    leaves. *)
Lemma disconnect_tail (s0 : Usb.usb_system) :
  Usb.mk_system
    (Usb.sys_kernel
       (Usb.device_remove_file (Usb.led_classdev_unregister Usb.volume_cdev s0)))
    false false
    (Usb.udev_refcount
       (Usb.device_remove_file (Usb.led_classdev_unregister Usb.volume_cdev s0)) - 1)
    (Usb.led_class
       (Usb.device_remove_file (Usb.led_classdev_unregister Usb.volume_cdev s0)))
    (Usb.text_attr
       (Usb.device_remove_file (Usb.led_classdev_unregister Usb.volume_cdev s0)))
    (Usb.kzalloc_fails
       (Usb.device_remove_file (Usb.led_classdev_unregister Usb.volume_cdev s0)))
    (Usb.register_results
       (Usb.device_remove_file (Usb.led_classdev_unregister Usb.volume_cdev s0)))
    (Usb.oom_reports
       (Usb.device_remove_file (Usb.led_classdev_unregister Usb.volume_cdev s0)))
  = Usb.mk_system
      (exec (Usb.brightness_set_call Usb.volume_cdev LED_OFF) (Usb.sys_kernel s0))
      false false (Usb.udev_refcount s0 - 1)
      (delete (cdev_name Usb.volume_cdev) (Usb.led_class s0))
      false (Usb.kzalloc_fails s0) (Usb.register_results s0) (Usb.oom_reports s0).
Proof. reflexivity. Qed.

(** Disconnect, field by field. *)
Lemma disconnect_unfold (s : Usb.usb_system) :
  Usb.shuttle_vfd_disconnect s
  = Usb.mk_system (switched_off Usb.all_cdevs (Usb.sys_kernel s))
      false false (Usb.udev_refcount s - 1)
      (delete (cdev_name Usb.volume_cdev)
         (Usb.led_class
            (foldl (fun s i => Usb.led_classdev_unregister (Usb.icon_cdev i) s)
                   s (seq 0 NUM_LEDS))))
      false (Usb.kzalloc_fails s) (Usb.register_results s) (Usb.oom_reports s).
Proof.
  unfold Usb.shuttle_vfd_disconnect. cbv zeta.
  rewrite disconnect_tail, foldl_unregister_kernel.
  destruct (foldl_unregister_rest (seq 0 NUM_LEDS) s) as (-> & -> & -> & ->).
  unfold Usb.all_cdevs. rewrite switched_off_snoc. reflexivity.
Qed.

(** Disconnect takes the LEDs of the driver out of the class. *)
Lemma led_class_disconnect (s1 : Usb.usb_system) (m : gmap string Usb.led_classdev) :
  names_free m ->
  Usb.led_class s1 = Usb.with_cdevs Usb.all_cdevs m ->
  Usb.led_class (Usb.shuttle_vfd_disconnect s1) = m.
Proof.
  intros Hfree Hs1.
  rewrite disconnect_unfold. cbn [Usb.led_class]. apply map_eq. intros x.
  destruct (decide (x = cdev_name Usb.volume_cdev)) as [->|Hne].
  - rewrite lookup_delete_eq. symmetry. apply names_free_volume, Hfree.
  - rewrite lookup_delete_ne by congruence.
    rewrite lookup_foldl_unregister.
    destruct (decide (x ∈ _)) as [H|H].
    + destruct (icon_cdevs_prefix NUM_LEDS x ltac:(lia) H) as (c & Hc & <-).
      symmetry. apply Hfree, Hc.
    + rewrite Hs1.
      apply lookup_with_cdevs_other. unfold Usb.all_cdevs.
      rewrite map_app. intros Hin. apply elem_of_app in Hin as [Hin|Hin].
      * contradiction.
      * cbn [map] in Hin. apply list_elem_of_singleton in Hin. contradiction.
Qed.

Lemma disconnect_fields (s : Usb.usb_system) :
  Usb.text_attr (Usb.shuttle_vfd_disconnect s) = false /\
  Usb.intfdata (Usb.shuttle_vfd_disconnect s) = false /\
  Usb.dev_allocated (Usb.shuttle_vfd_disconnect s) = false /\
  Usb.udev_refcount (Usb.shuttle_vfd_disconnect s) = Usb.udev_refcount s - 1 /\
  Usb.sys_kernel (Usb.shuttle_vfd_disconnect s)
  = switched_off Usb.all_cdevs (Usb.sys_kernel s).
Proof.
  rewrite disconnect_unfold. repeat split; reflexivity.
Qed.

(** X13.  Attach, then detach.  [shuttle_vfd_disconnect] of a device
    that a probe attached, whatever has been written and switched
    since (the kernel [k]), takes every LED of the driver out of the
    LED class, and leaves the class, the reference count of the USB
    device and the interface data as they were before the probe; the
    attribute file is gone and the device structure freed.  Each of
    the 16 LEDs is switched off by the LED core through the driver's
    callback as it is unregistered: 16 icons packets go out, 24 ms
    apart, the last with every bit clear; the mask ends at 0 and the
    screen text is not touched.  When no icon was lit, all 16 packets
    are the all-clear one. *)
Theorem probe_then_disconnect (n : Z) (s : Usb.usb_system) (k : kernel) :
  names_free (Usb.led_class s) ->
  fst (Usb.shuttle_vfd_probe n s) = 0 ->
  let s1 := Usb.set_sys_kernel k (snd (Usb.shuttle_vfd_probe n s)) in
  let s2 := Usb.shuttle_vfd_disconnect s1 in
  (Usb.led_class s2 = Usb.led_class s /\
   Usb.text_attr s2 = false /\
   Usb.intfdata s2 = false /\
   Usb.dev_allocated s2 = false /\
   Usb.udev_refcount s2 = Usb.udev_refcount s) /\
  (exists ps : list (list Z),
     usb_sent (Usb.sys_kernel s2) = usb_sent k ++ ps ++ [icons_packet 0] /\
     length ps = 15%nat /\
     Forall (fun p => cmd_nibble p = 7) ps) /\
  icons_mask (vfd (Usb.sys_kernel s2)) = 0 /\
  screen (vfd (Usb.sys_kernel s2)) = screen (vfd k) /\
  uptime_ms (Usb.sys_kernel s2) = uptime_ms k + 16 * 24 /\
  (icons_mask (vfd k) = 0 ->
   usb_sent (Usb.sys_kernel s2) = usb_sent k ++ replicate 16 (icons_packet 0)).
Proof.
  intros Hfree H0. cbv zeta.
  rewrite (probe_returns_0 n s Hfree H0). cbn [snd].
  set (s1 := Usb.set_sys_kernel k (attached s)).
  destruct (disconnect_fields s1) as (Ha & Hi & Hd & Hr & Hk).
  assert (Hm : icons_mask (vfd (switched_off Usb.all_cdevs k)) = 0).
  { rewrite icons_mask_switched_off. apply all_off_mask. }
  assert (Hlen : length Usb.all_cdevs = 16%nat) by reflexivity.
  split; [|split; [|split; [|split; [|split]]]].
  - split; [apply led_class_disconnect; [exact Hfree | reflexivity]|].
    split; [exact Ha|]. split; [exact Hi|]. split; [exact Hd|].
    rewrite Hr. unfold s1, attached. cbn [Usb.set_sys_kernel Usb.udev_refcount]. lia.
  - rewrite Hk. change (Usb.sys_kernel s1) with k.
    destruct (switched_off_sent Usb.all_cdevs k) as (ps & Hs & Hl & Hn & Hlast).
    rewrite Hlen in Hl. rewrite Hm in Hlast.
    destruct (last ps) as [p|] eqn:Ep.
    + apply last_Some in Ep as (ps' & ->).
      rewrite (Hlast p eq_refl) in *.
      exists ps'. split; [exact Hs|].
      rewrite length_app in Hl. cbn [length] in Hl. split; [lia|].
      apply Forall_app in Hn as (Hn & _). exact Hn.
    + apply last_None in Ep. subst ps. discriminate Hl.
  - rewrite Hk. exact Hm.
  - rewrite Hk. apply switched_off_keeps.
  - rewrite Hk. change (Usb.sys_kernel s1) with k.
    rewrite (proj2 (switched_off_keeps Usb.all_cdevs k)), Hlen.
    unfold SHUTTLE_VFD_SLEEP_MS. lia.
  - intros Hz. rewrite Hk. change (Usb.sys_kernel s1) with k.
    rewrite switched_off_clear by exact Hz.
    rewrite usb_sent_foldl_submit, Hlen. reflexivity.
Qed.

Lemma probe_then_disconnect_witness :
  names_free (Usb.led_class (detached [])) /\
  fst (Usb.shuttle_vfd_probe 1 (detached [])) = 0 /\
  Usb.led_class
    (Usb.shuttle_vfd_disconnect
       (Usb.set_sys_kernel
          (exec (vfd_led_generic_set (icon_led 3) 1)
                (exec shuttle_vfd_probe (boot [])))
          (snd (Usb.shuttle_vfd_probe 1 (detached []))))) = ∅ /\
  icons_mask
    (vfd (Usb.sys_kernel
       (Usb.shuttle_vfd_disconnect
          (Usb.set_sys_kernel
             (exec (vfd_led_generic_set (icon_led 3) 1)
                   (exec shuttle_vfd_probe (boot [])))
             (snd (Usb.shuttle_vfd_probe 1 (detached []))))))) = 0.
Proof.
  assert (H1 : names_free (Usb.led_class (detached []))) by apply names_free_empty.
  assert (H2 : fst (Usb.shuttle_vfd_probe 1 (detached [])) = 0)
    by (vm_compute; reflexivity).
  destruct (probe_then_disconnect 1 (detached [])
              (exec (vfd_led_generic_set (icon_led 3) 1)
                    (exec shuttle_vfd_probe (boot []))) H1 H2)
    as ((Hc & _) & _ & Hm & _).
  split; [exact H1|]. split; [exact H2|]. split; [exact Hc | exact Hm].
Defined.

(** ** Concurrent callers: what the mutex does give *)

Lemma step_instr_mutex (i : instr) (r r' : Z) (k k' : kernel) :
  step_instr i r k = Some (k', r') ->
  vfd_mutex (vfd k') =
  match i with
  | IMutexLock => true
  | IMutexUnlock => false
  | _ => vfd_mutex (vfd k)
  end.
Proof.
  destruct i; cbn [step_instr]; intros H;
    try (injection H as <- <-; reflexivity).
  - destruct (vfd_mutex (vfd k)); [discriminate H|].
    injection H as <- <-. reflexivity.
  - injection H as <- <-. destruct (r <? 0); reflexivity.
Qed.

Lemma step_instr_blocks (i : instr) (r : Z) (k : kernel) :
  step_instr i r k = None <-> i = IMutexLock /\ vfd_mutex (vfd k) = true.
Proof.
  split.
  - destruct i; cbn [step_instr]; intros H; try discriminate H.
    destruct (vfd_mutex (vfd k)); [split; reflexivity | discriminate H].
  - intros [-> Hm]. cbn [step_instr]. rewrite Hm. reflexivity.
Qed.

Lemma holders_insert (p : list thread) (tid : nat) (t t' : thread) :
  p !! tid = Some t ->
  (holders (<[tid := t']> p) + (if in_section (code t) then 1 else 0)
   = holders p + (if in_section (code t') then 1 else 0))%nat.
Proof.
  revert tid. induction p as [|t0 p IH]; intros tid Ht; [discriminate Ht|].
  destruct tid as [|tid]; cbn [lookup list_lookup] in Ht.
  - injection Ht as ->. change (<[0%nat := t']> (t :: p)) with (t' :: p).
    cbn [holders]. lia.
  - change (<[S tid := t']> (t0 :: p)) with (t0 :: <[tid := t']> p).
    cbn [holders]. specialize (IH tid Ht). lia.
Qed.

Lemma holders_pos (p : list thread) (tid : nat) (t : thread) :
  p !! tid = Some t -> in_section (code t) = true -> (1 <= holders p)%nat.
Proof.
  revert tid. induction p as [|t0 p IH]; intros tid Ht Hin; [discriminate Ht|].
  destruct tid as [|tid]; cbn [lookup list_lookup] in Ht.
  - injection Ht as ->. cbn [holders]. rewrite Hin. lia.
  - cbn [holders]. specialize (IH tid Ht Hin). lia.
Qed.

Lemma in_section_before (pre : list instr) :
  Forall (fun i => plain i = true) pre ->
  in_section (pre ++ vfd_send_packet_code) = false.
Proof.
  intros H. destruct pre as [|i pre]; [reflexivity|].
  apply Forall_cons in H as [Hi _]. destruct i; try discriminate Hi; reflexivity.
Qed.

Lemma sched_step_lock_inv (tid : nat) (m : machine) :
  lock_inv m -> lock_inv (sched_step tid m).
Proof.
  intros [Hok Hcnt]. unfold sched_step.
  destruct (pool m !! tid) as [[c r]|] eqn:Ht; [|split; assumption].
  destruct c as [|i rest]; [split; assumption|].
  destruct (step_instr i r (kern m)) as [[k' r']|] eqn:Hs; [|split; assumption].
  pose proof (step_instr_mutex _ _ _ _ _ Hs) as Hmx.
  pose proof (holders_insert (pool m) tid _ (mk_thread rest r') Ht) as Hh.
  cbn [code] in Hh.
  assert (Hc : code_ok (i :: rest)).
  { apply (proj1 (Forall_lookup _ _) Hok tid _ Ht). }
  unfold lock_inv. cbn [pool kern].
  destruct Hc as [(pre & Hpre & E)|[[E|[E|E]]|[E|E]]].
  - destruct pre as [|p pre].
    + (* mutex_lock *)
      cbn [app vfd_send_packet_code] in E. injection E as -> ->.
      cbn [step_instr] in Hs.
      destruct (vfd_mutex (vfd (kern m))) eqn:Hm; [discriminate Hs|].
      split.
      * apply Forall_insert; [exact Hok|]. cbn [code]. right. left. left. reflexivity.
      * rewrite Hmx. cbn [in_section] in Hh. lia.
    + (* a statement before the lock *)
      cbn [app] in E. injection E as -> ->.
      apply Forall_cons in Hpre as [Hp Hpre].
      split.
      * apply Forall_insert; [exact Hok|]. cbn [code]. left. exists pre.
        split; [exact Hpre | reflexivity].
      * rewrite (in_section_before pre Hpre) in Hh.
        assert (Hi : in_section (p :: pre ++ vfd_send_packet_code) = false)
          by (destruct p; try discriminate Hp; reflexivity).
        rewrite Hi in Hh.
        assert (Hm : vfd_mutex (vfd k') = vfd_mutex (vfd (kern m)))
          by (rewrite Hmx; destruct p; try discriminate Hp; reflexivity).
        rewrite Hm. lia.
  - injection E as -> ->. split.
    + apply Forall_insert; [exact Hok|]. cbn [code]. right. left. right. left. reflexivity.
    + rewrite Hmx. cbn [in_section] in Hh. lia.
  - injection E as -> ->. split.
    + apply Forall_insert; [exact Hok|]. cbn [code]. right. left. right. right. reflexivity.
    + rewrite Hmx. cbn [in_section] in Hh. lia.
  - injection E as -> ->.
    assert (H1 : (1 <= holders (pool m))%nat)
      by (apply (holders_pos _ tid _ Ht); reflexivity).
    split.
    + apply Forall_insert; [exact Hok|]. cbn [code]. right. right. left. reflexivity.
    + rewrite Hmx. cbn [in_section] in Hh.
      destruct (vfd_mutex (vfd (kern m))); lia.
  - injection E as -> ->. split.
    + apply Forall_insert; [exact Hok|]. cbn [code]. right. right. right. reflexivity.
    + rewrite Hmx. cbn [in_section] in Hh. lia.
  - discriminate E.
Qed.

Lemma run_schedule_lock_inv (sched : list nat) (m : machine) :
  lock_inv m -> lock_inv (run_schedule sched m).
Proof.
  revert m. induction sched as [|tid sched IH]; intros m Hm; [exact Hm|].
  rewrite run_schedule_cons. apply IH, sched_step_lock_inv, Hm.
Qed.

Lemma call_code_ok (c : call) : code_ok (call_code c).
Proof.
  left.
  pose (build := [IMemsetPacket; IPacketConst 0 (Z.shiftl 7 4 + 4);
                  IPacketIcons 1 (fun m => Z.land (Z.shiftr m 15) 0x1F);
                  IPacketIcons 2 (fun m => Z.land (Z.shiftr m 10) 0x1F);
                  IPacketIcons 3 (fun m => Z.land (Z.shiftr m 5) 0x1F);
                  IPacketIcons 4 (fun m => Z.land m 0x1F)]).
  assert (Hb : Forall (fun i => plain i = true) build) by (repeat constructor).
  destruct c as [led value|led value]; cbn [call_code].
  - unfold vfd_led_generic_set_code.
    destruct (negb (value =? LED_OFF)).
    + exists (IMaskOr (mask led) :: build).
      split; [constructor; [reflexivity | exact Hb] | reflexivity].
    + exists (IMaskAnd (ulong_not (mask led)) :: build).
      split; [constructor; [reflexivity | exact Hb] | reflexivity].
  - unfold vfd_led_volume_set_code.
    destruct (negb (value =? LED_OFF)).
    + exists (IMaskAnd SHUTTLE_VFD_BASE_MASK
              :: IMaskOr (SHUTTLE_VFD_ICON_VOL value) :: build).
      split; [do 2 (constructor; [reflexivity|]); exact Hb | reflexivity].
    + exists (IMaskAnd SHUTTLE_VFD_BASE_MASK :: build).
      split; [constructor; [reflexivity | exact Hb] | reflexivity].
Qed.

Lemma holders_spawn (cs : list call) :
  holders (map (fun c => spawn (call_code c)) cs) = 0%nat.
Proof.
  induction cs as [|c cs IH]; [reflexivity|].
  cbn [map holders]. rewrite IH.
  destruct c as [led value|led value]; cbn [call_code spawn code].
  - unfold vfd_led_generic_set_code. destruct (negb (value =? LED_OFF)); reflexivity.
  - reflexivity.
Qed.

(** X14.  The mutex does its own job.  However many brightness
    callbacks run at once and however they are scheduled, at no moment
    is more than one of them between [mutex_lock] and [mutex_unlock] of
    [vfd_send_packet], and the mutex is held exactly when one is: the
    transfers and the sleeps that follow them never overlap. *)
Theorem mutual_exclusion (calls : list call) (sched : list nat) (k : kernel) :
  vfd_mutex (vfd k) = false ->
  let m := run_schedule sched
             (mk_machine k (map (fun c => spawn (call_code c)) calls)) in
  (holders (pool m) <= 1)%nat /\
  (vfd_mutex (vfd (kern m)) = true <-> holders (pool m) = 1%nat).
Proof.
  intros Hk m.
  assert (Hinv : lock_inv m).
  { apply run_schedule_lock_inv. split; cbn [pool kern].
    - apply Forall_fmap, Forall_forall. intros c _. apply call_code_ok.
    - rewrite holders_spawn, Hk. reflexivity. }
  destruct Hinv as [_ Hh]. rewrite Hh.
  destruct (vfd_mutex (vfd (kern m))); split; try lia; split; intros; congruence.
Qed.

Lemma mutual_exclusion_witness :
  vfd_mutex (vfd (boot [])) = false /\
  holders (pool (run_schedule [0; 1; 1; 2; 0; 0; 1; 0; 0; 0; 0; 1; 2; 0; 0]%nat
                   (mk_machine (boot [])
                      (map (fun c => spawn (call_code c))
                         [GenericSet (icon_led 0) 1; VolumeSet volume_led 7;
                          GenericSet (icon_led 3) 0])))) = 1%nat.
Proof.
  assert (H1 : vfd_mutex (vfd (boot [])) = false) by reflexivity.
  destruct (mutual_exclusion
              [GenericSet (icon_led 0) 1; VolumeSet volume_led 7;
               GenericSet (icon_led 3) 0]
              [0; 1; 1; 2; 0; 0; 1; 0; 0; 0; 0; 1; 2; 0; 0]%nat (boot []) H1)
    as [_ Hiff].
  split; [exact H1|]. apply Hiff. vm_compute. reflexivity.
Defined.

Lemma holders_find (p : list thread) :
  (1 <= holders p)%nat ->
  exists (tid : nat) (t : thread), p !! tid = Some t /\ in_section (code t) = true.
Proof.
  induction p as [|t0 p IH]; cbn [holders]; intros H; [lia|].
  destruct (in_section (code t0)) eqn:E.
  - exists 0%nat, t0. split; [reflexivity | exact E].
  - destruct (IH ltac:(lia)) as (tid & t & Ht & Hin).
    exists (S tid), t. split; [exact Ht | exact Hin].
Qed.

Lemma sched_step_runs (tid : nat) (m : machine) (i : instr) (rest : list instr) (r : Z) :
  pool m !! tid = Some (mk_thread (i :: rest) r) ->
  step_instr i r (kern m) <> None ->
  exists r' : Z, pool (sched_step tid m) !! tid = Some (mk_thread rest r').
Proof.
  intros Ht Hs. unfold sched_step. rewrite Ht.
  destruct (step_instr i r (kern m)) as [[k' r']|]; [|contradiction].
  exists r'. cbn [pool]. apply list_lookup_insert_eq.
  apply lookup_lt_Some in Ht. exact Ht.
Qed.

(** X15.  No deadlock.  However the brightness callbacks were
    scheduled so far, as long as one of them has a statement left there
    is a thread that can execute its next statement: the thread that
    holds the mutex never waits, and when no thread holds it nobody
    waits. *)
Theorem no_deadlock (calls : list call) (sched : list nat) (k : kernel) :
  vfd_mutex (vfd k) = false ->
  let m := run_schedule sched
             (mk_machine k (map (fun c => spawn (call_code c)) calls)) in
  (exists t : thread, t ∈ pool m /\ code t <> []) ->
  exists (tid : nat) (i : instr) (rest : list instr) (r r' : Z),
    pool m !! tid = Some (mk_thread (i :: rest) r) /\
    pool (sched_step tid m) !! tid = Some (mk_thread rest r').
Proof.
  intros Hk m (t & Ht & Hcode).
  assert (Hinv : lock_inv m).
  { apply run_schedule_lock_inv. split; cbn [pool kern].
    - apply Forall_fmap, Forall_forall. intros c _. apply call_code_ok.
    - rewrite holders_spawn, Hk. reflexivity. }
  destruct Hinv as [_ Hh].
  destruct (vfd_mutex (vfd (kern m))) eqn:Hm.
  - (* the holder runs *)
    destruct (holders_find (pool m) ltac:(lia)) as (tid & [c r] & Hl & Hin).
    cbn [code] in Hin. destruct c as [|i rest]; [discriminate Hin|].
    assert (Hs : step_instr i r (kern m) <> None).
    { intros Hb. apply step_instr_blocks in Hb as [-> _]. discriminate Hin. }
    destruct (sched_step_runs tid m i rest r Hl Hs) as (r' & Hr).
    exists tid, i, rest, r, r'. split; assumption.
  - (* nobody holds the mutex *)
    apply list_elem_of_lookup in Ht as (tid & Hl).
    destruct t as [c r]. cbn [code] in Hcode.
    destruct c as [|i rest]; [contradiction|].
    assert (Hs : step_instr i r (kern m) <> None).
    { intros Hb. apply step_instr_blocks in Hb as [_ Hb]. congruence. }
    destruct (sched_step_runs tid m i rest r Hl Hs) as (r' & Hr).
    exists tid, i, rest, r, r'. split; assumption.
Qed.

Lemma no_deadlock_witness :
  let m := run_schedule (replicate 8 0%nat ++ [1%nat])
             (mk_machine (boot [])
                (map (fun c => spawn (call_code c))
                   [GenericSet (icon_led 0) 1; GenericSet (icon_led 1) 1])) in
  vfd_mutex (vfd (boot [])) = false /\
  (exists t : thread, t ∈ pool m /\ code t <> []) /\
  exists (tid : nat) (i : instr) (rest : list instr) (r r' : Z),
    pool m !! tid = Some (mk_thread (i :: rest) r) /\
    pool (sched_step tid m) !! tid = Some (mk_thread rest r').
Proof.
  intros m.
  assert (H1 : vfd_mutex (vfd (boot [])) = false) by reflexivity.
  assert (H2 : exists t : thread, t ∈ pool m /\ code t <> []).
  { eexists. split; [vm_compute; apply list_elem_of_here | vm_compute; discriminate]. }
  split; [exact H1|]. split; [exact H2|].
  exact (no_deadlock [GenericSet (icon_led 0) 1; GenericSet (icon_led 1) 1]
           (replicate 8 0%nat ++ [1%nat]) (boot []) H1 H2).
Defined.

(** ** Concurrent callers: what reaches the transport *)

Lemma code_ok_step (i : instr) (rest : list instr) :
  code_ok (i :: rest) ->
  (plain i = true /\
   exists pre : list instr,
     Forall (fun i => plain i = true) pre /\ rest = pre ++ vfd_send_packet_code) \/
  (i = IMutexLock /\
   rest = [IUsbControlMsg; IMsleep SHUTTLE_VFD_SLEEP_MS; IMutexUnlock; IDevErr]) \/
  (i = IUsbControlMsg /\ rest = [IMsleep SHUTTLE_VFD_SLEEP_MS; IMutexUnlock; IDevErr]) \/
  (i = IMsleep SHUTTLE_VFD_SLEEP_MS /\ rest = [IMutexUnlock; IDevErr]) \/
  (i = IMutexUnlock /\ rest = [IDevErr]) \/
  (i = IDevErr /\ rest = []).
Proof.
  intros [(pre & Hpre & E)|[[E|[E|E]]|[E|E]]].
  - destruct pre as [|p pre].
    + cbn [app vfd_send_packet_code] in E. injection E as -> ->.
      right. left. split; reflexivity.
    + cbn [app] in E. injection E as -> ->.
      apply Forall_cons in Hpre as [Hp Hpre].
      left. split; [exact Hp|]. exists pre. split; [exact Hpre | reflexivity].
  - injection E as -> ->. right. right. left. split; reflexivity.
  - injection E as -> ->. right. right. right. left. split; reflexivity.
  - injection E as -> ->. right. right. right. right. left. split; reflexivity.
  - injection E as -> ->. right. right. right. right. right. split; reflexivity.
  - discriminate E.
Qed.

Lemma code_ok_rest (i : instr) (rest : list instr) :
  code_ok (i :: rest) -> code_ok rest.
Proof.
  intros H.
  destruct (code_ok_step i rest H)
    as [(_ & pre & Hpre & ->)|[(_ & ->)|[(_ & ->)|[(_ & ->)|[(_ & ->)|(_ & ->)]]]]].
  - left. exists pre. split; [exact Hpre | reflexivity].
  - right. left. left. reflexivity.
  - right. left. right. left. reflexivity.
  - right. left. right. right. reflexivity.
  - right. right. left. reflexivity.
  - right. right. right. reflexivity.
Qed.

Lemma count_code_insert (f : list instr -> bool) (p : list thread) (tid : nat)
    (t t' : thread) :
  p !! tid = Some t ->
  (count_code f (<[tid := t']> p) + (if f (code t) then 1 else 0)
   = count_code f p + (if f (code t') then 1 else 0))%nat.
Proof.
  revert tid. induction p as [|t0 p IH]; intros tid Ht; [discriminate Ht|].
  destruct tid as [|tid]; cbn [lookup list_lookup] in Ht.
  - injection Ht as ->. change (<[0%nat := t']> (t :: p)) with (t' :: p).
    cbn [count_code]. lia.
  - change (<[S tid := t']> (t0 :: p)) with (t0 :: <[tid := t']> p).
    cbn [count_code]. specialize (IH tid Ht). lia.
Qed.

Lemma flags_before (pre : list instr) :
  Forall (fun i => plain i = true) pre ->
  sent_already (pre ++ vfd_send_packet_code) = false /\
  slept_already (pre ++ vfd_send_packet_code) = false.
Proof.
  intros H. destruct pre as [|i pre]; [split; reflexivity|].
  apply Forall_cons in H as [Hi _].
  destruct i; try discriminate Hi; split; reflexivity.
Qed.

Lemma to_uchar_byte (v : Z) : is_byte (to_uchar v).
Proof. unfold is_byte, to_uchar. apply Z.mod_pos_bound. lia. Qed.

Lemma packet_store_ok (i : nat) (v : Z) (d : shuttle_vfd) :
  packet_ok (packet d) -> packet_ok (packet (packet_store i v d)).
Proof.
  intros [Hl Hb]. unfold packet_store, set_packet. cbn [packet]. split.
  - rewrite length_insert. exact Hl.
  - apply Forall_insert; [exact Hb | apply to_uchar_byte].
Qed.

Lemma memset_packet_ok : packet_ok (memset0 SHUTTLE_VFD_PACKET_SIZE).
Proof. split; [reflexivity|]. unfold is_byte. repeat constructor; lia. Qed.

(** What one statement does to the transport and to the packet buffer. *)
Lemma step_instr_transport (i : instr) (r r' : Z) (k k' : kernel) :
  step_instr i r k = Some (k', r') ->
  packet_ok (packet (vfd k)) ->
  usb_sent k' = usb_sent k ++ match i with
                              | IUsbControlMsg => [packet (vfd k)]
                              | _ => []
                              end /\
  uptime_ms k' = uptime_ms k + match i with IMsleep ms => ms | _ => 0 end /\
  packet_ok (packet (vfd k')).
Proof.
  intros H Hp.
  destruct i; cbn [step_instr] in H;
    try (injection H as <- <-; cbn;
         rewrite ?app_nil_r, ?Z.add_0_r;
         repeat split; try reflexivity; try assumption;
         try apply memset_packet_ok; try (apply packet_store_ok; assumption);
         try apply Hp; fail).
  - destruct (vfd_mutex (vfd k)); [discriminate H|].
    injection H as <- <-. cbn. rewrite app_nil_r, Z.add_0_r.
    split; [reflexivity|]. split; [reflexivity | exact Hp].
  - injection H as <- <-. destruct (r <? 0); cbn; rewrite app_nil_r, Z.add_0_r;
      (split; [reflexivity|]; split; [reflexivity | exact Hp]).
Qed.

Lemma sched_step_transport_inv (n0 : nat) (t0 : Z) (tid : nat) (m : machine) :
  transport_inv n0 t0 m -> transport_inv n0 t0 (sched_step tid m).
Proof.
  intros Hinv. pose proof Hinv as (Hok & Hsent & Htime & Hpk & Hall).
  unfold sched_step.
  destruct (pool m !! tid) as [[c r]|] eqn:Ht; [|exact Hinv].
  destruct c as [|i rest]; [exact Hinv|].
  destruct (step_instr i r (kern m)) as [[k' r']|] eqn:Hs; [|exact Hinv].
  clear Hinv.
  destruct (step_instr_transport _ _ _ _ _ Hs Hpk) as (Hs' & Ht' & Hpk').
  pose proof (count_code_insert sent_already (pool m) tid _ (mk_thread rest r') Ht) as H1.
  pose proof (count_code_insert slept_already (pool m) tid _ (mk_thread rest r') Ht) as H2.
  cbn [code] in H1, H2.
  assert (Hc : code_ok (i :: rest)).
  { apply (proj1 (Forall_lookup _ _) Hok tid _ Ht). }
  assert (Hok' : Forall (fun t => code_ok (code t)) (<[tid := mk_thread rest r']> (pool m))).
  { apply Forall_insert; [exact Hok|]. cbn [code]. apply (code_ok_rest i), Hc. }
  unfold transport_inv. cbn [pool kern].
  split; [exact Hok'|].
  unfold SHUTTLE_VFD_SLEEP_MS in *.
  destruct (code_ok_step i rest Hc)
    as [(Hp & pre & Hpre & ->)|[(-> & ->)|[(-> & ->)|[(-> & ->)|[(-> & ->)|(-> & ->)]]]]];
    unfold SHUTTLE_VFD_SLEEP_MS in *.
  - destruct (flags_before pre Hpre) as [F1 F2]. rewrite F1 in H1. rewrite F2 in H2.
    assert (G1 : sent_already (i :: pre ++ vfd_send_packet_code) = false)
      by (destruct i; try discriminate Hp; reflexivity).
    assert (G2 : slept_already (i :: pre ++ vfd_send_packet_code) = false)
      by (destruct i; try discriminate Hp; reflexivity).
    rewrite G1 in H1. rewrite G2 in H2.
    assert (E1 : usb_sent k' = usb_sent (kern m)).
    { rewrite Hs'. destruct i; try discriminate Hp; apply app_nil_r. }
    assert (E2 : uptime_ms k' = uptime_ms (kern m)).
    { rewrite Ht'. destruct i; try discriminate Hp; lia. }
    rewrite E1, E2. split; [lia|]. split; [lia|]. split; [exact Hpk' | exact Hall].
  - cbn [sent_already slept_already] in H1, H2. rewrite app_nil_r in Hs'.
    rewrite Hs', Ht'. split; [lia|]. split; [lia|]. split; [exact Hpk' | exact Hall].
  - cbn [sent_already slept_already] in H1, H2.
    rewrite Hs', Ht', length_app. cbn [length].
    split; [lia|]. split; [lia|]. split; [exact Hpk'|].
    rewrite drop_app_le by lia. apply Forall_app. split; [exact Hall|].
    constructor; [exact Hpk | constructor].
  - cbn [sent_already slept_already] in H1, H2. rewrite app_nil_r in Hs'.
    rewrite Hs', Ht'. split; [lia|]. split; [lia|]. split; [exact Hpk' | exact Hall].
  - cbn [sent_already slept_already] in H1, H2. rewrite app_nil_r in Hs'.
    rewrite Hs', Ht'. split; [lia|]. split; [lia|]. split; [exact Hpk' | exact Hall].
  - cbn [sent_already slept_already] in H1, H2. rewrite app_nil_r in Hs'.
    rewrite Hs', Ht'. split; [lia|]. split; [lia|]. split; [exact Hpk' | exact Hall].
Qed.

Lemma run_schedule_transport_inv (n0 : nat) (t0 : Z) (sched : list nat) (m : machine) :
  transport_inv n0 t0 m -> transport_inv n0 t0 (run_schedule sched m).
Proof.
  revert m. induction sched as [|tid sched IH]; intros m Hm; [exact Hm|].
  rewrite run_schedule_cons. apply IH, sched_step_transport_inv, Hm.
Qed.

Lemma sched_step_pool_length (tid : nat) (m : machine) :
  length (pool (sched_step tid m)) = length (pool m).
Proof.
  unfold sched_step. destruct (pool m !! tid) as [[[|i rest] r]|]; try reflexivity.
  destruct (step_instr i r (kern m)) as [[k' r']|]; [|reflexivity].
  cbn [pool]. apply length_insert.
Qed.

Lemma run_schedule_pool_length (sched : list nat) (m : machine) :
  length (pool (run_schedule sched m)) = length (pool m).
Proof.
  revert m. induction sched as [|tid sched IH]; intros m; [reflexivity|].
  rewrite run_schedule_cons, IH. apply sched_step_pool_length.
Qed.

Lemma count_code_le (f : list instr -> bool) (p : list thread) :
  (count_code f p <= length p)%nat.
Proof.
  induction p as [|t p IH]; cbn [count_code length]; [lia|].
  destruct (f (code t)); lia.
Qed.

Lemma count_code_done (f : list instr -> bool) (p : list thread) :
  f [] = true -> Forall (fun t => code t = []) p -> count_code f p = length p.
Proof.
  intros Hf. induction p as [|t p IH]; intros H; [reflexivity|].
  apply Forall_cons in H as [Ht H]. cbn [count_code length].
  rewrite Ht, Hf, IH by exact H. reflexivity.
Qed.

Lemma count_code_spawn (f : list instr -> bool) (cs : list call) :
  (forall c : call, f (call_code c) = false) ->
  count_code f (map (fun c => spawn (call_code c)) cs) = 0%nat.
Proof.
  intros Hf. induction cs as [|c cs IH]; [reflexivity|].
  cbn [map count_code spawn code]. rewrite Hf, IH. reflexivity.
Qed.

Lemma flags_call_code (c : call) :
  sent_already (call_code c) = false /\ slept_already (call_code c) = false.
Proof.
  destruct c as [led value|led value]; cbn [call_code].
  - unfold vfd_led_generic_set_code.
    destruct (negb (value =? LED_OFF)); split; reflexivity.
  - split; reflexivity.
Qed.

Lemma transport_inv_start (calls : list call) (k : kernel) :
  packet_ok (packet (vfd k)) ->
  transport_inv (length (usb_sent k)) (uptime_ms k)
    (mk_machine k (map (fun c => spawn (call_code c)) calls)).
Proof.
  intros Hp. unfold transport_inv. cbn [pool kern].
  rewrite !count_code_spawn by (intros c; apply flags_call_code).
  split; [apply Forall_fmap, Forall_forall; intros c _; apply call_code_ok|].
  split; [lia|]. split; [lia|]. split; [exact Hp|].
  rewrite drop_all. constructor.
Qed.

(** X16.  One transfer and one sleep per call, whatever the
    schedule.  At every moment of a run of concurrent brightness
    callbacks the transport has been handed at most one packet per
    call; when every callback has returned it has been handed exactly
    one packet per call, the callers have slept 24 ms per call in all,
    and the mutex is free. *)
Theorem one_transfer_per_call (calls : list call) (sched : list nat) (k : kernel) :
  vfd_mutex (vfd k) = false ->
  packet_ok (packet (vfd k)) ->
  let m := run_schedule sched
             (mk_machine k (map (fun c => spawn (call_code c)) calls)) in
  (length (usb_sent (kern m)) <= length (usb_sent k) + length calls)%nat /\
  (Forall (fun t => code t = []) (pool m) ->
   length (usb_sent (kern m)) = (length (usb_sent k) + length calls)%nat /\
   uptime_ms (kern m) = uptime_ms k + 24 * Z.of_nat (length calls) /\
   vfd_mutex (vfd (kern m)) = false).
Proof.
  intros Hk Hp m.
  pose proof (run_schedule_transport_inv _ _ sched _ (transport_inv_start calls k Hp))
    as (_ & Hsent & Htime & _ & _).
  fold m in Hsent, Htime.
  assert (Hlen : length (pool m) = length calls).
  { unfold m. rewrite run_schedule_pool_length. cbn [pool]. apply length_map. }
  split.
  - pose proof (count_code_le sent_already (pool m)). lia.
  - intros Hdone.
    rewrite (count_code_done sent_already) in Hsent by (try reflexivity; exact Hdone).
    rewrite (count_code_done slept_already) in Htime by (try reflexivity; exact Hdone).
    split; [lia|]. split; [unfold SHUTTLE_VFD_SLEEP_MS in Htime; lia|].
    assert (Hinv : lock_inv m).
    { apply run_schedule_lock_inv. split; cbn [pool kern].
      - apply Forall_fmap, Forall_forall. intros c _. apply call_code_ok.
      - rewrite holders_spawn, Hk. reflexivity. }
    destruct Hinv as [_ Hh].
    assert (H0 : holders (pool m) = 0%nat).
    { clear -Hdone. induction (pool m) as [|t p IH]; [reflexivity|].
      apply Forall_cons in Hdone as [Ht Hdone]. cbn [holders].
      rewrite Ht, IH by exact Hdone. reflexivity. }
    rewrite H0 in Hh. destruct (vfd_mutex (vfd (kern m))); [discriminate Hh | reflexivity].
Qed.

Lemma one_transfer_per_call_witness :
  vfd_mutex (vfd (exec shuttle_vfd_probe (boot []))) = false /\
  packet_ok (packet (vfd (exec shuttle_vfd_probe (boot [])))) /\
  length (usb_sent (kern (run_schedule race_schedule two_callers))) = 3%nat.
Proof.
  assert (H1 : vfd_mutex (vfd (exec shuttle_vfd_probe (boot []))) = false) by reflexivity.
  assert (H2 : packet_ok (packet (vfd (exec shuttle_vfd_probe (boot []))))).
  { split; [reflexivity|]. unfold is_byte. vm_compute. repeat constructor; discriminate. }
  destruct (one_transfer_per_call
              [GenericSet (icon_led 0) 1; GenericSet (icon_led 1) 1]
              race_schedule (exec shuttle_vfd_probe (boot [])) H1 H2) as [_ Hdone].
  split; [exact H1|]. split; [exact H2|].
  apply Hdone. vm_compute. repeat constructor.
Defined.

(** X17.  A race can spoil what a packet says, never its size.  At
    every moment of a run of concurrent brightness callbacks, under any
    schedule, every packet the callbacks have handed to the transport
    is eight byte values long. *)
Theorem packets_whole_under_any_schedule
    (calls : list call) (sched : list nat) (k : kernel) :
  packet_ok (packet (vfd k)) ->
  Forall packet_ok
    (drop (length (usb_sent k))
       (usb_sent (kern (run_schedule sched
                          (mk_machine k (map (fun c => spawn (call_code c)) calls)))))).
Proof.
  intros Hp.
  pose proof (run_schedule_transport_inv _ _ sched _ (transport_inv_start calls k Hp))
    as (_ & _ & _ & _ & Hall).
  exact Hall.
Qed.

Lemma packets_whole_under_any_schedule_witness :
  packet_ok (packet (vfd (exec shuttle_vfd_probe (boot [])))) /\
  Forall packet_ok (drop 1 (usb_sent (kern (run_schedule race_schedule two_callers)))).
Proof.
  assert (H2 : packet_ok (packet (vfd (exec shuttle_vfd_probe (boot []))))).
  { split; [reflexivity|]. unfold is_byte. vm_compute. repeat constructor; discriminate. }
  split; [exact H2|].
  exact (packets_whole_under_any_schedule
           [GenericSet (icon_led 0) 1; GenericSet (icon_led 1) 1]
           race_schedule (exec shuttle_vfd_probe (boot [])) H2).
Defined.

(** ** Callers that do not overlap *)

Lemma sched_step_done (k : kernel) (r : Z) :
  sched_step 0 (mk_machine k [mk_thread [] r]) = mk_machine k [mk_thread [] r].
Proof. reflexivity. Qed.

Ltac alone_machine_finish :=
  rewrite ?run_schedule_cons, ?sched_step_done;
  unfold run_schedule; cbn [foldl];
  unfold exec, submit, after_send, with_icons_mask, next_result,
    icons_packet, dev_err, ret;
  cbn [vfd usb_results usb_sent dmesg uptime_ms snd];
  unfold packet_store, set_packet, set_mutex, set_icons_mask, memset0;
  cbn [vfd_mutex icons_mask packet screen replicate SHUTTLE_VFD_PACKET_SIZE
       insert list_insert];
  rewrite ?to_uchar_land_1F;
  change (to_uchar (Z.shiftl 7 4 + 4)) with 0x74.

(** A callback alone: after 13 steps the thread has no statement left,
    and the kernel is the one the callback leaves. *)
Lemma call_alone (c : call) (k : kernel) :
  vfd_mutex (vfd k) = false ->
  run_schedule (replicate 13 0%nat) (mk_machine k [spawn (call_code c)])
  = mk_machine (exec (call_fn c) k) [mk_thread [] (next_result k)].
Proof.
  intros Hm. destruct k as [[mx m p s] rs sent log t]. cbn in Hm. subst mx.
  destruct c as [led value|led value]; cbn [call_code call_fn]; unfold exec.
  - rewrite vfd_led_generic_set_run. cbv zeta.
    unfold vfd_led_generic_set_code, vfd_set_icons_code, vfd_send_packet_code, spawn.
    cbn [replicate app].
    destruct (negb (value =? LED_OFF)); do 12 alone_step; alone_machine_finish;
      (destruct rs as [|r rs]; [|destruct (r <? 0)]);
      cbn [tail snd app]; rewrite ?app_nil_r; reflexivity.
  - rewrite vfd_led_volume_set_run. cbv zeta.
    unfold vfd_led_volume_set_code, vfd_set_icons_code, vfd_send_packet_code, spawn.
    cbn [replicate app].
    destruct (negb (value =? LED_OFF)); cbn [app]; do 12 alone_step;
      try alone_step; alone_machine_finish;
      (destruct rs as [|r rs]; [|destruct (r <? 0)]);
      cbn [tail snd app]; rewrite ?app_nil_r; reflexivity.
Qed.

Lemma run_schedule_app (s1 s2 : list nat) (m : machine) :
  run_schedule (s1 ++ s2) m = run_schedule s2 (run_schedule s1 m).
Proof. unfold run_schedule. apply foldl_app. Qed.

(** A step of one thread does not look at the other threads. *)
Lemma sched_step_in_pool (k : kernel) (t : thread) (ps qs : list thread) :
  exists k' t',
    sched_step 0 (mk_machine k [t]) = mk_machine k' [t'] /\
    sched_step (length ps) (mk_machine k (ps ++ t :: qs))
    = mk_machine k' (ps ++ t' :: qs).
Proof.
  unfold sched_step. cbn [pool kern].
  rewrite list_lookup_middle by reflexivity.
  change ([t] !! 0%nat) with (Some t).
  destruct t as [[|i rest] r].
  - exists k, (mk_thread [] r). split; reflexivity.
  - destruct (step_instr i r k) as [[k' r']|].
    + exists k', (mk_thread rest r'). split; [reflexivity|].
      f_equal. rewrite insert_app_r_alt by lia.
      rewrite Nat.sub_diag. reflexivity.
    + exists k, (mk_thread (i :: rest) r). split; reflexivity.
Qed.

Lemma run_schedule_in_pool (n : nat) (k : kernel) (t : thread)
    (ps qs : list thread) (k' : kernel) (t' : thread) :
  run_schedule (replicate n 0%nat) (mk_machine k [t]) = mk_machine k' [t'] ->
  run_schedule (replicate n (length ps)) (mk_machine k (ps ++ t :: qs))
  = mk_machine k' (ps ++ t' :: qs).
Proof.
  revert k t. induction n as [|n IH]; intros k t H.
  - cbn in H. injection H as -> ->. reflexivity.
  - cbn [replicate] in *. rewrite run_schedule_cons in *.
    destruct (sched_step_in_pool k t ps qs) as (k1 & t1 & E1 & E2).
    rewrite E1 in H. rewrite E2. apply IH. exact H.
Qed.

Lemma exec_call_fn_mutex (c : call) (k : kernel) :
  vfd_mutex (vfd k) = false ->
  vfd_mutex (vfd (exec (call_fn c) k)) = false.
Proof.
  intros Hm. destruct c as [led value|led value]; cbn [call_fn].
  - rewrite exec_generic_set_submit. reflexivity.
  - rewrite exec_volume_set_submit. reflexivity.
Qed.

Lemma one_by_one_run (cs : list call) (ps : list thread) (k : kernel) :
  vfd_mutex (vfd k) = false ->
  exists qs,
    run_schedule (one_by_one (length ps) (length cs))
      (mk_machine k (ps ++ map (fun c => spawn (call_code c)) cs))
    = mk_machine (foldl (fun k c => exec (call_fn c) k) k cs) (ps ++ qs)
    /\ length qs = length cs
    /\ Forall (fun t => code t = []) qs.
Proof.
  revert ps k. induction cs as [|c cs IH]; intros ps k Hm.
  - exists []. repeat split; constructor.
  - unfold one_by_one. cbn [length seq map concat foldl].
    rewrite run_schedule_app.
    rewrite (run_schedule_in_pool 13 k (spawn (call_code c)) ps
               (map (fun c => spawn (call_code c)) cs)
               (exec (call_fn c) k) (mk_thread [] (next_result k)))
      by (apply call_alone; exact Hm).
    destruct (IH (ps ++ [mk_thread [] (next_result k)]) (exec (call_fn c) k)
                (exec_call_fn_mutex c k Hm)) as (qs & E & Hl & Hq).
    rewrite length_app, Nat.add_1_r in E. rewrite <- app_assoc in E.
    cbn [app] in E. unfold one_by_one in E. rewrite E.
    exists (mk_thread [] (next_result k) :: qs).
    rewrite <- app_assoc. cbn [app length]. repeat split.
    + congruence.
    + constructor; [reflexivity | exact Hq].
Qed.

(** X18. Callers that do not overlap behave as the callbacks called one
    after the other: when [n] brightness callbacks run as [n] threads
    and each thread runs to its end before the next one starts, the
    driver state, the packets sent, the log and the time slept are those
    of the sequential composition of the callbacks, in the order of the
    threads, and every thread has finished. *)
Theorem serial_callers_are_sequential (cs : list call) (k : kernel) :
  vfd_mutex (vfd k) = false ->
  let m := run_schedule (one_by_one 0 (length cs))
             (mk_machine k (map (fun c => spawn (call_code c)) cs)) in
  kern m = foldl (fun k c => exec (call_fn c) k) k cs /\
  length (pool m) = length cs /\
  Forall (fun t => code t = []) (pool m).
Proof.
  intros Hm m. subst m.
  destruct (one_by_one_run cs [] k Hm) as (qs & E & Hl & Hq).
  cbn [length app] in E. rewrite E. cbn [kern pool].
  repeat split; assumption.
Qed.

Lemma serial_callers_are_sequential_witness :
  vfd_mutex (vfd (boot [8; -5])) = false /\
  let cs := [GenericSet (icon_led 2) 1; VolumeSet volume_led 7;
             GenericSet (icon_led 2) 0] in
  let m := run_schedule (one_by_one 0 (length cs))
             (mk_machine (boot [8; -5]) (map (fun c => spawn (call_code c)) cs)) in
  kern m = foldl (fun k c => exec (call_fn c) k) (boot [8; -5]) cs /\
  length (pool m) = length cs /\
  Forall (fun t => code t = []) (pool m).
Proof.
  split; [reflexivity|].
  apply (serial_callers_are_sequential
           [GenericSet (icon_led 2) 1; VolumeSet volume_led 7;
            GenericSet (icon_led 2) 0] (boot [8; -5])).
  reflexivity.
Defined.
